(** * AI-security-guard: the anomaly-scoring core, embedded and verified

    The development follows the two modules that hold the core of the
    repository:

    - [data_generator.py]: [DataGenerator] (synthetic normal and suspicious
      file-access events);
    - [ml_pipeline.py]: [FeatureEngineer] and [AnomalyDetector] (feature
      engineering, fit / score / predict, model persistence).

    Python code is embedded as functions in a state-and-exception monad.
    What lives outside the repository (numpy's and random's generators,
    scikit-learn's estimators, joblib's serializer, the operating system's
    entropy, the clock) enters as an interface: a record of operations,
    with the documented contract as a separate proposition where a proof
    needs it.

    Numbers.  A Python [int] is a [Z].  A Python [float] is modelled by the
    rational it denotes ([Q]); the rounding error of binary64 arithmetic,
    signed zeros and infinite inputs are not represented, and the one special
    float the code manipulates on purpose, pandas' missing value [NaN], is a
    separate cell constructor, as is the infinity a division by zero yields. *)

From Stdlib Require Import ZArith QArith Qround Qabs String Ascii List Lia Lqa.
From stdpp Require Import base option list strings gmap pretty.

Local Open Scope string_scope.
Local Open Scope Z_scope.

(** ** Exceptions and the interpreter monad *)

(** A raised exception: the name of its class and its message. *)
Record exn := Exn { exn_class : string; exn_arg : string }.

Definition KeyError (k : string) : exn := Exn "KeyError" k.
Definition ValueError (msg : string) : exn := Exn "ValueError" msg.
Definition TypeError (msg : string) : exn := Exn "TypeError" msg.
Definition AttributeError (msg : string) : exn := Exn "AttributeError" msg.
Definition OverflowError (msg : string) : exn := Exn "OverflowError" msg.
Definition NotFittedError (msg : string) : exn := Exn "NotFittedError" msg.

(** The outcome of a call: an exception or a value. *)
Inductive outcome (A : Type) : Type :=
| Raise (e : exn)
| Ok (a : A).
Arguments Raise {A} e.
Arguments Ok {A} a.

Definition obind {A B} (r : outcome A) (k : A -> outcome B) : outcome B :=
  match r with
  | Raise e => Raise e
  | Ok a => k a
  end.

(** A computation over a mutable state [S]: the state survives a raise. *)
Definition M (S A : Type) : Type := S -> S * outcome A.

Definition ret {S A} (a : A) : M S A := fun s => (s, Ok a).
Definition raise {S A} (e : exn) : M S A := fun s => (s, Raise e).
Definition bind {S A B} (c : M S A) (k : A -> M S B) : M S B :=
  fun s => match c s with
           | (s', Ok a) => k a s'
           | (s', Raise e) => (s', Raise e)
           end.
Definition get {S} : M S S := fun s => (s, Ok s).
Definition modify {S} (f : S -> S) : M S unit := fun s => (f s, Ok tt).
Definition lift_outcome {S A} (r : outcome A) : M S A := fun s => (s, r).

(** [try: ... except Exception as e: ...] *)
Definition try_except {S A} (c : M S A) (handler : exn -> M S A) : M S A :=
  fun s => match c s with
           | (s', Ok a) => (s', Ok a)
           | (s', Raise e) => handler e s'
           end.

Declare Scope py_scope.
Delimit Scope py_scope with py.
Notation "x <- c1 ;; c2" := (bind c1 (fun x => c2))
  (at level 100, c1 at next level, right associativity) : py_scope.
Notation "c1 ;;; c2" := (bind c1 (fun _ => c2))
  (at level 100, right associativity) : py_scope.
Notation "'let!' x ':=' c1 'in' c2" := (obind c1 (fun x => c2))
  (at level 10, x name, c1 at level 100, c2 at level 200) : py_scope.
Local Open Scope py_scope.

Fixpoint map_outcome {A B} (f : A -> outcome B) (l : list A) : outcome (list B) :=
  match l with
  | [] => Ok []
  | x :: l' => let! y := f x in let! ys := map_outcome f l' in Ok (y :: ys)
  end.

(** [for _ in range(n): rows.append(body)] *)
Fixpoint for_range {S A} (n : nat) (body : M S A) : M S (list A) :=
  match n with
  | O => ret []
  | Datatypes.S k => x <- body ;; xs <- for_range k body ;; ret (x :: xs)
  end.

(** ** Floats as rationals: numpy and builtin helpers *)

Definition np_maximum (a b : Q) : Q := if Qle_bool a b then b else a.
Definition np_minimum (a b : Q) : Q := if Qle_bool a b then a else b.

(** [np.clip(x, lo, hi)] is [minimum(maximum(x, lo), hi)]. *)
Definition np_clip (x lo hi : Q) : Q := np_minimum (np_maximum x lo) hi.

(** Rounding to the nearest integer, ties to the even one: the rule of
    Python's [round] and of numpy's [round]. *)
Definition round_half_even (q : Q) : Z :=
  let f := Qfloor q in
  match (q - inject_Z f ?= 1 # 2)%Q with
  | Lt => f
  | Gt => f + 1
  | Eq => if Z.even f then f else f + 1
  end.

(** [round(x, 2)] and [round(x, 3)], as the code calls them. *)
Definition round2 (x : Q) : Q := Qmake (round_half_even (x * 100)) 100.
Definition round3 (x : Q) : Q := Qmake (round_half_even (x * 1000)) 1000.

(** [int(x)]: truncation toward zero. *)
Definition py_int (x : Q) : Z := Z.quot (Qnum x) (Zpos (Qden x)).

(** ** datetime and timedelta

    A date is kept as its proleptic Gregorian ordinal ([date.toordinal()]),
    which is what CPython's own arithmetic works on; the time of day keeps
    its four fields. *)

Module timedelta.
Record t := mk { days : Z; seconds : Z; microseconds : Z }.

(** [timedelta(days=d, hours=h, minutes=m)] on integers, normalised so
    that [0 <= seconds < 86400]; more than 999999999 days overflow. *)
Definition make (d h m : Z) : outcome t :=
  let s := h * 3600 + m * 60 in
  let d' := d + s / 86400 in
  if (Z.abs d' <=? 999999999)
  then Ok (mk d' (s mod 86400) 0)
  else Raise (OverflowError "days out of range").

(** [-td] *)
Definition neg (td : t) : outcome t :=
  let us := - microseconds td in
  let s := - seconds td + us / 1000000 in
  let d' := - days td + s / 86400 in
  if (Z.abs d' <=? 999999999)
  then Ok (mk d' (s mod 86400) (us mod 1000000))
  else Raise (OverflowError "days out of range").
End timedelta.

Module datetime.
Record t := mk { ordinal : Z; hour : Z; minute : Z; second : Z; microsecond : Z }.

Definition MAXORDINAL : Z := 3652059.

(** [dt + td] *)
Definition add (dt : t) (td : timedelta.t) : outcome t :=
  let us := microsecond dt + timedelta.microseconds td in
  let s := hour dt * 3600 + minute dt * 60 + second dt
           + timedelta.seconds td + us / 1000000 in
  let d := ordinal dt + timedelta.days td + s / 86400 in
  let s' := s mod 86400 in
  if (0 <? d) && (d <=? MAXORDINAL)
  then Ok (mk d (s' / 3600) ((s' mod 3600) / 60) ((s' mod 3600) mod 60)
              (us mod 1000000))
  else Raise (OverflowError "date value out of range").

(** [dt - td] is [dt + (-td)] *)
Definition sub (dt : t) (td : timedelta.t) : outcome t :=
  obind (timedelta.neg td) (add dt).

Definition check_field (name : string) (lo hi v : Z) : outcome unit :=
  if (lo <=? v) && (v <=? hi) then Ok tt
  else Raise (ValueError (name +:+ " is out of range")).

(** [dt.replace(hour=.., minute=.., second=.., microsecond=..)]; a field
    that is not passed keeps its value. *)
Definition replace (dt : t) (h m s us : option Z) : outcome t :=
  let h' := default (hour dt) h in
  let m' := default (minute dt) m in
  let s' := default (second dt) s in
  let us' := default (microsecond dt) us in
  obind (check_field "hour" 0 23 h') (fun _ =>
  obind (check_field "minute" 0 59 m') (fun _ =>
  obind (check_field "second" 0 59 s') (fun _ =>
  obind (check_field "microsecond" 0 999999 us') (fun _ =>
  Ok (mk (ordinal dt) h' m' s' us'))))).

(** [dt.weekday()], Monday is 0 *)
Definition weekday (dt : t) : Z := (ordinal dt + 6) mod 7.

(** Minutes since midnight. *)
Definition minute_of_day (dt : t) : Z := hour dt * 60 + minute dt.

Definition eqb (a b : t) : bool :=
  (ordinal a =? ordinal b) && (hour a =? hour b) && (minute a =? minute b)
  && (second a =? second b) && (microsecond a =? microsecond b).
End datetime.

(** ** uuid.uuid4

    [uuid4()] is [UUID(bytes=os.urandom(16), version=4)]: sixteen bytes of
    operating-system entropy, the variant and version bits forced, printed
    as 32 hexadecimal digits in groups 8-4-4-4-12. *)

Definition int_from_bytes (bs : list Z) : Z :=
  fold_left (fun acc b => acc * 256 + b mod 256) bs 0.

Definition uuid_int_v4 (bs : list Z) : Z :=
  let i := int_from_bytes bs in
  let i := Z.ldiff i (Z.shiftl 49152 48) in
  let i := Z.lor i (Z.shiftl 32768 48) in
  let i := Z.ldiff i (Z.shiftl 61440 64) in
  Z.lor i (Z.shiftl 4 76).

Definition hex_digit (d : Z) : string :=
  String.substring (Z.to_nat d) 1 "0123456789abcdef".

(** the hexadecimal digits of [i] at positions [from, from + len), counted from the
    most significant of 32 *)
Definition hex_slice (i : Z) (from len : nat) : string :=
  String.concat ""
    (map (fun k => hex_digit (Z.land (Z.shiftr i (4 * (31 - Z.of_nat k))) 15))
         (seq from len)).

Definition uuid_str (i : Z) : string :=
  hex_slice i 0 8 +:+ "-" +:+ hex_slice i 8 4 +:+ "-" +:+ hex_slice i 12 4
  +:+ "-" +:+ hex_slice i 16 4 +:+ "-" +:+ hex_slice i 20 12.


(** ** Cells, records and data frames

    A cell of a table.  [VNaN] is pandas' missing value. *)
Inductive value :=
| VStr (s : string)
| VInt (z : Z)
| VFloat (q : Q)
| VBool (b : bool)
| VTime (t : datetime.t)
| VInf                      (* +inf: a positive count divided by zero *)
| VNaN.

(** A dict literal with string keys, in insertion order. *)
Definition record := list (string * value).

Fixpoint assoc {A} (k : string) (l : list (string * A)) : option A :=
  match l with
  | [] => None
  | (k', v) :: l' => if String.eqb k k' then Some v else assoc k l'
  end.

(** A frame with the default index [0 .. nrows-1]: its columns, in order.
    The frames of this program never carry a custom index. *)
Record DataFrame := mkDataFrame {
  nrows : nat;
  columns : list (string * list value)
}.

Definition column_names (df : DataFrame) : list string := map fst (columns df).

(** [df.loc[i, c]] *)
Definition cell (df : DataFrame) (c : string) (i : nat) : option value :=
  match assoc c (columns df) with
  | Some col => col !! i
  | None => None
  end.

(** The keys of a list of records, each at its first appearance. *)
Fixpoint union_keys (seen ks : list string) : list string :=
  match ks with
  | [] => seen
  | k :: ks' =>
      if existsb (String.eqb k) seen then union_keys seen ks'
      else union_keys (seen ++ [k]) ks'
  end.

Definition records_columns (rows : list record) : list string :=
  fold_left (fun seen r => union_keys seen (map fst r)) rows [].

(** [pd.DataFrame(rows)] for a list of dicts; no rows give no columns. *)
Definition pd_DataFrame (rows : list record) : DataFrame :=
  {| nrows := length rows;
     columns := map (fun k => (k, map (fun r => default VNaN (assoc k r)) rows))
                    (records_columns rows) |}.

(** ** The seedable random sources, the entropy pool and the clock

    [numpy.random] (the legacy global generator) and [random] are libraries:
    an implementation gives the type of a generator state, the state a seed
    produces, and for each draw the value and the next state. *)
Record RandomSource := {
  NpState : Type;
  PyState : Type;
  np_seed : Z -> NpState;
  np_randint : Z -> Z -> NpState -> Z * NpState;
  np_normal : Q -> Q -> NpState -> Q * NpState;
  np_exponential : Q -> NpState -> Q * NpState;
  np_uniform : Q -> Q -> NpState -> Q * NpState;
  py_seed : Z -> PyState;
  py_choices : list string -> list Z -> PyState -> string * PyState;
  py_choice : list string -> PyState -> string * PyState
}.

(** The documented ranges: [randint(low, high)] lies in [low, high) and
    [uniform(low, high)] between its two bounds. *)
Record RandomSourceSpec (rs : RandomSource) : Prop := {
  np_randint_range : forall lo hi s,
    lo < hi -> lo <= fst (np_randint rs lo hi s) < hi;
  np_uniform_range : forall lo hi s,
    (lo <= hi)%Q ->
    (lo <= fst (np_uniform rs lo hi s))%Q /\ (fst (np_uniform rs lo hi s) <= hi)%Q
}.

(** One line of the log: level and message. *)
Definition log_line : Type := string * string.

(** config.py *)
Definition RANDOM_SEED : Z := 42.
Definition FILE_TYPES : list string :=
  ["PDF"; "Excel"; "Database export"; "CSV"; "Doc"; "PPT"; "Image"].
Definition ACTIONS : list string := ["view"; "download"].
Definition DEFAULT_NORMAL_EVENTS : Z := 2500.
Definition DEFAULT_SUSPICIOUS_EVENTS : Z := 180.
Definition DEFAULT_DAYS : Z := 10.
Definition WORK_START_HOUR : Q := 8.
Definition WORK_END_HOUR : Q := 19.
Definition TYPICAL_HOUR_MEAN : Q := 13.
Definition TYPICAL_HOUR_STD : Q := 25 # 10.
Definition DEFAULT_CONTAMINATION : Q := 2 # 100.
Definition N_ESTIMATORS : Z := 300.

Section DataGeneratorModule.
Context (rs : RandomSource).

(** The part of the process state that data_generator.py touches. *)
Record World := mkWorld {
  np_rng : NpState rs;          (* numpy's global generator *)
  py_rng : PyState rs;          (* random's global generator *)
  urandom : nat -> Z;           (* the bytes the OS hands out, in order *)
  urandom_pos : nat;            (* how many were handed out *)
  clock : datetime.t;           (* what datetime.now() reads *)
  gen_log : list log_line
}.

Definition np_random_seed (seed : Z) : M World unit :=
  modify (fun w => mkWorld (np_seed rs seed) (py_rng w) (urandom w)
                           (urandom_pos w) (clock w) (gen_log w)).

Definition random_seed (seed : Z) : M World unit :=
  modify (fun w => mkWorld (np_rng w) (py_seed rs seed) (urandom w)
                           (urandom_pos w) (clock w) (gen_log w)).

Definition np_draw {A} (f : NpState rs -> A * NpState rs) : M World A :=
  fun w => let '(a, s) := f (np_rng w) in
           (mkWorld s (py_rng w) (urandom w) (urandom_pos w) (clock w) (gen_log w),
            Ok a).

Definition py_draw {A} (f : PyState rs -> A * PyState rs) : M World A :=
  fun w => let '(a, s) := f (py_rng w) in
           (mkWorld (np_rng w) s (urandom w) (urandom_pos w) (clock w) (gen_log w),
            Ok a).

(** [np.random.randint(low, high)]: numpy rejects an empty range. *)
Definition np_random_randint (lo hi : Z) : M World Z :=
  if lo <? hi then np_draw (np_randint rs lo hi)
  else raise (ValueError "low >= high").
Definition np_random_normal (loc scale : Q) : M World Q :=
  np_draw (np_normal rs loc scale).
Definition np_random_exponential (scale : Q) : M World Q :=
  np_draw (np_exponential rs scale).
Definition np_random_uniform (lo hi : Q) : M World Q :=
  np_draw (np_uniform rs lo hi).
(** [random.choices(population, weights=weights)[0]] *)
Definition random_choices (population : list string) (weights : list Z)
  : M World string :=
  py_draw (py_choices rs population weights).
Definition random_choice (population : list string) : M World string :=
  py_draw (py_choice rs population).

(** [os.urandom(k)] *)
Definition os_urandom (k : nat) : M World (list Z) :=
  fun w => (mkWorld (np_rng w) (py_rng w) (urandom w) (urandom_pos w + k)
                    (clock w) (gen_log w),
            Ok (map (fun i => urandom w (urandom_pos w + i)%nat mod 256) (seq 0 k))).

(** [str(uuid.uuid4())] *)
Definition uuid4 : M World string :=
  bs <- os_urandom 16 ;; ret (uuid_str (uuid_int_v4 bs)).

Definition datetime_now : M World datetime.t := fun w => (w, Ok (clock w)).

Definition gen_logger_info (msg : string) : M World unit :=
  modify (fun w => mkWorld (np_rng w) (py_rng w) (urandom w) (urandom_pos w)
                           (clock w) (gen_log w ++ [("INFO", msg)])).

(** data_generator.py, lines 19-21: both generators are seeded when the
    module is loaded. *)
Definition seed_random_sources (seed : Z) : M World unit :=
  np_random_seed seed ;;; random_seed seed.
Definition import_data_generator : M World unit :=
  seed_random_sources RANDOM_SEED.

(** *** class DataGenerator *)

Record DataGenerator := mkDataGenerator {
  file_type_weights : list Z;   (* PDF, Excel, DB, CSV, Doc, PPT, Image *)
  action_weights : list Z       (* view, download *)
}.

Definition DataGenerator_init : DataGenerator :=
  {| file_type_weights := [35; 20; 5; 15; 10; 8; 7];
     action_weights := [75; 25] |}.

(** [f"employee{np.random.randint(lo, hi)}"] *)
Definition employee (lo hi : Z) : M World string :=
  k <- np_random_randint lo hi ;; ret ("employee" +:+ pretty k).

Definition random_user (self : DataGenerator) : M World string :=
  employee 100 999.

(** [label_user or <fallback>]: [None] and the empty string are falsy. *)
Definition or_else (label_user : option string) (fallback : M World string)
  : M World string :=
  match label_user with
  | Some u => if String.eqb u "" then fallback else ret u
  | None => fallback
  end.

Definition _generate_file_size (self : DataGenerator)
    (file_type action : string) : M World Q :=
  base <-
    (if String.eqb file_type "Database export"
     then e <- np_random_exponential 15 ;; ret (e + 10)%Q
     else if existsb (String.eqb file_type) ["Excel"; "PPT"; "Doc"]
     then e <- np_random_exponential 3 ;; ret (e + 1)%Q
     else if existsb (String.eqb file_type) ["PDF"; "CSV"]
     then e <- np_random_exponential 2 ;; ret (e + (5 # 10))%Q
     else e <- np_random_exponential (15 # 10) ;; ret (e + (2 # 10))%Q) ;;
  let multiplier : Q := (if String.eqb action "download" then 13 # 10 else 1)%Q in
  ret (np_clip (base * multiplier) (1 # 10) 120).

Definition event (event_id user_id file_type : string) (file_size : Q)
    (access_time : datetime.t) (action : string) : record :=
  [("event_id", VStr event_id);
   ("user_id", VStr user_id);
   ("file_type", VStr file_type);
   ("file_size_MB", VFloat (round3 file_size));
   ("access_time", VTime access_time);
   ("action", VStr action)].

Definition generate_normal_events (self : DataGenerator)
    (n : Z) (start_date : option datetime.t) (days : Z) : M World DataFrame :=
  start_date <-
    match start_date with
    | Some d => ret d
    | None =>
        now <- datetime_now ;;
        td <- lift_outcome (timedelta.make days 0 0) ;;
        lift_outcome (datetime.sub now td)
    end ;;
  gen_logger_info ("Generating " +:+ pretty n +:+ " normal events over "
                   +:+ pretty days +:+ " days") ;;;
  rows <- for_range (Z.to_nat n)
    (user <- random_user self ;;
     file_type <- random_choices FILE_TYPES (file_type_weights self) ;;
     action <- random_choices ACTIONS (action_weights self) ;;
     day_offset <- np_random_randint 0 days ;;
     h <- np_random_normal TYPICAL_HOUR_MEAN TYPICAL_HOUR_STD ;;
     let hour := py_int (np_clip h WORK_START_HOUR WORK_END_HOUR) in
     minute <- np_random_randint 0 60 ;;
     td <- lift_outcome (timedelta.make day_offset hour minute) ;;
     access_time <- lift_outcome (datetime.add start_date td) ;;
     file_size <- _generate_file_size self file_type action ;;
     event_id <- uuid4 ;;
     ret (event event_id user file_type file_size access_time action)) ;;
  ret (pd_DataFrame rows).

Definition _generate_mass_downloads (self : DataGenerator)
    (n : Z) (start_date : datetime.t) (label_user : option string)
  : M World DataFrame :=
  susp_user <- or_else label_user (employee 900 999) ;;
  base_time <- lift_outcome
    (datetime.replace start_date (Some 2) (Some 0) (Some 0) (Some 0)) ;;
  rows <- for_range (Z.to_nat n)
    (offset_min <- np_random_randint 0 180 ;;
     td <- lift_outcome (timedelta.make 0 0 offset_min) ;;
     access_time <- lift_outcome (datetime.add base_time td) ;;
     file_type <- random_choices ["PDF"; "Database export"; "Excel"] [70; 20; 10] ;;
     let action := "download" in
     file_size <-
       (if String.eqb file_type "Database export" then np_random_uniform 50 300
        else if String.eqb file_type "PDF" then np_random_uniform 5 50
        else np_random_uniform 10 80) ;;
     event_id <- uuid4 ;;
     ret (event event_id susp_user file_type file_size access_time action)) ;;
  ret (pd_DataFrame rows).

Definition _generate_generic_suspicious (self : DataGenerator)
    (n : Z) (start_date : datetime.t) (label_user : option string)
  : M World DataFrame :=
  rows <- for_range (Z.to_nat n)
    (user <- or_else label_user (random_user self) ;;
     day_offset <- np_random_randint 0 3 ;;
     td <- lift_outcome (timedelta.make day_offset 0 0) ;;
     day <- lift_outcome (datetime.sub start_date td) ;;
     minute <- np_random_randint 0 60 ;;
     access_time <- lift_outcome
       (datetime.replace day (Some 3) (Some minute) None None) ;;
     file_type <- random_choice FILE_TYPES ;;
     let action := "download" in
     file_size <- np_random_uniform 10 150 ;;
     event_id <- uuid4 ;;
     ret (event event_id user file_type file_size access_time action)) ;;
  ret (pd_DataFrame rows).

Definition generate_suspicious_events (self : DataGenerator)
    (n : Z) (start_date : option datetime.t) (label_user : option string)
    (pattern : string) : M World DataFrame :=
  start_date <-
    match start_date with
    | Some d => ret d
    | None =>
        now <- datetime_now ;;
        td <- lift_outcome (timedelta.make 1 0 0) ;;
        lift_outcome (datetime.sub now td)
    end ;;
  gen_logger_info ("Generating " +:+ pretty n
                   +:+ " suspicious events with pattern: " +:+ pattern) ;;;
  if String.eqb pattern "mass_downloads"
  then _generate_mass_downloads self n start_date label_user
  else _generate_generic_suspicious self n start_date label_user.

End DataGeneratorModule.

Arguments mkWorld {rs}.
Arguments np_rng {rs}.
Arguments py_rng {rs}.
Arguments urandom {rs}.
Arguments urandom_pos {rs}.
Arguments clock {rs}.
Arguments gen_log {rs}.

(** ** pandas: the column operations the pipeline uses *)

(** [df[c]] *)
Definition getitem (df : DataFrame) (c : string) : outcome (list value) :=
  match assoc c (columns df) with
  | Some col => Ok col
  | None => Raise (KeyError c)
  end.

(** An existing column is replaced in place, a new one goes last. *)
Fixpoint set_assoc {A} (c : string) (x : A) (l : list (string * A))
  : list (string * A) :=
  match l with
  | [] => [(c, x)]
  | (k, v) :: l' =>
      if String.eqb c k then (k, x) :: l' else (k, v) :: set_assoc c x l'
  end.

(** [df[c] = values], one value per row (the arrays and series the code
    assigns come from the frame's own rows). *)
Definition setitem (df : DataFrame) (c : string) (col : list value)
  : outcome DataFrame :=
  if Nat.eqb (length col) (nrows df)
  then Ok {| nrows := nrows df; columns := set_assoc c col (columns df) |}
  else Raise (ValueError "Length of values does not match length of index").

(** [df[c] = v] for a scalar [v] *)
Definition setitem_scalar (df : DataFrame) (c : string) (v : value) : DataFrame :=
  {| nrows := nrows df;
     columns := set_assoc c (replicate (nrows df) v) (columns df) |}.

(** [df[cols]] for a list of names: those columns, in that order. *)
Definition select (df : DataFrame) (cols : list string) : outcome DataFrame :=
  let! picked := map_outcome (fun c => let! col := getitem df c in Ok (c, col)) cols in
  Ok {| nrows := nrows df; columns := picked |}.

(** How a numeric operation reads a cell. *)
Inductive numeric :=
| NumQ (q : Q)
| NumInf
| NumNaN.

Definition to_numeric (v : value) : outcome numeric :=
  match v with
  | VInt z => Ok (NumQ (inject_Z z))
  | VFloat q => Ok (NumQ q)
  | VBool b => Ok (NumQ (if b then 1 else 0)%Q)
  | VInf => Ok NumInf
  | VNaN => Ok NumNaN
  | VStr _ => Raise (TypeError "str where a number is expected")
  | VTime _ => Raise (TypeError "Timestamp where a number is expected")
  end.

Definition Qlt_bool (a b : Q) : bool := negb (Qle_bool b a).

(** [series > k] and [series < k], cell by cell; a missing value compares
    false. *)
Definition gt_scalar (k : Q) (v : value) : outcome bool :=
  let! x := to_numeric v in
  Ok match x with
     | NumQ q => Qlt_bool k q
     | NumInf => true
     | NumNaN => false
     end.

Definition lt_scalar (k : Q) (v : value) : outcome bool :=
  let! x := to_numeric v in
  Ok match x with
     | NumQ q => Qlt_bool q k
     | NumInf => false
     | NumNaN => false
     end.

(** [.astype(int)] on a boolean *)
Definition astype_int (b : bool) : value := VInt (if b then 1 else 0).

(** [series.dt.<field>]: only a datetime column has the accessor; a missing
    timestamp gives a missing value. *)
Definition dt_accessor (f : datetime.t -> Z) (col : list value)
  : outcome (list value) :=
  map_outcome (fun v => match v with
                        | VTime t => Ok (VInt (f t))
                        | VNaN => Ok VNaN
                        | _ => Raise (AttributeError
                                 "Can only use .dt accessor with datetimelike values")
                        end) col.

(** [==] on cells; a missing value equals nothing. *)
Definition value_eqb (a b : value) : bool :=
  match a, b with
  | VStr s, VStr t => String.eqb s t
  | VTime s, VTime t => datetime.eqb s t
  | VInf, VInf => true
  | (VInt _ | VFloat _ | VBool _), (VInt _ | VFloat _ | VBool _) =>
      match to_numeric a, to_numeric b with
      | Ok (NumQ x), Ok (NumQ y) => Qeq_bool x y
      | _, _ => false
      end
  | _, _ => false
  end.

Definition is_missing (v : value) : bool :=
  match v with VNaN => true | _ => false end.

(** The distinct keys of a column, each at its first appearance; missing
    keys form no group. *)
Fixpoint group_keys (seen : list value) (col : list value) : list value :=
  match col with
  | [] => seen
  | v :: col' =>
      if is_missing v || existsb (value_eqb v) seen then group_keys seen col'
      else group_keys (seen ++ [v]) col'
  end.

(** The cells of [col] on the rows whose key is [k]. *)
Definition group_cells (k : value) (keys col : list value) : list value :=
  map snd (List.filter (fun kv => value_eqb k (fst kv)) (zip keys col)).

Definition Qsum (l : list Q) : Q := fold_right Qplus 0%Q l.

Definition finite_part (l : list numeric) : list Q :=
  omap (fun x => match x with NumQ q => Some q | _ => None end) l.

Definition has_inf (l : list numeric) : bool :=
  existsb (fun x => match x with NumInf => true | _ => false end) l.

(** ["count"]: the cells that are not missing *)
Definition agg_count (l : list numeric) : Z :=
  Z.of_nat (length (List.filter (fun x => match x with NumNaN => false | _ => true end) l)).

(** ["mean"], missing values skipped *)
Definition agg_mean (l : list numeric) : value :=
  if agg_count l =? 0 then VNaN
  else if has_inf l then VInf
  else VFloat (Qsum (finite_part l) / inject_Z (agg_count l)).

(** ["std"]: the sample standard deviation (one degree of freedom), missing
    below two observations *)
Definition agg_std (sqrt : Q -> Q) (l : list numeric) : value :=
  let n := agg_count l in
  if n <? 2 then VNaN
  else if has_inf l then VNaN
  else
    let xs := finite_part l in
    let m := (Qsum xs / inject_Z n)%Q in
    VFloat (sqrt (Qsum (map (fun x => (x - m) * (x - m)) xs) / inject_Z (n - 1))%Q).

(** [.round(3)] on a cell of a float column *)
Definition round3_cell (v : value) : value :=
  match v with
  | VFloat q => VFloat (round3 q)
  | _ => v
  end.

(** [download_count / total_access] *)
Definition true_divide (a b : Z) : value :=
  if b =? 0 then (if a =? 0 then VNaN else VInf)
  else VFloat (inject_Z a / inject_Z b).

(** [left.merge(right, left_on=key, right_index=True, how="left")]: every
    row of [left] gets the cells of the row of [right] indexed by its key,
    or missing values; a name on both sides takes the suffixes [_x], [_y]. *)
Definition merge_left (left : DataFrame) (key : string)
    (right_names : list string) (right : list (value * list value))
  : outcome DataFrame :=
  let! keys := getitem left key in
  let left_names := column_names left in
  let on_both c := existsb (String.eqb c) left_names
                   && existsb (String.eqb c) right_names in
  let lookup k :=
    match List.find (fun r => value_eqb k (fst r)) right with
    | Some r => snd r
    | None => map (fun _ => VNaN) right_names
    end in
  let joined := map lookup keys in
  Ok {| nrows := nrows left;
        columns :=
          map (fun c => (if on_both (fst c) then fst c +:+ "_x" else fst c, snd c))
              (columns left)
          ++ imap (fun j c => (if on_both c then c +:+ "_y" else c,
                               map (fun r => default VNaN (r !! j)) joined))
                  right_names |}.

(** ** scikit-learn, joblib and numpy's square root: the library interface

    [build_pipeline] describes the estimator; fitting, transforming, scoring
    and predicting are scikit-learn's.  An [Estimator] is the fitted state
    of the whole pipeline (the one-hot encoder's categories, the trees and
    the decision threshold); an [Artifact] is what a file holds. *)

Record PipelineSpec := mkPipelineSpec {
  cat_features : list string;
  num_features : list string;
  handle_unknown : string;
  iforest_n_estimators : Z;
  iforest_max_samples : string;
  iforest_contamination : Q;
  iforest_random_state : Z
}.

(** A pipeline object: what it was built from and, once [fit] has run, its
    fitted state. *)
Record Pipeline (E : Type) := mkPipeline {
  steps : PipelineSpec;
  fitted : option E
}.
Arguments mkPipeline {E}.
Arguments steps {E}.
Arguments fitted {E}.

(** The dict that [save_model] pickles; a key may be absent from a dict that
    some other writer left behind. *)
Record ModelData (E : Type) := mkModelData {
  md_pipeline : option (Pipeline E);
  md_feature_columns : option (option (list string));
  md_contamination : option Q;
  md_n_estimators : option Z
}.
Arguments mkModelData {E}.
Arguments md_pipeline {E}.
Arguments md_feature_columns {E}.
Arguments md_contamination {E}.
Arguments md_n_estimators {E}.

Record Libraries := {
  np_sqrt : Q -> Q;
  Estimator : Type;
  Matrix : Type;
  Artifact : Type;
  (* Pipeline.fit *)
  sk_fit : PipelineSpec -> DataFrame -> outcome Estimator;
  (* ColumnTransformer.transform *)
  sk_transform : Estimator -> DataFrame -> outcome Matrix;
  (* IsolationForest.score_samples and IsolationForest.predict *)
  sk_score_samples : Estimator -> Matrix -> outcome (list Q);
  sk_predict : Estimator -> Matrix -> outcome (list Z);
  joblib_dump : ModelData Estimator -> Artifact;
  joblib_load : Artifact -> outcome (ModelData Estimator)
}.

(** What joblib promises: loading what was dumped gives it back. *)
Definition joblib_round_trip (lib : Libraries) : Prop :=
  forall d, joblib_load lib (joblib_dump lib d) = Ok d.

(** [raw.min()] and [raw.max()]: numpy refuses an empty array. *)
Definition np_min (l : list Q) : outcome Q :=
  match l with
  | [] => Raise (ValueError
            "zero-size array to reduction operation minimum which has no identity")
  | x :: l' => Ok (fold_left np_minimum l' x)
  end.

Definition np_max (l : list Q) : outcome Q :=
  match l with
  | [] => Raise (ValueError
            "zero-size array to reduction operation maximum which has no identity")
  | x :: l' => Ok (fold_left np_maximum l' x)
  end.

Definition EPSILON : Q := 1 # 1000000000.

(** [(raw - raw.min()) / (raw.max() - raw.min() + 1e-9) * 100.0] *)
Definition risk_of (raw : list Q) : outcome (list Q) :=
  let! lo := np_min raw in
  let! hi := np_max raw in
  Ok (map (fun r => ((r - lo) / (hi - lo + EPSILON) * 100)%Q) raw).

Section MLPipelineModule.
Context (lib : Libraries).

(** *** class FeatureEngineer *)

Definition file_risk_scores : list (string * Z) :=
  [("Database export", 10); ("PDF", 7); ("Excel", 6); ("CSV", 5);
   ("Doc", 4); ("PPT", 3); ("Image", 2)].

Definition user_stats_columns : list string :=
  ["avg_file_size"; "std_file_size"; "total_access"; "download_count";
   "download_ratio"].

(** [df_feat.groupby("user_id").agg({...}).round(3)] with the renamed
    columns and [download_ratio]: one row per user, indexed by the user.
    (pandas sorts the groups; the merge that follows looks rows up by key,
    so their order is immaterial.) *)
Definition user_stats (df_feat : DataFrame) : outcome (list (value * list value)) :=
  let! users := getitem df_feat "user_id" in
  let! sizes := getitem df_feat "file_size_MB" in
  let! actions := getitem df_feat "action" in
  map_outcome
    (fun k =>
       let! xs := map_outcome to_numeric (group_cells k users sizes) in
       let download_count :=
         Z.of_nat (length (List.filter (value_eqb (VStr "download"))
                                       (group_cells k users actions))) in
       let total_access := agg_count xs in
       Ok (k, [round3_cell (agg_mean xs);
               round3_cell (agg_std (np_sqrt lib) xs);
               VInt total_access;
               VInt download_count;
               true_divide download_count total_access]))
    (group_keys [] users).

Definition isin (zs : list Z) (v : value) : bool :=
  match v with
  | VInt z => existsb (Z.eqb z) zs
  | _ => false
  end.

Definition size_risk (gt100 gt50 gt10 : bool) : value :=
  VInt (if gt100 then 10 else if gt50 then 7 else if gt10 then 4 else 1).

Definition engineer_features (df : DataFrame) : outcome DataFrame :=
  let df_feat := df in
  (* Time-based features *)
  let! access_time := getitem df_feat "access_time" in
  let! hour := dt_accessor datetime.hour access_time in
  let! df_feat := setitem df_feat "hour" hour in
  let! access_time := getitem df_feat "access_time" in
  let! dayofweek := dt_accessor datetime.weekday access_time in
  let! df_feat := setitem df_feat "dayofweek" dayofweek in
  let! dayofweek := getitem df_feat "dayofweek" in
  let! df_feat := setitem df_feat "is_weekend"
                    (map (fun v => astype_int (isin [5; 6] v)) dayofweek) in
  let! hour := getitem df_feat "hour" in
  let! early := map_outcome (lt_scalar 8) hour in
  let! late := map_outcome (gt_scalar 19) hour in
  let! df_feat := setitem df_feat "is_after_hours"
                    (zip_with (fun a b => astype_int (a || b)) early late) in
  (* User behavior features *)
  let! stats := user_stats df_feat in
  let! df_feat := merge_left df_feat "user_id" user_stats_columns stats in
  (* File type risk scoring *)
  let! file_type := getitem df_feat "file_type" in
  let! df_feat := setitem df_feat "file_type_risk"
                    (map (fun v => match v with
                                   | VStr s => match assoc s file_risk_scores with
                                               | Some z => VInt z
                                               | None => VNaN
                                               end
                                   | _ => VNaN
                                   end) file_type) in
  (* Size-based features *)
  let! sizes := getitem df_feat "file_size_MB" in
  let! gt50 := map_outcome (gt_scalar 50) sizes in
  let! df_feat := setitem df_feat "is_large_file" (map astype_int gt50) in
  let! sizes := getitem df_feat "file_size_MB" in
  let! gt100 := map_outcome (gt_scalar 100) sizes in
  let! gt50 := map_outcome (gt_scalar 50) sizes in
  let! gt10 := map_outcome (gt_scalar 10) sizes in
  let! df_feat := setitem df_feat "size_risk_score"
                    (zip_with (fun a bc => size_risk a (fst bc) (snd bc))
                              gt100 (zip gt50 gt10)) in
  Ok df_feat.

(** *** class AnomalyDetector *)

Record AnomalyDetector := mkAnomalyDetector {
  contamination : Q;
  n_estimators : Z;
  pipeline : option (Pipeline (Estimator lib));
  feature_columns : option (list string);
  model_path : string
}.

Definition MODELS_DIR : string := "models".

Definition AnomalyDetector_init (contamination : Q) (n_estimators : Z)
  : AnomalyDetector :=
  {| contamination := contamination;
     n_estimators := n_estimators;
     pipeline := None;
     feature_columns := None;
     model_path := MODELS_DIR +:+ "/isolation_forest_model.pkl" |}.

(** The part of the process state that ml_pipeline.py touches: the
    detector object the methods run on, the files, and the log. *)
Record MLState := mkMLState {
  detector : AnomalyDetector;
  files : gmap string (Artifact lib);
  ml_log : list log_line
}.

Definition get_self : M MLState AnomalyDetector :=
  fun s => (s, Ok (detector s)).

Definition set_self (d : AnomalyDetector) : M MLState unit :=
  modify (fun s => mkMLState d (files s) (ml_log s)).

(** [self.pipeline = p], and so on *)
Definition set_pipeline (p : Pipeline (Estimator lib)) : M MLState unit :=
  self <- get_self ;;
  set_self (mkAnomalyDetector (contamination self) (n_estimators self) (Some p)
                              (feature_columns self) (model_path self)).
Definition set_feature_columns (cols : option (list string)) : M MLState unit :=
  self <- get_self ;;
  set_self (mkAnomalyDetector (contamination self) (n_estimators self)
                              (pipeline self) cols (model_path self)).
Definition set_contamination (c : Q) : M MLState unit :=
  self <- get_self ;;
  set_self (mkAnomalyDetector c (n_estimators self) (pipeline self)
                              (feature_columns self) (model_path self)).
Definition set_n_estimators (n : Z) : M MLState unit :=
  self <- get_self ;;
  set_self (mkAnomalyDetector (contamination self) n (pipeline self)
                              (feature_columns self) (model_path self)).

Definition logger (level msg : string) : M MLState unit :=
  modify (fun s => mkMLState (detector s) (files s) (ml_log s ++ [(level, msg)])).

Definition build_pipeline (self : AnomalyDetector) : Pipeline (Estimator lib) :=
  let cat_features := ["file_type"; "action"; "user_id"] in
  let num_features :=
    ["file_size_MB"; "hour"; "dayofweek"; "is_weekend";
     "is_after_hours"; "file_type_risk"; "is_large_file";
     "size_risk_score"; "avg_file_size"; "std_file_size";
     "download_ratio"] in
  {| steps := {| cat_features := cat_features;
                 num_features := num_features;
                 handle_unknown := "ignore";
                 iforest_n_estimators := n_estimators self;
                 iforest_max_samples := "auto";
                 iforest_contamination := contamination self;
                 iforest_random_state := RANDOM_SEED |};
     fitted := None |}.

(** [pipeline.fit(df)]: the pipeline object becomes fitted. *)
Definition pipeline_fit (p : Pipeline (Estimator lib)) (df : DataFrame)
  : outcome (Pipeline (Estimator lib)) :=
  let! est := sk_fit lib (steps p) df in
  Ok {| steps := steps p; fitted := Some est |}.

Definition fitted_state (p : Pipeline (Estimator lib)) : outcome (Estimator lib) :=
  match fitted p with
  | Some est => Ok est
  | None => Raise (NotFittedError "This instance is not fitted yet")
  end.

(** [pipeline.named_steps["prep"].transform(df)] *)
Definition prep_transform (p : Pipeline (Estimator lib)) (df : DataFrame)
  : outcome (Matrix lib) :=
  let! est := fitted_state p in sk_transform lib est df.

(** [pipeline.named_steps["model"].score_samples(X)] *)
Definition model_score_samples (p : Pipeline (Estimator lib)) (X : Matrix lib)
  : outcome (list Q) :=
  let! est := fitted_state p in sk_score_samples lib est X.

(** [pipeline.named_steps["model"].predict(X)] *)
Definition model_predict (p : Pipeline (Estimator lib)) (X : Matrix lib)
  : outcome (list Z) :=
  let! est := fitted_state p in sk_predict lib est X.

Definition risk_column (risk : list Q) : list value :=
  map (fun r => VFloat (round2 r)) risk.

Definition flag_column (preds : list Z) : list value :=
  map (fun p => VBool (p =? -1)) preds.

(** [df_scored['anomaly_flag'].sum()] *)
Definition count_flags (df : DataFrame) : Z :=
  match assoc "anomaly_flag" (columns df) with
  | Some col => Z.of_nat (length (List.filter (value_eqb (VBool true)) col))
  | None => 0
  end.

Definition fit_and_score (df : DataFrame)
  : M MLState (Pipeline (Estimator lib) * DataFrame) :=
  logger "INFO" "Starting model training and scoring" ;;;
  (* Engineer features *)
  df_feat <- lift_outcome (engineer_features df) ;;
  (* Build and fit pipeline *)
  self <- get_self ;;
  set_pipeline (build_pipeline self) ;;;
  p <- lift_outcome (pipeline_fit (build_pipeline self) df_feat) ;;
  set_pipeline p ;;;
  (* Store feature columns for later use *)
  set_feature_columns (Some (column_names df_feat)) ;;;
  (* Score samples *)
  X <- lift_outcome (prep_transform p df_feat) ;;
  scores <- lift_outcome (model_score_samples p X) ;;
  (* Convert to risk scores (0-100) *)
  let raw := map Qopp scores in
  risk <- lift_outcome (risk_of raw) ;;
  (* Get predictions *)
  X' <- lift_outcome (prep_transform p df_feat) ;;
  preds <- lift_outcome (model_predict p X') ;;
  (* Create scored dataframe *)
  let df_scored := df in
  df_scored <- lift_outcome (setitem df_scored "risk_score" (risk_column risk)) ;;
  df_scored <- lift_outcome (setitem df_scored "anomaly_flag" (flag_column preds)) ;;
  (* Add additional features for analysis *)
  hour <- lift_outcome (getitem df_feat "hour") ;;
  df_scored <- lift_outcome (setitem df_scored "hour" hour) ;;
  dayofweek <- lift_outcome (getitem df_feat "dayofweek") ;;
  df_scored <- lift_outcome (setitem df_scored "dayofweek" dayofweek) ;;
  is_weekend <- lift_outcome (getitem df_feat "is_weekend") ;;
  df_scored <- lift_outcome (setitem df_scored "is_weekend" is_weekend) ;;
  is_after_hours <- lift_outcome (getitem df_feat "is_after_hours") ;;
  df_scored <- lift_outcome (setitem df_scored "is_after_hours" is_after_hours) ;;
  logger "INFO" ("Model training completed. Detected "
                 +:+ pretty (count_flags df_scored) +:+ " anomalies") ;;;
  ret (p, df_scored).

(** predict_new_data, lines 182-190: the columns of the engineered table
    are brought to the fit-time list.  (The code walks a Python set; the
    selection that closes the step fixes the order of the columns whatever
    the order of the walk, here taken to be that of [feature_columns].) *)
Definition missing_features (feature_columns : list string) (df_feat : DataFrame)
  : list string :=
  List.filter (fun c => negb (existsb (String.eqb c) (column_names df_feat)))
              (remove_dups feature_columns).

Definition ensure_same_features (feature_columns : list string)
    (df_feat : DataFrame) : M MLState DataFrame :=
  let missing := missing_features feature_columns df_feat in
  df_feat <-
    (if negb (Nat.eqb (length missing) 0)
     then
       logger "WARNING" ("Missing features: {" +:+ String.concat ", " missing +:+ "}") ;;;
       ret (fold_left (fun d feature => setitem_scalar d feature (VInt 0))
                      missing df_feat)
     else ret df_feat) ;;
  (* Reorder columns to match training *)
  lift_outcome (select df_feat feature_columns).

Definition predict_new_data (df : DataFrame) : M MLState DataFrame :=
  self <- get_self ;;
  match pipeline self with
  | None => raise (ValueError "Model must be fitted before making predictions")
  | Some p =>
      df_feat <- lift_outcome (engineer_features df) ;;
      (* Ensure same features as training *)
      cols <- match feature_columns self with
              | Some cols => ret cols
              | None => raise (TypeError "'NoneType' object is not iterable")
              end ;;
      df_feat <- ensure_same_features cols df_feat ;;
      (* Score samples *)
      X <- lift_outcome (prep_transform p df_feat) ;;
      scores <- lift_outcome (model_score_samples p X) ;;
      (* Convert to risk scores *)
      let raw := map Qopp scores in
      risk <- lift_outcome (risk_of raw) ;;
      (* Get predictions *)
      X' <- lift_outcome (prep_transform p df_feat) ;;
      preds <- lift_outcome (model_predict p X') ;;
      (* Create scored dataframe *)
      let df_scored := df in
      df_scored <- lift_outcome (setitem df_scored "risk_score" (risk_column risk)) ;;
      df_scored <- lift_outcome (setitem df_scored "anomaly_flag" (flag_column preds)) ;;
      ret df_scored
  end.

Definition save_model : M MLState unit :=
  self <- get_self ;;
  match pipeline self with
  | None => raise (ValueError "No model to save")
  | Some p =>
      modify (fun s =>
        mkMLState (detector s)
          (<[model_path self :=
               joblib_dump lib
                 {| md_pipeline := Some p;
                    md_feature_columns := Some (feature_columns self);
                    md_contamination := Some (contamination self);
                    md_n_estimators := Some (n_estimators self) |}]> (files s))
          (ml_log s)) ;;;
      logger "INFO" ("Model saved to " +:+ model_path self)
  end.

(** [model_data[key]] *)
Definition dict_item {A} (key : string) (entry : option A) : M MLState A :=
  match entry with
  | Some v => ret v
  | None => raise (KeyError key)
  end.

(** The [try] block returns [True]; an absent file leaves it without
    returning and a caught exception is logged: both reach the closing
    [return False]. *)
Definition load_model : M MLState bool :=
  try_except
    (self <- get_self ;;
     s <- get ;;
     match files s !! model_path self with
     | Some artifact =>
         model_data <- lift_outcome (joblib_load lib artifact) ;;
         p <- dict_item "pipeline" (md_pipeline model_data) ;;
         set_pipeline p ;;;
         cols <- dict_item "feature_columns" (md_feature_columns model_data) ;;
         set_feature_columns cols ;;;
         c <- dict_item "contamination" (md_contamination model_data) ;;
         set_contamination c ;;;
         n <- dict_item "n_estimators" (md_n_estimators model_data) ;;
         set_n_estimators n ;;;
         logger "INFO" ("Model loaded from " +:+ model_path self) ;;;
         ret true
     | None => ret false
     end)
    (fun e =>
       logger "ERROR" ("Failed to load model: " +:+ exn_arg e) ;;;
       ret false).

End MLPipelineModule.

Arguments mkAnomalyDetector {lib}.
Arguments contamination {lib}.
Arguments n_estimators {lib}.
Arguments pipeline {lib}.
Arguments feature_columns {lib}.
Arguments model_path {lib}.
Arguments mkMLState {lib}.
Arguments detector {lib}.
Arguments files {lib}.
Arguments ml_log {lib}.

(** ** A small implementation of each interface

    They let the model run on concrete inputs. *)

(** A random source driven by a counter. *)
Definition counter_source : RandomSource :=
  {| NpState := Z;
     PyState := Z;
     np_seed := fun seed => seed;
     np_randint := fun lo hi s => (lo + s mod (hi - lo), s + 1);
     np_normal := fun loc scale s => ((loc + scale * inject_Z (s mod 5 - 2))%Q, s + 1);
     np_exponential := fun scale s => ((scale * inject_Z (s mod 4))%Q, s + 1);
     np_uniform := fun lo hi s => (if Z.even s then lo else hi, s + 1);
     py_seed := fun seed => seed;
     py_choices := fun population _ s =>
       (nth (Z.to_nat (s mod Z.of_nat (length population))) population "", s + 1);
     py_choice := fun population s =>
       (nth (Z.to_nat (s mod Z.of_nat (length population))) population "", s + 1) |}.

(** 2024-01-01 00:00:00, a Monday. *)
Definition new_year_2024 : datetime.t := datetime.mk 738886 0 0 0 0.

(** Two processes that differ only in the bytes the OS will hand out. *)
Definition world_zeros : World counter_source :=
  mkWorld (0 : NpState counter_source) (0 : PyState counter_source)
          (fun _ => 0) 0%nat new_year_2024 [].
Definition world_ones : World counter_source :=
  mkWorld (0 : NpState counter_source) (0 : PyState counter_source)
          (fun _ => 255) 0%nat new_year_2024 [].

(** Square root to three decimals. *)
Definition sqrt_milli (q : Q) : Q :=
  Qmake (Z.sqrt (Qfloor (q * 1000000))) 1000.

Definition numeric_column (df : DataFrame) (c : string) : outcome (list Q) :=
  let! col := getitem df c in
  let! xs := map_outcome to_numeric col in
  Ok (map (fun x => match x with NumQ q => q | _ => 0%Q end) xs).

(** A stand-in estimator: fitting keeps the mean file size, a row scores
    lower the farther its size is from that mean, and is an outlier beyond
    50 MB.  An artifact either unpickles to a dict or is unreadable. *)
Definition stub_libraries : Libraries :=
  {| np_sqrt := sqrt_milli;
     Estimator := Q;
     Matrix := list Q;
     Artifact := option (ModelData Q);
     sk_fit := fun spec df =>
       if Nat.eqb (nrows df) 0
       then Raise (ValueError "Found array with 0 sample(s)")
       else
         let! _ := select df (cat_features spec ++ num_features spec) in
         let! xs := numeric_column df "file_size_MB" in
         Ok (Qred (Qsum xs / inject_Z (Z.of_nat (length xs))));
     sk_transform := fun est df => numeric_column df "file_size_MB";
     sk_score_samples := fun est X => Ok (map (fun x => Qred (- Qabs (x - est))) X);
     sk_predict := fun est X =>
       Ok (map (fun x => if Qle_bool (Qabs (x - est)) 50 then 1 else -1) X);
     joblib_dump := Some;
     joblib_load := fun a =>
       match a with
       | Some d => Ok d
       | None => Raise (Exn "UnpicklingError" "invalid load key")
       end |}.

Definition new_detector : AnomalyDetector stub_libraries :=
  AnomalyDetector_init stub_libraries DEFAULT_CONTAMINATION N_ESTIMATORS.

Definition fresh_process : MLState stub_libraries :=
  mkMLState new_detector ∅ [].

(** Four accesses by two users; the last one is a 250 MB export at 03:15. *)
Definition small_batch : DataFrame :=
  pd_DataFrame
    [ [("event_id", VStr "e1"); ("user_id", VStr "employee101");
       ("file_type", VStr "PDF"); ("file_size_MB", VFloat (25 # 10));
       ("access_time", VTime (datetime.mk 738886 9 30 0 0)); ("action", VStr "view")];
      [("event_id", VStr "e2"); ("user_id", VStr "employee101");
       ("file_type", VStr "Excel"); ("file_size_MB", VFloat 4);
       ("access_time", VTime (datetime.mk 738887 14 5 0 0)); ("action", VStr "download")];
      [("event_id", VStr "e3"); ("user_id", VStr "employee102");
       ("file_type", VStr "Image"); ("file_size_MB", VFloat (7 # 10));
       ("access_time", VTime (datetime.mk 738888 11 45 0 0)); ("action", VStr "view")];
      [("event_id", VStr "e4"); ("user_id", VStr "employee102");
       ("file_type", VStr "Database export"); ("file_size_MB", VFloat 250);
       ("access_time", VTime (datetime.mk 738891 3 15 0 0)); ("action", VStr "download")] ].

(** The value a call returns, whatever state it leaves. *)
Definition returned {S A} (r : S * outcome A) (default : A) : A :=
  match snd r with
  | Ok a => a
  | Raise _ => default
  end.

(** A row of the generators: the six fields of an access event. *)
Definition event_keys : list string :=
  ["event_id"; "user_id"; "file_type"; "file_size_MB"; "access_time"; "action"].

(** ** The vocabulary of the statements *)

Definition is_event (r : record) : Prop :=
  exists id u ft sz t a, r = event id u ft sz t a.

(** The range of sizes of a mass-download row, by file type. *)
Definition mass_download_size (ft : string) (sz : Q) : Prop :=
  ((5 <= sz)%Q /\ (sz <= 300)%Q)
  /\ (ft = "Database export" -> (50 <= sz)%Q /\ (sz <= 300)%Q)
  /\ (ft = "PDF" -> (5 <= sz)%Q /\ (sz <= 50)%Q)
  /\ (ft <> "Database export" -> ft <> "PDF" -> (10 <= sz)%Q /\ (sz <= 80)%Q).

(** 02:00 <= t < 05:00 on the day of [start]. *)
Definition in_off_hours_window (start t : datetime.t) : Prop :=
  datetime.ordinal t = datetime.ordinal start
  /\ 120 <= datetime.minute_of_day t < 300
  /\ 0 <= datetime.second t < 60.

Definition agree {A} (R : A -> A -> Prop) (r1 r2 : outcome A) : Prop :=
  match r1, r2 with
  | Ok a, Ok b => R a b
  | Raise e1, Raise e2 => e1 = e2
  | _, _ => False
  end.

(** Two events that differ at most in their identifier. *)
Definition same_event (r1 r2 : record) : Prop :=
  exists id1 id2 u ft sz t a,
    r1 = event id1 u ft sz t a /\ r2 = event id2 u ft sz t a.

(** Two tables with the same rows, the column [event_id] left aside. *)
Definition same_but_event_id (d1 d2 : DataFrame) : Prop :=
  nrows d1 = nrows d2
  /\ column_names d1 = column_names d2
  /\ forall c, c <> "event_id" -> getitem d1 c = getitem d2 c.

Definition same_seeded {rs : RandomSource} (w1 w2 : World rs) : Prop :=
  np_rng w1 = np_rng w2 /\ py_rng w1 = py_rng w2.

Definition related (rs : RandomSource) {A} (R : A -> A -> Prop)
    (c1 c2 : M (World rs) A) : Prop :=
  forall w1 w2, same_seeded w1 w2 ->
    same_seeded (fst (c1 w1)) (fst (c2 w2))
    /\ agree R (snd (c1 w1)) (snd (c2 w2)).

(** One run of a generator in a process that has just loaded the module
    with the given seed. *)
Definition seeded_normal_run (rs : RandomSource) (self : DataGenerator)
    (seed n : Z) (start : datetime.t) (days : Z) : M (World rs) DataFrame :=
  seed_random_sources rs seed ;;;
  generate_normal_events rs self n (Some start) days.

Definition seeded_suspicious_run (rs : RandomSource) (self : DataGenerator)
    (seed n : Z) (start : datetime.t) (label_user : option string)
    (pattern : string) : M (World rs) DataFrame :=
  seed_random_sources rs seed ;;;
  generate_suspicious_events rs self n (Some start) label_user pattern.

(** A table whose [risk_score] column has, on every row, a number of
    hundredths between 0 and 100. *)
Definition risk_scores_in_range (df : DataFrame) : Prop :=
  forall i, (i < nrows df)%nat ->
    exists k : Z, cell df "risk_score" i = Some (VFloat (k # 100))
                  /\ 0 <= k <= 10000.

(** What the scored table must satisfy: it has a row, its [risk_score]
    column holds the given risks rounded to two decimals, and every row has
    a risk score in range. *)
Definition scored_ok (risk : list Q) (df : DataFrame) : Prop :=
  (0 < nrows df)%nat
  /\ getitem df "risk_score" = Ok (map (fun r => VFloat (round2 r)) risk)
  /\ risk_scores_in_range df.

(** The classes of the errors that the column operations raise. *)
Definition column_error (e : exn) : Prop :=
  exn_class e = "KeyError" \/ exn_class e = "AttributeError"
  \/ exn_class e = "TypeError" \/ exn_class e = "ValueError".

Definition fill_missing (missing : list string) (df : DataFrame) : DataFrame :=
  fold_left (fun d feature => setitem_scalar d feature (VInt 0)) missing df.

(** The log after the reconciliation: one WARNING line when a column is
    missing, nothing otherwise. *)
Definition log_after_reconciliation (cols : list string) (df_feat : DataFrame)
    (lg : list log_line) : list log_line :=
  match missing_features cols df_feat with
  | [] => lg
  | missing =>
      lg ++ [("WARNING",
              "Missing features: {" +:+ String.concat ", " missing +:+ "}")]
  end.

(** ** Sample runs *)

Definition demo_normal_run :=
  generate_normal_events counter_source DataGenerator_init 3
    (Some new_year_2024) 10 world_zeros.

Definition demo_mass_run :=
  generate_suspicious_events counter_source DataGenerator_init 4
    (Some new_year_2024) None "mass_downloads" world_zeros.

Definition world_odd : World counter_source :=
  mkWorld (1 : NpState counter_source) (0 : PyState counter_source)
          (fun _ => 0) 0%nat new_year_2024 [].

Definition demo_generic_run :=
  generate_suspicious_events counter_source DataGenerator_init 3
    (Some new_year_2024) None "generic" world_zeros.

Definition demo_mass_run_odd :=
  generate_suspicious_events counter_source DataGenerator_init 4
    (Some new_year_2024) None "mass_downloads" world_odd.

(** A process whose model file exists and does not unpickle. *)
Definition corrupt_file_process : MLState stub_libraries :=
  mkMLState new_detector {[ model_path new_detector := None ]} [].

(** [df.drop(columns=[c])] *)
Definition drop_column (c : string) (df : DataFrame) : DataFrame :=
  {| nrows := nrows df;
     columns := List.filter (fun kv => negb (String.eqb (fst kv) c)) (columns df) |}.

(** The process after [fit_and_score] on the four accesses. *)
Definition fitted_process : MLState stub_libraries :=
  fst (fit_and_score stub_libraries small_batch fresh_process).

Definition fitted_pipeline : Pipeline (Estimator stub_libraries) :=
  default (build_pipeline stub_libraries new_detector)
          (pipeline (detector fitted_process)).

Definition fitted_columns : list string :=
  default [] (feature_columns (detector fitted_process)).

Definition fitted_scored : DataFrame :=
  snd (returned (fit_and_score stub_libraries small_batch fresh_process)
                (fitted_pipeline, small_batch)).

(** The four accesses again, their identifiers lost. *)
Definition batch_without_event_id : DataFrame := drop_column "event_id" small_batch.

Definition features_without_event_id : DataFrame :=
  match engineer_features stub_libraries batch_without_event_id with
  | Ok df_feat => df_feat
  | Raise _ => batch_without_event_id
  end.

(** ** More vocabulary: dates and draws *)

(** A datetime that Python can hold. *)
Definition valid_datetime (d : datetime.t) : Prop :=
  1 <= datetime.ordinal d <= datetime.MAXORDINAL
  /\ 0 <= datetime.hour d < 24
  /\ 0 <= datetime.minute d < 60
  /\ 0 <= datetime.second d < 60
  /\ 0 <= datetime.microsecond d < 1000000.

(** The same time of day, [k] days earlier. *)
Definition days_before (d : datetime.t) (k : Z) : datetime.t :=
  datetime.mk (datetime.ordinal d - k) (datetime.hour d) (datetime.minute d)
              (datetime.second d) (datetime.microsecond d).

(** The start date a generator works from: the one passed, or the clock
    moved back by the default number of days. *)
Definition start_or (start_date : option datetime.t) (now : datetime.t) (k : Z)
  : datetime.t :=
  match start_date with
  | Some d => d
  | None => days_before now k
  end.

(** Whole seconds since the start of day 0. *)
Definition seconds_of (d : datetime.t) : Z :=
  datetime.ordinal d * 86400 + datetime.hour d * 3600
  + datetime.minute d * 60 + datetime.second d.

(** What [random.choices] and [random.choice] promise: an element of the
    population. *)
Record ChoiceSpec (rs : RandomSource) : Prop := {
  py_choices_elem : forall population weights s,
    population <> [] -> fst (py_choices rs population weights s) ∈ population;
  py_choice_elem : forall population s,
    population <> [] -> fst (py_choice rs population s) ∈ population
}.

(** The identifiers of the synthetic population: [employee<k>] with
    [lo <= k < hi]. *)
Definition employee_between (lo hi : Z) (u : string) : Prop :=
  exists k, lo <= k < hi /\ u = "employee" +:+ pretty k.

(** When the start date of a generator is usable: the date passed is a
    datetime, or the clock is one and lies more than [k] days after the
    first day of the calendar. *)
Definition start_ok (start_date : option datetime.t) (now : datetime.t) (k : Z)
  : Prop :=
  match start_date with
  | Some d => valid_datetime d
  | None => valid_datetime now /\ 0 <= k < datetime.ordinal now
  end.

(** The seconds from [start] to [t]. *)
Definition elapsed (start t : datetime.t) : Z := seconds_of t - seconds_of start.

Definition at_midnight (d : datetime.t) : Prop :=
  datetime.hour d = 0 /\ datetime.minute d = 0 /\ datetime.second d = 0.
(** A row of [generate_normal_events]: who, what, and how far from the
    start date. *)
Definition normal_event_row (rs : RandomSource) (days : Z) (start : datetime.t) (r : record) : Prop :=
  exists id u ft sz t a day_offset hour minute td,
    r = event id u ft sz t a
    /\ employee_between 100 999 u
    /\ (ChoiceSpec rs -> ft ∈ FILE_TYPES /\ a ∈ ACTIONS)
    /\ 0 <= day_offset < days /\ 8 <= hour <= 19 /\ 0 <= minute < 60
    /\ timedelta.make day_offset hour minute = Ok td
    /\ datetime.add start td = Ok t.

(** A row of the generic pattern. *)
Definition generic_event_row (rs : RandomSource) (start : datetime.t) (label : option string)
    (r : record) : Prop :=
  exists id u ft sz k m,
    r = event id u ft sz
          (datetime.mk (datetime.ordinal start - k) 3 m
             (datetime.second start) (datetime.microsecond start))
          "download"
    /\ 0 <= k < 3 /\ k < datetime.ordinal start /\ 0 <= m < 60
    /\ (ChoiceSpec rs -> ft ∈ FILE_TYPES)
    /\ (forall l, label = Some l -> l <> "" -> u = l)
    /\ (label = None \/ label = Some "" -> employee_between 100 999 u).

(** An attack on a named account, as the dashboard simulates it. *)
Definition demo_attack_run :=
  generate_suspicious_events counter_source DataGenerator_init 2
    (Some new_year_2024) (Some "employee123") "mass_downloads" world_zeros.

(** ** More vocabulary: engineered features *)

(** A column name that the merge of the per-user aggregates can neither
    take nor produce: it is no aggregate's name, with or without one of the
    two suffixes. *)
Definition clear_of_merge (right_names : list string) (c : string) : bool :=
  forallb (fun n => negb (String.eqb c n)
                    && negb (String.eqb c (n +:+ "_x"))
                    && negb (String.eqb c (n +:+ "_y"))) right_names.

(** The seven columns that [engineer_features] computes row by row. *)
Definition row_features : list string :=
  ["hour"; "dayofweek"; "is_weekend"; "is_after_hours";
   "file_type_risk"; "is_large_file"; "size_risk_score"].

(** The score of a size in MB. *)
Definition size_score (q : Q) : Z :=
  if Qlt_bool 100 q then 10 else if Qlt_bool 50 q then 7
  else if Qlt_bool 10 q then 4 else 1.

(** The sensitivity of a file type; a type that is not in the table has
    none. *)
Definition type_risk (s : string) : value :=
  match assoc s file_risk_scores with
  | Some z => VInt z
  | None => VNaN
  end.
(** The engineered features of the four accesses. *)
Definition small_features : DataFrame :=
  match engineer_features stub_libraries small_batch with
  | Ok df_feat => df_feat
  | Raise _ => small_batch
  end.

(** The features of the mass downloads of the sample run. *)
Definition demo_mass_features : DataFrame :=
  match engineer_features stub_libraries (returned demo_mass_run (pd_DataFrame [])) with
  | Ok df_feat => df_feat
  | Raise _ => pd_DataFrame []
  end.

(** A table of access events as [engineer_features] needs it: every column
    has one cell per row, [access_time] holds timestamps, [file_size_MB]
    floats, [user_id] strings, and the columns [action] and [file_type]
    exist. *)
Definition rectangular (df : DataFrame) : Prop :=
  Forall (fun c => length (snd c) = nrows df) (columns df).

Definition event_table (df : DataFrame) : Prop :=
  rectangular df
  /\ (exists times, getitem df "access_time" = Ok times
                    /\ Forall (fun v => exists t, v = VTime t) times)
  /\ (exists sizes, getitem df "file_size_MB" = Ok sizes
                    /\ Forall (fun v => exists q, v = VFloat q) sizes)
  /\ (exists users, getitem df "user_id" = Ok users
                    /\ Forall (fun v => exists u, v = VStr u) users)
  /\ (exists actions, getitem df "action" = Ok actions)
  /\ (exists types, getitem df "file_type" = Ok types).

(** The columns that the pipeline of [build_pipeline] is built over. *)
Definition pipeline_columns (lib : Libraries) (self : AnomalyDetector lib)
  : list string :=
  (cat_features (steps (build_pipeline lib self))
   ++ num_features (steps (build_pipeline lib self)))%list.

(** The accesses of user [u] in a batch, and those of them that are
    downloads. *)
Definition accesses_of (u : string) (users : list value) : Z :=
  Z.of_nat (length (List.filter (value_eqb (VStr u)) users)).

Definition downloads_of (u : string) (users actions : list value) : Z :=
  Z.of_nat (length (List.filter
                      (fun ua => value_eqb (VStr u) (fst ua)
                                 && value_eqb (VStr "download") (snd ua))
                      (zip users actions))).

(** The cells of a column, none for a column that does not exist. *)
Definition column_cells (df : DataFrame) (c : string) : list value :=
  match getitem df c with
  | Ok col => col
  | Raise _ => []
  end.

(** ** More vocabulary: the detector *)

(** A computation that leaves the state as it found it, whatever it
    returns or raises. *)
Definition stateless {S A} (c : M S A) : Prop := forall s, fst (c s) = s.

(** A computation that leaves a part [f] of the state as it found it. *)
Definition preserves {S T A} (f : S -> T) (c : M S A) : Prop :=
  forall s, f (fst (c s)) = f s.

(** The log grew by at most one line, a warning. *)
Definition at_most_a_warning (before after : list log_line) : Prop :=
  after = before \/ exists msg, after = (before ++ [("WARNING", msg)])%list.


(** A table of events that a filter has emptied: the columns are there,
    the rows are not. *)
Definition no_rows_batch : DataFrame :=
  {| nrows := 0;
     columns := [("event_id", []); ("user_id", []); ("file_type", []);
                 ("file_size_MB", []); ("access_time", []); ("action", [])] |}.

Definition no_rows_features : DataFrame :=
  match engineer_features stub_libraries no_rows_batch with
  | Ok df_feat => df_feat
  | Raise _ => no_rows_batch
  end.

(** ** utils.py and main.py: alerts, filters and the check of predictions *)

(** [series >= k], cell by cell; a missing value compares false. *)
Definition ge_scalar (k : Q) (v : value) : outcome bool :=
  let! x := to_numeric v in
  Ok match x with
     | NumQ q => Qle_bool k q
     | NumInf => true
     | NumNaN => false
     end.

(** The entries of [l] at the positions where [mask] is true. *)
Definition keep_rows {A} (mask : list bool) (l : list A) : list A :=
  map snd (List.filter fst (zip mask l)).

(** [df[mask]] for a boolean mask computed from [df]: the rows where the
    mask is true, in their order.  (The row labels that pandas keeps are
    read by no caller.) *)
Definition boolean_index (df : DataFrame) (mask : list bool) : DataFrame :=
  {| nrows := length (keep_rows mask (seq 0 (nrows df)));
     columns := map (fun c => (fst c, keep_rows mask (snd c))) (columns df) |}.

(** [row.get(c, default)] on row [i] of [df.iterrows()] *)
Definition row_get (df : DataFrame) (i : nat) (c : string) (default : value)
  : value :=
  match assoc c (columns df) with
  | Some col => match col !! i with Some v => v | None => VNaN end
  | None => default
  end.

(** *** class AlertManager *)

Definition alert (df : DataFrame) (i : nat) : record :=
  [("event_id", row_get df i "event_id" (VStr "unknown"));
   ("user_id", row_get df i "user_id" (VStr "unknown"));
   ("risk_score", row_get df i "risk_score" (VInt 0));
   ("file_type", row_get df i "file_type" (VStr "unknown"));
   ("access_time", row_get df i "access_time" (VStr "unknown"));
   ("action", row_get df i "action" (VStr "unknown"))].

Definition check_high_risk_events (df : DataFrame) (threshold : Q)
  : outcome (list record) :=
  if negb (existsb (String.eqb "risk_score") (column_names df))
  then Ok []
  else
    let! risk_score := getitem df "risk_score" in
    let! mask := map_outcome (ge_scalar threshold) risk_score in
    let high_risk := boolean_index df mask in
    Ok (map (alert high_risk) (seq 0 (nrows high_risk))).

(** *** AnomalyDetectionApp._apply_filters *)

(** The dict that [create_filters] returns. *)
Record Filters := mkFilters {
  user_filter : list string;
  type_filter : list string;
  show_only_anoms : bool;
  risk_threshold : Q
}.

(** [series.isin(values)] for a list of strings *)
Definition isin_str (values : list string) (v : value) : bool :=
  match v with
  | VStr s => existsb (String.eqb s) values
  | _ => false
  end.

(** A column used as a mask, as in [df[df["anomaly_flag"]]]: its cells must
    be booleans. *)
Definition as_mask (col : list value) : outcome (list bool) :=
  map_outcome (fun v => match v with
                        | VBool b => Ok b
                        | VNaN => Raise (ValueError
                            "Cannot mask with non-boolean array containing NA / NaN values")
                        | _ => Raise (KeyError "not in index")
                        end) col.

Definition is_empty_list {A} (l : list A) : bool :=
  match l with [] => true | _ => false end.

Definition _apply_filters (df : DataFrame) (filters : Filters) : outcome DataFrame :=
  let filtered_df := df in
  (* User filter *)
  let! filtered_df :=
    if negb (is_empty_list (user_filter filters))
    then let! users := getitem filtered_df "user_id" in
         Ok (boolean_index filtered_df (map (isin_str (user_filter filters)) users))
    else Ok filtered_df in
  (* File type filter *)
  let! filtered_df :=
    if negb (is_empty_list (type_filter filters))
    then let! types := getitem filtered_df "file_type" in
         Ok (boolean_index filtered_df (map (isin_str (type_filter filters)) types))
    else Ok filtered_df in
  (* Anomaly filter *)
  let! filtered_df :=
    if show_only_anoms filters
    then let! flags := getitem filtered_df "anomaly_flag" in
         let! mask := as_mask flags in
         Ok (boolean_index filtered_df mask)
    else Ok filtered_df in
  (* Risk threshold filter *)
  let! filtered_df :=
    if existsb (String.eqb "risk_score") (column_names filtered_df)
    then let! risk := getitem filtered_df "risk_score" in
         let! mask := map_outcome (ge_scalar (risk_threshold filters)) risk in
         Ok (boolean_index filtered_df mask)
    else Ok filtered_df in
  Ok filtered_df.

(** *** DataValidator.validate_ml_predictions *)











(** ** More vocabulary: rows of a table *)

(** The cell of a column at a row, missing outside the column. *)
Definition cell_at (col : list value) (i : nat) : value := default VNaN (col !! i).

(** The table made of the given rows of [df], in the given order. *)
Definition take_rows (df : DataFrame) (rows : list nat) : DataFrame :=
  {| nrows := length rows;
     columns := map (fun c => (fst c, map (cell_at (snd c)) rows)) (columns df) |}.

Definition all_rows (df : DataFrame) : list nat := seq 0 (nrows df).

(** The cell of a named column at a row; missing when there is no such
    column or row. *)
Definition cell_or_missing (df : DataFrame) (c : string) (i : nat) : value :=
  default VNaN (cell df c i).

(** Row [i] has a risk score at or above the threshold. *)
Definition at_or_above (threshold : Q) (df : DataFrame) (i : nat) : bool :=
  match ge_scalar threshold (cell_or_missing df "risk_score" i) with
  | Ok b => b
  | Raise _ => false
  end.

(** Row [i] passes the filters that are switched on. *)
Definition passes (filters : Filters) (df : DataFrame) (i : nat) : bool :=
  (is_empty_list (user_filter filters)
   || isin_str (user_filter filters) (cell_or_missing df "user_id" i))
  && (is_empty_list (type_filter filters)
      || isin_str (type_filter filters) (cell_or_missing df "file_type" i))
  && (negb (show_only_anoms filters)
      || value_eqb (VBool true) (cell_or_missing df "anomaly_flag" i))
  && (negb (existsb (String.eqb "risk_score") (column_names df))
      || at_or_above (risk_threshold filters) df i).

(** ** utils.py: PerformanceMonitor; main.py: the retraining of the model *)

(** [a - b] on two datetimes, normalised as [timedelta] normalises. *)
Definition datetime_diff (a b : datetime.t) : timedelta.t :=
  let us := datetime.microsecond a - datetime.microsecond b in
  let s := (datetime.hour a * 3600 + datetime.minute a * 60 + datetime.second a)
           - (datetime.hour b * 3600 + datetime.minute b * 60 + datetime.second b)
           + us / 1000000 in
  let d := datetime.ordinal a - datetime.ordinal b + s / 86400 in
  timedelta.mk d (s mod 86400) (us mod 1000000).

(** [td.total_seconds()] *)
Definition total_seconds (td : timedelta.t) : Q :=
  (inject_Z ((timedelta.days td * 86400 + timedelta.seconds td) * 1000000
             + timedelta.microseconds td) / 1000000)%Q.

(** [str(e)]: the message; for a [KeyError], the key as [repr] shows it. *)
Definition exn_str (e : exn) : string :=
  if String.eqb (exn_class e) "KeyError" then "'" +:+ exn_arg e +:+ "'"
  else exn_arg e.

(** [f"{x:.2f}"] for a duration (durations are not negative). *)
Definition two_digits (k : Z) : string :=
  if k <? 10 then "0" +:+ pretty k else pretty k.
Definition format_2f (x : Q) : string :=
  let k := round_half_even (x * 100) in
  pretty (k / 100) +:+ "." +:+ two_digits (k mod 100).

Record PerformanceMonitor := mkPerformanceMonitor {
  start_times : gmap string datetime.t;
  metrics : gmap string Q
}.

Definition PerformanceMonitor_init : PerformanceMonitor :=
  mkPerformanceMonitor ∅ ∅.

Section AppModule.
Context (lib : Libraries).

(** What a name of main.py can be bound to: an [AnomalyDetector] object, by
    its place among the detectors created so far, or a scikit-learn
    [Pipeline]. *)
Inductive pyobj :=
| PyAnomalyDetector (addr : nat)
| PyPipeline (p : Pipeline (Estimator lib)).

(** The process as main.py sees it: the detector objects, the files and
    the log of ml_pipeline.py, Streamlit's session state and messages, the
    performance monitor of the application, the clock and the log of
    main.py. *)
Record App := mkApp {
  detectors : list (AnomalyDetector lib);
  app_files : gmap string (Artifact lib);
  pipeline_log : list log_line;
  session_df : option DataFrame;
  session_model : option pyobj;
  session_df_scored : option DataFrame;
  performance_monitor : PerformanceMonitor;
  app_clock : nat -> datetime.t;
  app_ticks : nat;
  app_log : list log_line;
  st_messages : list (string * string)
}.

(** [datetime.now()]: the next reading of the clock. *)
Definition app_now : M App datetime.t :=
  fun a => (mkApp (detectors a) (app_files a) (pipeline_log a) (session_df a)
                  (session_model a) (session_df_scored a) (performance_monitor a)
                  (app_clock a) (S (app_ticks a)) (app_log a) (st_messages a),
            Ok (app_clock a (app_ticks a))).

Definition set_monitor (pm : PerformanceMonitor) : M App unit :=
  modify (fun a => mkApp (detectors a) (app_files a) (pipeline_log a) (session_df a)
                         (session_model a) (session_df_scored a) pm
                         (app_clock a) (app_ticks a) (app_log a) (st_messages a)).

(** *** class PerformanceMonitor *)

Definition start_timer (operation : string) : M App unit :=
  now <- app_now ;;
  a <- get ;;
  set_monitor (mkPerformanceMonitor
                 (<[operation := now]> (start_times (performance_monitor a)))
                 (metrics (performance_monitor a))).

Definition end_timer (operation : string) : M App Q :=
  a <- get ;;
  match start_times (performance_monitor a) !! operation with
  | None => ret 0%Q
  | Some started =>
      now <- app_now ;;
      let duration := total_seconds (datetime_diff now started) in
      set_monitor (mkPerformanceMonitor
                     (delete operation (start_times (performance_monitor a)))
                     (<[operation := duration]> (metrics (performance_monitor a)))) ;;;
      ret duration
  end.

(** *** The objects and their methods *)

(** [AnomalyDetector(contamination=..)]: a new object. *)
Definition new_AnomalyDetector (contamination : Q) (n_estimators : Z)
  : M App pyobj :=
  fun a => (mkApp (detectors a ++ [AnomalyDetector_init lib contamination n_estimators])
                  (app_files a) (pipeline_log a) (session_df a)
                  (session_model a) (session_df_scored a) (performance_monitor a)
                  (app_clock a) (app_ticks a) (app_log a) (st_messages a),
            Ok (PyAnomalyDetector (length (detectors a)))).

(** A method of ml_pipeline.py run on the detector at [addr].  (No name is
    ever bound to an address that [new_AnomalyDetector] did not hand out.) *)
Definition on_detector {A} (addr : nat) (method : M (MLState lib) A) : M App A :=
  fun a =>
    match detectors a !! addr with
    | Some self =>
        let '(s, r) := method (mkMLState self (app_files a) (pipeline_log a)) in
        (mkApp (<[addr := detector s]> (detectors a)) (files s) (ml_log s)
               (session_df a) (session_model a) (session_df_scored a)
               (performance_monitor a) (app_clock a) (app_ticks a) (app_log a)
               (st_messages a),
         r)
    | None => (a, Raise (Exn "ReferenceError" "no such object"))
    end.

(** [obj.fit_and_score(df)]; the session's table may still be [None]. *)
Definition call_fit_and_score (obj : pyobj) (df : option DataFrame)
  : M App (Pipeline (Estimator lib) * DataFrame) :=
  match obj with
  | PyAnomalyDetector addr =>
      match df with
      | Some df => on_detector addr (fit_and_score lib df)
      | None =>
          on_detector addr
            (logger lib "INFO" "Starting model training and scoring" ;;;
             raise (AttributeError "'NoneType' object has no attribute 'copy'"))
      end
  | PyPipeline _ =>
      raise (AttributeError "'Pipeline' object has no attribute 'fit_and_score'")
  end.

(** [obj.save_model()] *)
Definition call_save_model (obj : pyobj) : M App unit :=
  match obj with
  | PyAnomalyDetector addr => on_detector addr (save_model lib)
  | PyPipeline _ =>
      raise (AttributeError "'Pipeline' object has no attribute 'save_model'")
  end.

(** *** Streamlit and the logger of main.py *)

Definition set_session_model (obj : pyobj) : M App unit :=
  modify (fun a => mkApp (detectors a) (app_files a) (pipeline_log a) (session_df a)
                         (Some obj) (session_df_scored a) (performance_monitor a)
                         (app_clock a) (app_ticks a) (app_log a) (st_messages a)).

Definition set_session_df_scored (df : DataFrame) : M App unit :=
  modify (fun a => mkApp (detectors a) (app_files a) (pipeline_log a) (session_df a)
                         (session_model a) (Some df) (performance_monitor a)
                         (app_clock a) (app_ticks a) (app_log a) (st_messages a)).

Definition app_logger (level msg : string) : M App unit :=
  modify (fun a => mkApp (detectors a) (app_files a) (pipeline_log a) (session_df a)
                         (session_model a) (session_df_scored a)
                         (performance_monitor a) (app_clock a) (app_ticks a)
                         (app_log a ++ [(level, msg)]) (st_messages a)).

(** [st.success(..)], [st.error(..)] *)
Definition st_message (kind msg : string) : M App unit :=
  modify (fun a => mkApp (detectors a) (app_files a) (pipeline_log a) (session_df a)
                         (session_model a) (session_df_scored a)
                         (performance_monitor a) (app_clock a) (app_ticks a)
                         (app_log a) (st_messages a ++ [(kind, msg)])).

(** *** AnomalyDetectionApp._retrain_model *)

Definition _retrain_model (contamination : Q) : M App unit :=
  start_timer "model_training" ;;;
  try_except
    (detector <- new_AnomalyDetector contamination 300 ;;
     a <- get ;;
     r <- call_fit_and_score detector (session_df a) ;;
     (* detector, df_scored = ...: the name is bound again *)
     let detector := PyPipeline (fst r) in
     let df_scored := snd r in
     set_session_model detector ;;;
     set_session_df_scored df_scored ;;;
     (* Save the model *)
     call_save_model detector ;;;
     duration <- end_timer "model_training" ;;
     app_logger "INFO" ("Model retrained in " +:+ format_2f duration +:+ "s") ;;;
     st_message "success" "✅ Model re-trained successfully!")
    (fun e =>
       app_logger "ERROR" ("Error retraining model: " +:+ exn_str e) ;;;
       st_message "error" "Failed to retrain model. Please check the logs.").

End AppModule.

Arguments PyAnomalyDetector {lib}.
Arguments PyPipeline {lib}.
Arguments mkApp {lib}.
Arguments detectors {lib}.
Arguments app_files {lib}.
Arguments pipeline_log {lib}.
Arguments session_df {lib}.
Arguments session_model {lib}.
Arguments session_df_scored {lib}.
Arguments performance_monitor {lib}.
Arguments app_clock {lib}.
Arguments app_ticks {lib}.
Arguments app_log {lib}.
Arguments st_messages {lib}.

(** The detector that [_retrain_model] creates, in the process it runs in. *)
Definition retraining_state (lib : Libraries) (a : App lib) (contamination : Q) : MLState lib :=
  mkMLState (AnomalyDetector_init lib contamination 300)
            (app_files a) (pipeline_log a).

(** The application after it has loaded the four accesses, at the stroke of
    the new year; each reading of the clock is a second later. *)
Definition ticking_clock (n : nat) : datetime.t :=
  datetime.mk 738886 0 0 (Z.of_nat n mod 60) 0.

Definition demo_app : App stub_libraries :=
  mkApp [] ∅ [] (Some small_batch) None None PerformanceMonitor_init
        ticking_clock 0 [] [].


(** A selection of the dashboard. *)
Definition anomalies_of_employee101 : Filters :=
  mkFilters ["employee101"] [] true 0.

(** The scored accesses that this selection shows. *)
Definition shown_accesses : DataFrame :=
  match _apply_filters fitted_scored anomalies_of_employee101 with
  | Ok shown => shown
  | Raise _ => fitted_scored
  end.

(** * Properties *)

(** ** The monad *)

Lemma bind_Ok {S A B} (c : M S A) (k : A -> M S B) s s' b :
  bind c k s = (s', Ok b) ->
  exists a s1, c s = (s1, Ok a) /\ k a s1 = (s', Ok b).
Proof.
  unfold bind. destruct (c s) as [s1 [e|a]]; intros H.
  - discriminate.
  - eauto.
Qed.

Lemma obind_Ok {A B} (r : outcome A) (k : A -> outcome B) b :
  obind r k = Ok b -> exists a, r = Ok a /\ k a = Ok b.
Proof. destruct r; simpl; intros H; [discriminate | eauto]. Qed.

Lemma lift_outcome_Ok {S A} (r : outcome A) (s s' : S) a :
  lift_outcome r s = (s', Ok a) -> s' = s /\ r = Ok a.
Proof. unfold lift_outcome. intros H. inversion H. auto. Qed.

Lemma ret_Ok {S A} (x a : A) (s s' : S) :
  ret x s = (s', Ok a) -> s' = s /\ a = x.
Proof. unfold ret. intros H. inversion H. auto. Qed.

(** Every value a loop collects comes from a run of its body. *)
Lemma for_range_Forall {S A} (P : A -> Prop) (body : M S A) :
  (forall s s' a, body s = (s', Ok a) -> P a) ->
  forall n s s' xs,
    for_range n body s = (s', Ok xs) -> Forall P xs /\ length xs = n.
Proof.
  intros Hbody. induction n as [|n IH]; intros s s' xs H; simpl in H.
  - apply ret_Ok in H as [_ ->]. split; [constructor | reflexivity].
  - apply bind_Ok in H as (a & s1 & Ha & H).
    apply bind_Ok in H as (ys & s2 & Hys & H).
    apply ret_Ok in H as [_ ->].
    destruct (IH _ _ _ Hys) as [Hall Hlen].
    split; [constructor; eauto | simpl; congruence].
Qed.

(** ** Rounding and clipping *)

Lemma np_clip_bounds (x lo hi : Q) :
  (lo <= hi)%Q -> (lo <= np_clip x lo hi)%Q /\ (np_clip x lo hi <= hi)%Q.
Proof.
  intros Hlohi. unfold np_clip, np_minimum, np_maximum.
  destruct (Qle_bool x lo) eqn:E1.
  - destruct (Qle_bool lo hi) eqn:E2.
    + split; [apply Qle_refl | assumption].
    + apply Qle_bool_iff in Hlohi. congruence.
  - destruct (Qle_bool x hi) eqn:E2.
    + split.
      * destruct (Qlt_le_dec x lo) as [Hlt|Hle]; [|assumption].
        apply Qlt_le_weak in Hlt. apply Qle_bool_iff in Hlt. congruence.
      * apply Qle_bool_iff; assumption.
    + split; [assumption | apply Qle_refl].
Qed.

(** Rounding to the nearest integer stays between two integers that
    enclose the argument. *)
Lemma round_half_even_bounds (a b : Z) (x : Q) :
  (inject_Z a <= x)%Q -> (x <= inject_Z b)%Q ->
  a <= round_half_even x <= b.
Proof.
  intros Ha Hb. unfold round_half_even.
  assert (Hfa : a <= Qfloor x).
  { rewrite <- (Qfloor_Z a). apply Qfloor_resp_le; assumption. }
  assert (Hfb : Qfloor x <= b).
  { rewrite <- (Qfloor_Z b). apply Qfloor_resp_le; assumption. }
  assert (Hup : (inject_Z (Qfloor x) < x)%Q -> Qfloor x + 1 <= b).
  { intros Hlt.
    assert (Hlt' : (inject_Z (Qfloor x) < inject_Z b)%Q)
      by (eapply Qlt_le_trans; eassumption).
    rewrite <- Zlt_Qlt in Hlt'. lia. }
  assert (Hhalf : ((1 # 2) <= x - inject_Z (Qfloor x))%Q ->
                  (inject_Z (Qfloor x) < x)%Q).
  { intros H. apply Qlt_minus_iff.
    eapply Qlt_le_trans; [| unfold Qminus in H; exact H]. reflexivity. }
  destruct (Qcompare_spec (x - inject_Z (Qfloor x)) (1 # 2)) as [He|Hl|Hg].
  - destruct (Z.even (Qfloor x)); [lia |].
    assert (Qfloor x + 1 <= b); [|lia].
    apply Hup, Hhalf. rewrite He. apply Qle_refl.
  - lia.
  - assert (Qfloor x + 1 <= b); [|lia].
    apply Hup, Hhalf. apply Qlt_le_weak; assumption.
Qed.

Lemma round3_bounds (a b : Z) (x : Q) :
  (a # 1000 <= x)%Q -> (x <= b # 1000)%Q ->
  (a # 1000 <= round3 x)%Q /\ (round3 x <= b # 1000)%Q.
Proof.
  intros Ha Hb.
  destruct (round_half_even_bounds a b (x * 1000)) as [H1 H2].
  - apply (Qmult_le_compat_r _ _ 1000) in Ha; [|discriminate].
    eapply Qle_trans; [|exact Ha].
    unfold Qle, Qmult, inject_Z; simpl. lia.
  - apply (Qmult_le_compat_r _ _ 1000) in Hb; [|discriminate].
    eapply Qle_trans; [exact Hb|].
    unfold Qle, Qmult, inject_Z; simpl. lia.
  - unfold round3, Qle; simpl. lia.
Qed.

(** The same for bounds that are written otherwise, [1 # 10] say. *)
Lemma round3_between (a b : Z) (lo hi x : Q) :
  (lo == a # 1000)%Q -> (hi == b # 1000)%Q ->
  (lo <= x)%Q -> (x <= hi)%Q ->
  (lo <= round3 x)%Q /\ (round3 x <= hi)%Q.
Proof.
  intros Ea Eb Hlo Hhi. rewrite Ea, Eb in *. apply round3_bounds; assumption.
Qed.


(** ** Frames built from the generators' rows *)

Lemma lookup_map {A B} (f : A -> B) (l : list A) (i : nat) :
  map f l !! i = f <$> (l !! i).
Proof.
  revert i. induction l as [|x l IH]; intros [|i]; simpl; auto.
Qed.

Lemma fold_union_event_keys (rows : list record) :
  Forall is_event rows ->
  fold_left (fun seen r => union_keys seen (map fst r)) rows event_keys = event_keys.
Proof.
  induction 1 as [|r rows (id & u & ft & sz & t & a & ->) _ IH]; simpl.
  - reflexivity.
  - exact IH.
Qed.

Lemma records_columns_events (rows : list record) :
  Forall is_event rows -> rows <> [] -> records_columns rows = event_keys.
Proof.
  intros Hall Hne. destruct Hall as [|r rows (id & u & ft & sz & t & a & ->) Hall].
  - congruence.
  - unfold records_columns. simpl. apply fold_union_event_keys. exact Hall.
Qed.

(** The cells of row [i] are the fields of the [i]-th event. *)
Lemma cell_event (rows : list record) (i : nat) id u ft sz t a :
  Forall is_event rows ->
  rows !! i = Some (event id u ft sz t a) ->
  cell (pd_DataFrame rows) "event_id" i = Some (VStr id)
  /\ cell (pd_DataFrame rows) "user_id" i = Some (VStr u)
  /\ cell (pd_DataFrame rows) "file_type" i = Some (VStr ft)
  /\ cell (pd_DataFrame rows) "file_size_MB" i = Some (VFloat (round3 sz))
  /\ cell (pd_DataFrame rows) "access_time" i = Some (VTime t)
  /\ cell (pd_DataFrame rows) "action" i = Some (VStr a).
Proof.
  intros Hall Hi.
  assert (Hne : rows <> []) by (intros ->; discriminate).
  unfold cell, pd_DataFrame. cbn [columns].
  rewrite (records_columns_events rows Hall Hne).
  cbn [event_keys map assoc String.eqb Ascii.eqb Bool.eqb].
  unfold record in *. rewrite !lookup_map, Hi. repeat split; reflexivity.
Qed.

(** A property of every collected row is a property of every table row. *)
Lemma rows_of_frame (P : record -> Prop) (rows : list record) (i : nat) :
  Forall P rows -> (i < nrows (pd_DataFrame rows))%nat ->
  exists r, rows !! i = Some r /\ P r.
Proof.
  intros Hall Hi. simpl in Hi.
  destruct (lookup_lt_is_Some_2 rows i Hi) as [r Hr].
  exists r. split; [exact Hr|].
  rewrite Forall_forall in Hall. apply Hall.
  eapply list_elem_of_lookup_2; eauto.
Qed.

(** ** The generators *)

Ltac inv_M H :=
  lazymatch type of H with
  | bind _ _ _ = (_, Ok _) =>
      let a := fresh "a" in
      let s := fresh "s" in
      let Hrun := fresh "Hrun" in
      apply bind_Ok in H as (a & s & Hrun & H); inv_M H
  | ret _ _ = (_, Ok _) =>
      let E1 := fresh in
      let E2 := fresh in
      apply ret_Ok in H as [E1 E2]; subst
  | _ => idtac
  end.

Section GeneratorFacts.
Context (rs : RandomSource).

Lemma _generate_file_size_range self file_type action w w' q :
  _generate_file_size rs self file_type action w = (w', Ok q) ->
  (1 # 10 <= q)%Q /\ (q <= 120)%Q.
Proof.
  unfold _generate_file_size. intros H. inv_M H.
  apply np_clip_bounds. discriminate.
Qed.

Lemma np_draw_total {A} (f : NpState rs -> A * NpState rs) w :
  exists w', np_draw rs f w = (w', Ok (fst (f (np_rng w)))).
Proof. unfold np_draw. destruct (f (np_rng w)); simpl; eauto. Qed.

Lemma _generate_file_size_total self file_type action w :
  exists w' q, _generate_file_size rs self file_type action w = (w', Ok q).
Proof.
  unfold _generate_file_size, bind, np_random_exponential, ret.
  repeat match goal with
         | |- context [if ?b then _ else _] => destruct b
         end;
    match goal with
    | |- context [np_draw rs ?f w] =>
        destruct (np_draw_total f w) as [w1 ->]
    end; eauto.
Qed.

Lemma normal_events_rows self n start_date days w w' df :
  generate_normal_events rs self n start_date days w = (w', Ok df) ->
  exists rows,
    df = pd_DataFrame rows
    /\ Forall (fun r => exists id u ft sz t a,
                 r = event id u ft sz t a
                 /\ (1 # 10 <= sz)%Q /\ (sz <= 120)%Q) rows.
Proof.
  unfold generate_normal_events. intros H. inv_M H.
  eexists; split; [reflexivity|].
  eapply for_range_Forall; [|eassumption].
  clear. intros s s' r H. inv_M H.
  do 6 eexists; split; [reflexivity|].
  eapply _generate_file_size_range; eassumption.
Qed.

End GeneratorFacts.

Lemma events_weaken (P : record -> Prop) (rows : list record) :
  (forall r, P r -> is_event r) -> Forall P rows -> Forall is_event rows.
Proof. intros HP H. eapply Forall_impl; eauto. Qed.

(** C9: every event of [generate_normal_events] has [file_size_MB] in
    [0.1, 120].  The size is what [_generate_file_size] returns (an
    exponential draw whose scale and offset depend on the file type, times
    1.3 for a download, clipped to the range) rounded to three decimals;
    [_generate_file_size] always returns, and returns a value of the
    range. *)
Theorem normal_events_file_size_in_range
    (rs : RandomSource) (self : DataGenerator) (n : Z)
    (start_date : option datetime.t) (days : Z)
    (w w' : World rs) (df : DataFrame) :
  generate_normal_events rs self n start_date days w = (w', Ok df) ->
  (forall i, (i < nrows df)%nat ->
     exists q, cell df "file_size_MB" i = Some (VFloat q)
               /\ (1 # 10 <= q)%Q /\ (q <= 120)%Q)
  /\ (forall file_type action w0,
        exists w1 q, _generate_file_size rs self file_type action w0 = (w1, Ok q)
                     /\ (1 # 10 <= q)%Q /\ (q <= 120)%Q).
Proof.
  intros H. split.
  - apply normal_events_rows in H as (rows & -> & Hrows). intros i Hi.
    destruct (rows_of_frame _ rows i Hrows Hi)
      as (r & Hr & id & u & ft & sz & t & a & -> & Hlo & Hhi).
    assert (Hev : Forall is_event rows).
    { eapply events_weaken; [|exact Hrows].
      intros r (id' & u' & ft' & sz' & t' & a' & -> & _).
      do 6 eexists; reflexivity. }
    destruct (cell_event rows i _ _ _ _ _ _ Hev Hr) as (_ & _ & _ & Hsz & _).
    exists (round3 sz). split; [exact Hsz|].
    apply (round3_between 100 120000); try assumption; reflexivity.
  - intros ft a w0.
    destruct (_generate_file_size_total rs self ft a w0) as (w1 & q & Hq).
    exists w1, q. split; [exact Hq|].
    eapply _generate_file_size_range; exact Hq.
Qed.

(** ** Suspicious events *)

Lemma mass_download_time (ord off : Z) (td : timedelta.t) (t : datetime.t) :
  0 <= off < 180 ->
  timedelta.make 0 0 off = Ok td ->
  datetime.add (datetime.mk ord 2 0 0 0) td = Ok t ->
  datetime.ordinal t = ord
  /\ 120 <= datetime.minute_of_day t < 300
  /\ 0 <= datetime.second t < 60.
Proof.
  intros Hoff Htd Ht. unfold timedelta.make in Htd.
  destruct (Z.abs _ <=? _); [|discriminate]. injection Htd as <-.
  unfold datetime.add in Ht.
  cbn [timedelta.days timedelta.seconds timedelta.microseconds
       datetime.ordinal datetime.hour datetime.minute datetime.second
       datetime.microsecond] in Ht.
  destruct (_ && _); [|discriminate]. injection Ht as <-.
  unfold datetime.minute_of_day.
  cbn [datetime.ordinal datetime.hour datetime.minute datetime.second].
  Z.div_mod_to_equations. lia.
Qed.

Section SuspiciousFacts.
Context (rs : RandomSource) (Hrs : RandomSourceSpec rs).

Lemma np_random_randint_range lo hi w w' k :
  np_random_randint rs lo hi w = (w', Ok k) -> lo <= k < hi.
Proof.
  unfold np_random_randint. destruct (lo <? hi) eqn:E; [|discriminate].
  apply Z.ltb_lt in E. unfold np_draw.
  pose proof (np_randint_range rs Hrs lo hi (np_rng w) E) as Hk.
  destruct (np_randint rs lo hi (np_rng w)) as [k' st]. simpl in Hk.
  intros H. injection H as _ <-. exact Hk.
Qed.

Lemma np_random_uniform_range lo hi w w' q :
  (lo <= hi)%Q ->
  np_random_uniform rs lo hi w = (w', Ok q) -> (lo <= q)%Q /\ (q <= hi)%Q.
Proof.
  intros Hlohi. unfold np_random_uniform, np_draw.
  pose proof (np_uniform_range rs Hrs lo hi (np_rng w) Hlohi) as Hq.
  destruct (np_uniform rs lo hi (np_rng w)) as [q' st]. simpl in Hq.
  intros H. injection H as _ <-. exact Hq.
Qed.

Lemma mass_downloads_rows self n start label w w' df :
  _generate_mass_downloads rs self n start label w = (w', Ok df) ->
  exists u rows,
    df = pd_DataFrame rows
    /\ Forall (fun r => exists id ft sz t,
                 r = event id u ft sz t "download"
                 /\ in_off_hours_window start t
                 /\ mass_download_size ft sz) rows.
Proof.
  unfold _generate_mass_downloads. intros H. inv_M H.
  apply lift_outcome_Ok in Hrun0 as [-> Hbase].
  unfold datetime.replace in Hbase. simpl in Hbase. injection Hbase as <-.
  eexists a, _; split; [reflexivity|].
  eapply for_range_Forall; [|eassumption].
  clear -Hrs. intros s s' r H. inv_M H.
  apply np_random_randint_range in Hrun.
  apply lift_outcome_Ok in Hrun0 as [-> Htd].
  apply lift_outcome_Ok in Hrun1 as [-> Ht].
  do 4 eexists; split; [reflexivity|]. split.
  - eapply mass_download_time; eassumption.
  - unfold mass_download_size.
    destruct (String.eqb a3 "Database export") eqn:E1.
    + apply String.eqb_eq in E1. subst a3.
      apply np_random_uniform_range in Hrun3 as [H1 H2]; [|discriminate].
      repeat split; try (intros; congruence); try assumption.
      eapply Qle_trans; [|exact H1]. discriminate.
    + apply String.eqb_neq in E1.
      destruct (String.eqb a3 "PDF") eqn:E2.
      * apply String.eqb_eq in E2. subst a3.
        apply np_random_uniform_range in Hrun3 as [H1 H2]; [|discriminate].
        repeat split; try (intros; congruence); try assumption.
        eapply Qle_trans; [exact H2|]. discriminate.
      * apply String.eqb_neq in E2.
        apply np_random_uniform_range in Hrun3 as [H1 H2]; [|discriminate].
        repeat split; try (intros; congruence); try assumption.
        -- eapply Qle_trans; [|exact H1]. discriminate.
        -- eapply Qle_trans; [exact H2|]. discriminate.
Qed.

Lemma generic_suspicious_rows self n start label w w' df :
  _generate_generic_suspicious rs self n start label w = (w', Ok df) ->
  exists rows,
    df = pd_DataFrame rows
    /\ Forall (fun r => exists id u ft sz t,
                 r = event id u ft sz t "download"
                 /\ (10 <= sz)%Q /\ (sz <= 150)%Q) rows.
Proof.
  unfold _generate_generic_suspicious. intros H. inv_M H.
  eexists; split; [reflexivity|].
  eapply for_range_Forall; [|eassumption].
  clear -Hrs. intros s s' r H. inv_M H.
  do 5 eexists; split; [reflexivity|].
  eapply np_random_uniform_range; [|eassumption]. discriminate.
Qed.

(** Which generator [generate_suspicious_events] runs, and from which
    start date. *)
Lemma suspicious_events_dispatch self n start_date label pattern w w' df :
  generate_suspicious_events rs self n start_date label pattern w = (w', Ok df) ->
  exists start w1,
    (forall d, start_date = Some d -> start = d)
    /\ (start_date = None ->
        datetime.sub (clock w) (timedelta.mk 1 0 0) = Ok start)
    /\ (if String.eqb pattern "mass_downloads"
        then _generate_mass_downloads rs self n start label w1 = (w', Ok df)
        else _generate_generic_suspicious rs self n start label w1 = (w', Ok df)).
Proof.
  unfold generate_suspicious_events. intros H. inv_M H.
  exists a, s0. repeat split.
  - intros d ->. apply ret_Ok in Hrun as [_ ->]. reflexivity.
  - intros ->.
    apply bind_Ok in Hrun as (now & w1 & Hnow & Hrun).
    apply bind_Ok in Hrun as (td & w2 & Htd & Hsub).
    unfold datetime_now in Hnow. injection Hnow as <- <-.
    apply lift_outcome_Ok in Htd as [-> Htd].
    apply lift_outcome_Ok in Hsub as [_ Hsub].
    vm_compute in Htd. injection Htd as <-. exact Hsub.
  - destruct (String.eqb pattern "mass_downloads"); exact H.
Qed.

End SuspiciousFacts.

(** The counter-driven source keeps the documented ranges. *)
Lemma counter_source_spec : RandomSourceSpec counter_source.
Proof.
  split.
  - intros lo hi s Hlt. simpl.
    pose proof (Z.mod_pos_bound s (hi - lo)). lia.
  - intros lo hi s Hle. simpl.
    destruct (Z.even s); simpl; split; auto using Qle_refl.
Defined.

(** C8: every event of [generate_suspicious_events] with pattern
    [mass_downloads] is a download, all events of the batch carry one and
    the same user, and every access time lies on the start date between
    02:00 (included) and 05:00 (excluded).  The start date is the one passed,
    or yesterday at the time of the call when none is passed. *)
Theorem mass_downloads_pattern
    (rs : RandomSource) (Hrs : RandomSourceSpec rs)
    (self : DataGenerator) (n : Z) (start_date : option datetime.t)
    (label_user : option string) (w w' : World rs) (df : DataFrame) :
  generate_suspicious_events rs self n start_date label_user "mass_downloads" w
    = (w', Ok df) ->
  exists u start,
    (forall d, start_date = Some d -> start = d)
    /\ (start_date = None ->
        datetime.sub (clock w) (timedelta.mk 1 0 0) = Ok start)
    /\ forall i, (i < nrows df)%nat ->
         cell df "action" i = Some (VStr "download")
         /\ cell df "user_id" i = Some (VStr u)
         /\ exists t, cell df "access_time" i = Some (VTime t)
                      /\ in_off_hours_window start t.
Proof.
  intros H.
  apply suspicious_events_dispatch in H as (start & w1 & Hsome & Hnone & H).
  simpl in H.
  apply (mass_downloads_rows rs Hrs) in H as (u & rows & -> & Hrows).
  exists u, start. split; [exact Hsome|]. split; [exact Hnone|].
  intros i Hi.
  destruct (rows_of_frame _ rows i Hrows Hi)
    as (r & Hr & id & ft & sz & t & -> & Hwin & _).
  assert (Hev : Forall is_event rows).
  { eapply events_weaken; [|exact Hrows].
    intros r (id' & ft' & sz' & t' & -> & _). do 6 eexists; reflexivity. }
  destruct (cell_event rows i _ _ _ _ _ _ Hev Hr)
    as (_ & Hu & _ & _ & Ht & Ha).
  split; [exact Ha|]. split; [exact Hu|]. exists t. split; assumption.
Qed.

Lemma mass_downloads_pattern_witness :
  exists u start,
    (forall d, Some new_year_2024 = Some d -> start = d)
    /\ (Some new_year_2024 = None ->
        datetime.sub (clock world_zeros) (timedelta.mk 1 0 0) = Ok start)
    /\ forall i, (i < nrows (returned demo_mass_run (pd_DataFrame [])))%nat ->
         cell (returned demo_mass_run (pd_DataFrame [])) "action" i
           = Some (VStr "download")
         /\ cell (returned demo_mass_run (pd_DataFrame [])) "user_id" i
            = Some (VStr u)
         /\ exists t, cell (returned demo_mass_run (pd_DataFrame []))
                        "access_time" i = Some (VTime t)
                      /\ in_off_hours_window start t.
Proof.
  apply (mass_downloads_pattern counter_source counter_source_spec
           DataGenerator_init 4 (Some new_year_2024) None world_zeros
           (fst demo_mass_run) (returned demo_mass_run (pd_DataFrame []))).
  vm_compute. reflexivity.
Defined.

(** C10: the sizes of suspicious events are not clipped to [0.1, 120].  A
    mass-download event has a size in [5, 300]: in [50, 300] for a database
    export, in [5, 50] for a PDF, in [10, 80] otherwise (Excel is the third
    type drawn).  An event of the generic pattern has a size in [10, 150].
    Both patterns can produce sizes above 120: a run of each is exhibited
    that does. *)
Theorem suspicious_sizes_not_clipped :
  (forall (rs : RandomSource), RandomSourceSpec rs ->
   forall self n start_date label_user (w w' : World rs) df,
     generate_suspicious_events rs self n start_date label_user
       "mass_downloads" w = (w', Ok df) ->
     forall i, (i < nrows df)%nat ->
       exists ft q,
         cell df "file_type" i = Some (VStr ft)
         /\ cell df "file_size_MB" i = Some (VFloat q)
         /\ ((5 <= q)%Q /\ (q <= 300)%Q)
         /\ (ft = "Database export" -> (50 <= q)%Q /\ (q <= 300)%Q)
         /\ (ft = "PDF" -> (5 <= q)%Q /\ (q <= 50)%Q)
         /\ (ft = "Excel" -> (10 <= q)%Q /\ (q <= 80)%Q))
  /\ (forall (rs : RandomSource), RandomSourceSpec rs ->
      forall self n start_date label_user pattern (w w' : World rs) df,
        pattern <> "mass_downloads" ->
        generate_suspicious_events rs self n start_date label_user pattern w
          = (w', Ok df) ->
        forall i, (i < nrows df)%nat ->
          exists q, cell df "file_size_MB" i = Some (VFloat q)
                    /\ (10 <= q)%Q /\ (q <= 150)%Q)
  /\ (exists df, snd demo_generic_run = Ok df
                 /\ cell df "file_size_MB" 0 = Some (VFloat (150000 # 1000))
                 /\ (120 < 150000 # 1000)%Q)
  /\ (exists df, snd demo_mass_run_odd = Ok df
                 /\ cell df "file_type" 1 = Some (VStr "Database export")
                 /\ cell df "file_size_MB" 1 = Some (VFloat (300000 # 1000))
                 /\ (120 < 300000 # 1000)%Q).
Proof.
  split; [|split; [|split]].
  - intros rs Hrs self n start_date label w w' df H i Hi.
    apply suspicious_events_dispatch in H as (start & w1 & _ & _ & H).
    simpl in H.
    apply (mass_downloads_rows rs Hrs) in H as (u & rows & -> & Hrows).
    destruct (rows_of_frame _ rows i Hrows Hi)
      as (r & Hr & id & ft & sz & t & -> & _ & Hall & Hdb & Hpdf & Helse).
    assert (Hev : Forall is_event rows).
    { eapply events_weaken; [|exact Hrows].
      intros r (id' & ft' & sz' & t' & -> & _). do 6 eexists; reflexivity. }
    destruct (cell_event rows i _ _ _ _ _ _ Hev Hr)
      as (_ & _ & Hft & Hsz & _ & _).
    exists ft, (round3 sz). split; [exact Hft|]. split; [exact Hsz|].
    split; [|split; [|split]].
    + destruct Hall. apply (round3_between 5000 300000); try assumption; reflexivity.
    + intros E. destruct (Hdb E).
      apply (round3_between 50000 300000); try assumption; reflexivity.
    + intros E. destruct (Hpdf E).
      apply (round3_between 5000 50000); try assumption; reflexivity.
    + intros E. destruct Helse; [subst; discriminate | subst; discriminate |].
      apply (round3_between 10000 80000); try assumption; reflexivity.
  - intros rs Hrs self n start_date label pattern w w' df Hpat H i Hi.
    apply suspicious_events_dispatch in H as (start & w1 & _ & _ & H).
    apply String.eqb_neq in Hpat. rewrite Hpat in H.
    apply (generic_suspicious_rows rs Hrs) in H as (rows & -> & Hrows).
    destruct (rows_of_frame _ rows i Hrows Hi)
      as (r & Hr & id & u & ft & sz & t & -> & Hlo & Hhi).
    assert (Hev : Forall is_event rows).
    { eapply events_weaken; [|exact Hrows].
      intros r (id' & u' & ft' & sz' & t' & -> & _). do 6 eexists; reflexivity. }
    destruct (cell_event rows i _ _ _ _ _ _ Hev Hr) as (_ & _ & _ & Hsz & _).
    exists (round3 sz). split; [exact Hsz|].
    apply (round3_between 10000 150000); try assumption; reflexivity.
  - eexists. split; [vm_compute; reflexivity|].
    split; [vm_compute; reflexivity | reflexivity].
  - eexists. split; [vm_compute; reflexivity|].
    split; [vm_compute; reflexivity|].
    split; [vm_compute; reflexivity | reflexivity].
Qed.

Lemma suspicious_sizes_not_clipped_witness :
  exists ft q,
    cell (returned demo_mass_run_odd (pd_DataFrame [])) "file_type" 1
      = Some (VStr ft)
    /\ cell (returned demo_mass_run_odd (pd_DataFrame [])) "file_size_MB" 1
       = Some (VFloat q)
    /\ ((5 <= q)%Q /\ (q <= 300)%Q)
    /\ (ft = "Database export" -> (50 <= q)%Q /\ (q <= 300)%Q)
    /\ (ft = "PDF" -> (5 <= q)%Q /\ (q <= 50)%Q)
    /\ (ft = "Excel" -> (10 <= q)%Q /\ (q <= 80)%Q).
Proof.
  apply (proj1 suspicious_sizes_not_clipped counter_source counter_source_spec
           DataGenerator_init 4 (Some new_year_2024) None world_odd
           (fst demo_mass_run_odd) (returned demo_mass_run_odd (pd_DataFrame []))).
  - vm_compute. reflexivity.
  - vm_compute. lia.
Defined.

Lemma normal_events_file_size_in_range_witness :
  (forall i, (i < nrows (returned demo_normal_run (pd_DataFrame [])))%nat ->
     exists q, cell (returned demo_normal_run (pd_DataFrame [])) "file_size_MB" i
               = Some (VFloat q)
               /\ (1 # 10 <= q)%Q /\ (q <= 120)%Q)
  /\ (forall file_type action w0,
        exists w1 q,
          _generate_file_size counter_source DataGenerator_init file_type action w0
            = (w1, Ok q)
          /\ (1 # 10 <= q)%Q /\ (q <= 120)%Q).
Proof.
  apply (normal_events_file_size_in_range counter_source DataGenerator_init 3
           (Some new_year_2024) 10 world_zeros (fst demo_normal_run)
           (returned demo_normal_run (pd_DataFrame []))).
  vm_compute. reflexivity.
Defined.

(** ** Reproducibility of the generators

    Two processes are compared.  Seeding puts their two generators in the
    same state; the entropy pool, the clock and the log are whatever they
    are. *)

Section Determinism.
Context (rs : RandomSource).

Lemma related_ret {A} (R : A -> A -> Prop) a b :
  R a b -> related rs R (ret a) (ret b).
Proof. intros HR w1 w2 Hw. split; [exact Hw | exact HR]. Qed.

Lemma related_raise {A} (R : A -> A -> Prop) e :
  related rs R (raise e) (raise e).
Proof. intros w1 w2 Hw. split; [exact Hw | reflexivity]. Qed.

Lemma related_lift_outcome {A} (r : outcome A) :
  related rs eq (lift_outcome r) (lift_outcome r).
Proof.
  intros w1 w2 Hw. split; [exact Hw|]. destruct r; reflexivity.
Qed.

Lemma related_bind {A B} (R : A -> A -> Prop) (R' : B -> B -> Prop)
    (c1 c2 : M (World rs) A) (k1 k2 : A -> M (World rs) B) :
  related rs R c1 c2 ->
  (forall a b, R a b -> related rs R' (k1 a) (k2 b)) ->
  related rs R' (bind c1 k1) (bind c2 k2).
Proof.
  intros Hc Hk w1 w2 Hw. unfold bind.
  destruct (Hc w1 w2 Hw) as [Hw' Hr].
  destruct (c1 w1) as [w1' [e1|a]], (c2 w2) as [w2' [e2|b]];
    simpl in *; try contradiction.
  - split; assumption.
  - apply Hk; assumption.
Qed.

Lemma related_np_draw {A} (f : NpState rs -> A * NpState rs) :
  related rs eq (np_draw rs f) (np_draw rs f).
Proof.
  intros w1 w2 [Hnp Hpy]. unfold np_draw. rewrite Hnp.
  destruct (f (np_rng w2)). simpl. repeat split; auto.
Qed.

Lemma related_py_draw {A} (f : PyState rs -> A * PyState rs) :
  related rs eq (py_draw rs f) (py_draw rs f).
Proof.
  intros w1 w2 [Hnp Hpy]. unfold py_draw. rewrite Hpy.
  destruct (f (py_rng w2)). simpl. repeat split; auto.
Qed.

Lemma related_np_random_randint lo hi :
  related rs eq (np_random_randint rs lo hi) (np_random_randint rs lo hi).
Proof.
  unfold np_random_randint. destruct (lo <? hi).
  - apply related_np_draw.
  - apply related_raise.
Qed.

(** The identifier is the one draw that the seed does not determine. *)
Lemma related_uuid4 : related rs (fun _ _ => True) (uuid4 rs) (uuid4 rs).
Proof.
  intros w1 w2 Hw. unfold uuid4, bind, os_urandom, ret. simpl. split; auto.
Qed.

Lemma related_gen_logger_info msg :
  related rs eq (gen_logger_info rs msg) (gen_logger_info rs msg).
Proof. intros w1 w2 Hw. split; [exact Hw | reflexivity]. Qed.

Lemma related_for_range {A} (R : A -> A -> Prop) (b1 b2 : M (World rs) A) n :
  related rs R b1 b2 -> related rs (Forall2 R) (for_range n b1) (for_range n b2).
Proof.
  intros Hb. induction n as [|n IH]; simpl.
  - apply related_ret. constructor.
  - eapply related_bind; [exact Hb|]. intros a b Hab.
    eapply related_bind; [exact IH|]. intros xs ys Hxs.
    apply related_ret. constructor; assumption.
Qed.

Lemma related_seed_random_sources seed (w1 w2 : World rs) :
  same_seeded (fst (seed_random_sources rs seed w1))
              (fst (seed_random_sources rs seed w2)).
Proof. split; reflexivity. Qed.

Ltac rel_step :=
  first
    [ apply related_np_random_randint
    | apply related_np_draw
    | apply related_py_draw
    | apply related_lift_outcome
    | apply related_gen_logger_info
    | apply related_uuid4
    | apply related_raise
    | apply related_ret ].

Ltac rel_bind :=
  eapply related_bind; [rel_step | intros ? ? ?; subst].

Lemma related_employee lo hi :
  related rs eq (employee rs lo hi) (employee rs lo hi).
Proof. unfold employee. rel_bind. apply related_ret. reflexivity. Qed.

Lemma related_or_else label (fallback : M (World rs) string) :
  related rs eq fallback fallback ->
  related rs eq (or_else rs label fallback) (or_else rs label fallback).
Proof.
  intros Hf. unfold or_else. destruct label as [u|]; [|exact Hf].
  destruct (String.eqb u ""); [exact Hf | apply related_ret; reflexivity].
Qed.

Lemma related__generate_file_size self ft action :
  related rs eq (_generate_file_size rs self ft action)
             (_generate_file_size rs self ft action).
Proof.
  unfold _generate_file_size, np_random_exponential.
  eapply (related_bind eq).
  - repeat match goal with
           | |- context [if ?b then _ else _] => destruct b
           end; (rel_bind; apply related_ret; reflexivity).
  - intros ? ? ->. apply related_ret. reflexivity.
Qed.

Lemma same_event_assoc c r1 r2 :
  same_event r1 r2 -> c <> "event_id" -> assoc c r1 = assoc c r2.
Proof.
  intros (id1 & id2 & u & ft & sz & t & a & -> & ->) Hc.
  unfold event. cbn [assoc].
  destruct (String.eqb c "event_id") eqn:E; [|reflexivity].
  apply String.eqb_eq in E. contradiction.
Qed.

Lemma same_event_is_event rows1 rows2 :
  Forall2 same_event rows1 rows2 ->
  Forall is_event rows1 /\ Forall is_event rows2.
Proof.
  induction 1 as [|r1 r2 l1 l2 (id1 & id2 & u & ft & sz & t & a & -> & ->) _ [IH1 IH2]].
  - split; constructor.
  - split; constructor; auto; do 6 eexists; reflexivity.
Qed.

Lemma records_columns_same rows1 rows2 :
  Forall2 same_event rows1 rows2 ->
  records_columns rows1 = records_columns rows2.
Proof.
  intros H. destruct (same_event_is_event _ _ H) as [H1 H2].
  destruct H as [|r1 r2 l1 l2 _ _]; [reflexivity|].
  rewrite !records_columns_events; auto; discriminate.
Qed.

Lemma assoc_tabulate {A} c (f g : string -> A) ks :
  f c = g c ->
  assoc c (map (fun k => (k, f k)) ks) = assoc c (map (fun k => (k, g k)) ks).
Proof.
  intros Hfg. induction ks as [|k ks IH]; simpl; [reflexivity|].
  destruct (String.eqb c k) eqn:E; [|exact IH].
  apply String.eqb_eq in E. subst k. congruence.
Qed.

Lemma map_fst_tabulate {A} (f : string -> A) ks :
  map fst (map (fun k => (k, f k)) ks) = ks.
Proof. induction ks as [|k ks IH]; simpl; congruence. Qed.

Lemma pd_DataFrame_same rows1 rows2 :
  Forall2 same_event rows1 rows2 ->
  same_but_event_id (pd_DataFrame rows1) (pd_DataFrame rows2).
Proof.
  intros H. unfold same_but_event_id, pd_DataFrame, column_names, getitem.
  cbn [nrows columns]. rewrite !map_fst_tabulate.
  rewrite (records_columns_same _ _ H).
  split; [eapply Forall2_length; eassumption|]. split; [reflexivity|].
  intros c Hc.
  erewrite (assoc_tabulate c); [reflexivity|]. cbv beta.
  induction H as [|r1 r2 l1 l2 Hr _ IH]; simpl; [reflexivity|].
  rewrite (same_event_assoc c r1 r2 Hr Hc), IH. reflexivity.
Qed.

Ltac rel_step ::=
  first
    [ apply related_np_random_randint
    | apply related_np_draw
    | apply related_py_draw
    | apply related_lift_outcome
    | apply related_gen_logger_info
    | apply related_uuid4
    | apply related_employee
    | apply related__generate_file_size
    | apply related_or_else; apply related_employee
    | apply related_raise
    | apply related_ret; reflexivity ].

Lemma related_generate_normal_events self n start days :
  related rs same_but_event_id
    (generate_normal_events rs self n (Some start) days)
    (generate_normal_events rs self n (Some start) days).
Proof.
  unfold generate_normal_events.
  rel_bind. rel_bind.
  eapply related_bind.
  - apply (related_for_range same_event).
    unfold random_user, random_choices, np_random_normal.
    do 10 rel_bind.
    apply related_ret. do 7 eexists; split; reflexivity.
  - intros rows1 rows2 Hrows. apply related_ret.
    apply pd_DataFrame_same. exact Hrows.
Qed.

Lemma related_generate_suspicious_events self n start label pattern :
  related rs same_but_event_id
    (generate_suspicious_events rs self n (Some start) label pattern)
    (generate_suspicious_events rs self n (Some start) label pattern).
Proof.
  unfold generate_suspicious_events.
  rel_bind. rel_bind.
  destruct (String.eqb pattern "mass_downloads").
  - unfold _generate_mass_downloads. rel_bind. rel_bind.
    eapply related_bind.
    + apply (related_for_range same_event).
      unfold random_choices.
      do 4 rel_bind.
      eapply (related_bind eq).
      * unfold np_random_uniform.
        repeat match goal with
               | |- context [if ?c then _ else _] => destruct c
               end; apply related_np_draw.
      * intros ? ? ->. rel_bind.
        apply related_ret. do 7 eexists; split; reflexivity.
    + intros rows1 rows2 Hrows. apply related_ret.
      apply pd_DataFrame_same. exact Hrows.
  - unfold _generate_generic_suspicious.
    eapply related_bind.
    + apply (related_for_range same_event).
      unfold random_user, random_choice, np_random_uniform.
      do 9 rel_bind.
      apply related_ret. do 7 eexists; split; reflexivity.
    + intros rows1 rows2 Hrows. apply related_ret.
      apply pd_DataFrame_same. exact Hrows.
Qed.

End Determinism.

(** C1, as amended: two runs of a generator with the same seed and the same
    parameters, the start date among them, either raise the same exception
    or return tables with the same number of rows, the same columns and,
    in every column but [event_id], the same cells.  (The identifier is a
    [uuid4], drawn from the operating system and not from the seeded
    generators.) *)
Theorem seeded_runs_agree_but_event_id
    (rs : RandomSource) (self : DataGenerator) (seed n : Z)
    (start : datetime.t) (days : Z) (label_user : option string)
    (pattern : string) (wA wB : World rs) :
  agree same_but_event_id
    (snd (seeded_normal_run rs self seed n start days wA))
    (snd (seeded_normal_run rs self seed n start days wB))
  /\ agree same_but_event_id
       (snd (seeded_suspicious_run rs self seed n start label_user pattern wA))
       (snd (seeded_suspicious_run rs self seed n start label_user pattern wB)).
Proof.
  pose proof (related_seed_random_sources rs seed wA wB) as Hseed.
  unfold seeded_normal_run, seeded_suspicious_run, bind.
  destruct (seed_random_sources rs seed wA) as [wA' rA] eqn:EA.
  destruct (seed_random_sources rs seed wB) as [wB' rB] eqn:EB.
  assert (rA = Ok tt) as -> by (injection EA as _ <-; reflexivity).
  assert (rB = Ok tt) as -> by (injection EB as _ <-; reflexivity).
  simpl in Hseed. split.
  - apply related_generate_normal_events. exact Hseed.
  - apply related_generate_suspicious_events. exact Hseed.
Qed.

(** C1, as stated, fails: with seed 42 and the same parameters, a process
    whose entropy pool holds zeros and one whose pool holds ones generate
    tables that are not identical (the events' identifiers differ). *)
Lemma seeded_runs_event_ids_differ :
  snd (seeded_normal_run counter_source DataGenerator_init RANDOM_SEED 1
         new_year_2024 10 world_zeros)
  <> snd (seeded_normal_run counter_source DataGenerator_init RANDOM_SEED 1
            new_year_2024 10 world_ones).
Proof. vm_compute. intros H. discriminate H. Qed.

(** ** Persistence of the model *)

Section Persistence.
Context (lib : Libraries).

Lemma detector_eta (d : AnomalyDetector lib) :
  mkAnomalyDetector (contamination d) (n_estimators d) (pipeline d)
                    (feature_columns d) (model_path d) = d.
Proof. destruct d; reflexivity. Qed.

(** What [load_model] does in each of its four situations. *)
Lemma load_model_cases (s : MLState lib) :
  match files s !! model_path (detector s) with
  | None => load_model lib s = (s, Ok false)
  | Some artifact =>
      match joblib_load lib artifact with
      | Raise e =>
          load_model lib s
          = (mkMLState (detector s) (files s)
               (ml_log s ++ [("ERROR", "Failed to load model: " +:+ exn_arg e)]),
             Ok false)
      | Ok (mkModelData (Some p) (Some cols) (Some c) (Some n)) =>
          load_model lib s
          = (mkMLState
               (mkAnomalyDetector c n (Some p) cols (model_path (detector s)))
               (files s)
               (ml_log s ++ [("INFO", "Model loaded from "
                                      +:+ model_path (detector s))]),
             Ok true)
      | Ok _ =>
          exists s', load_model lib s = (s', Ok false)
                     /\ files s' = files s
                     /\ model_path (detector s') = model_path (detector s)
      end
  end.
Proof.
  destruct s as [d fs lg]. cbn [files detector ml_log].
  unfold load_model, try_except, bind, get_self, get. cbn [files detector ml_log].
  destruct (fs !! model_path d) as [artifact|] eqn:Efile; [|reflexivity].
  unfold lift_outcome.
  destruct (joblib_load lib artifact) as [e|[[p|] [cols|] [c|] [n|]]];
    try reflexivity;
    cbn; eexists; (split; [reflexivity|]); split; reflexivity.
Qed.

End Persistence.

(** C3, as amended: [load_model] never raises.  It returns [False] when the
    file is absent, leaving the detector and the log as they were; it
    returns [False] as well when the file exists and cannot be
    deserialized, the failure going to the log as an ERROR line and the
    detector staying as it was; it returns [True] exactly when the file
    exists, deserializes and holds the four entries, which it then copies
    into the detector. *)
Theorem load_model_returns_false_on_absent_or_corrupt
    (lib : Libraries) (s : MLState lib) :
  exists s' b,
    load_model lib s = (s', Ok b)
    /\ (files s !! model_path (detector s) = None -> b = false /\ s' = s)
    /\ (forall artifact e,
          files s !! model_path (detector s) = Some artifact ->
          joblib_load lib artifact = Raise e ->
          b = false
          /\ detector s' = detector s
          /\ files s' = files s
          /\ ml_log s' = (ml_log s
                          ++ [("ERROR", "Failed to load model: " +:+ exn_arg e)])%list)
    /\ (b = true <->
        exists artifact p cols c n,
          files s !! model_path (detector s) = Some artifact
          /\ joblib_load lib artifact
             = Ok (mkModelData (Some p) (Some cols) (Some c) (Some n))
          /\ detector s'
             = mkAnomalyDetector c n (Some p) cols (model_path (detector s))).
Proof.
  pose proof (load_model_cases lib s) as H.
  destruct (files s !! model_path (detector s)) as [artifact|] eqn:Efile.
  - destruct (joblib_load lib artifact) as [e|md] eqn:Eload.
    + eexists _, false. split; [exact H|]. split; [discriminate|]. split.
      * intros a e' Ha He'. injection Ha as <-. rewrite Eload in He'.
        injection He' as <-. repeat split; reflexivity.
      * split; [discriminate|].
        intros (a & p & cols & c & n & Ha & Hl & _). injection Ha as <-.
        rewrite Eload in Hl. discriminate.
    + destruct md as [[p|] [cols|] [c|] [n|]];
        try (destruct H as (s' & H & _ & _); exists s', false;
             split; [exact H|]; split; [discriminate|];
             split; [intros a e' Ha He'; injection Ha as <-;
                     rewrite Eload in He'; discriminate|];
             split; [discriminate|];
             intros (a & p' & cols' & c' & n' & Ha & Hl & _);
             injection Ha as <-; rewrite Eload in Hl; discriminate).
      eexists _, true. split; [exact H|]. split; [discriminate|]. split.
      * intros a e' Ha He'. injection Ha as <-. rewrite Eload in He'.
        discriminate.
      * split; [|reflexivity]. intros _. exists artifact, p, cols, c, n.
        split; [reflexivity|]. split; [exact Eload | reflexivity].
  - exists s, false. split; [exact H|]. split; [auto|]. split.
    + discriminate.
    + split; [discriminate|]. intros (a & ? & ? & ? & ? & Ha & _). discriminate.
Qed.

(** C3, as stated, fails: the file exists and joblib cannot deserialize it,
    yet [load_model] raises nothing and answers [False], as it does for an
    absent file. *)
Lemma load_model_swallows_corrupt_artifact :
  files corrupt_file_process !! model_path (detector corrupt_file_process)
    = Some None
  /\ joblib_load stub_libraries None
     = Raise (Exn "UnpicklingError" "invalid load key")
  /\ snd (load_model stub_libraries corrupt_file_process) = Ok false
  /\ (forall e, snd (load_model stub_libraries corrupt_file_process) <> Raise e)
  /\ snd (load_model stub_libraries fresh_process) = Ok false.
Proof.
  vm_compute. repeat split; try reflexivity. intros e H. discriminate H.
Qed.

(** C6: after [save_model] on a detector that holds a pipeline, [load_model]
    on any detector with the same model path answers [True] and leaves that
    detector with the saved hyperparameters ([contamination],
    [n_estimators]), the saved pipeline (the fitted encoder with its
    categories and the fitted forest are inside it) and the saved list of
    feature columns, in the same order; scoring any batch with the loaded
    detector gives what scoring it with the saved one gives.  joblib is
    taken to give back what it was given. *)
Theorem save_then_load_restores_model
    (lib : Libraries) (Hjoblib : joblib_round_trip lib)
    (s : MLState lib) (p : Pipeline (Estimator lib)) :
  pipeline (detector s) = Some p ->
  exists s1,
    save_model lib s = (s1, Ok tt)
    /\ forall (d0 : AnomalyDetector lib) (lg : list log_line),
         model_path d0 = model_path (detector s) ->
         exists s2,
           load_model lib (mkMLState d0 (files s1) lg) = (s2, Ok true)
           /\ contamination (detector s2) = contamination (detector s)
           /\ n_estimators (detector s2) = n_estimators (detector s)
           /\ pipeline (detector s2) = pipeline (detector s)
           /\ feature_columns (detector s2) = feature_columns (detector s)
           /\ forall df fs lg',
                predict_new_data lib df (mkMLState (detector s2) fs lg')
                = predict_new_data lib df (mkMLState (detector s) fs lg').
Proof.
  intros Hp. destruct s as [d fs lg0]. cbn [detector] in *.
  unfold save_model, bind, get_self, modify, logger. cbn [detector files ml_log].
  rewrite Hp. eexists. split; [reflexivity|].
  intros d0 lg Hpath. cbn [files].
  pose proof (load_model_cases lib
                (mkMLState d0
                   (<[model_path d :=
                        joblib_dump lib
                          (mkModelData (Some p) (Some (feature_columns d))
                             (Some (contamination d)) (Some (n_estimators d)))]> fs)
                   lg)) as H.
  cbn [files detector ml_log] in H.
  rewrite Hpath, lookup_insert_eq, Hjoblib in H.
  eexists. split; [exact H|]. cbn [detector contamination n_estimators
                                   pipeline feature_columns].
  repeat split; auto.
  intros df fs' lg'. rewrite <- Hp, detector_eta. reflexivity.
Qed.

(** ** Columns of a frame *)

Lemma assoc_set_assoc_eq {A} c (x : A) l : assoc c (set_assoc c x l) = Some x.
Proof.
  induction l as [|[k v] l IH]; simpl.
  - rewrite String.eqb_refl. reflexivity.
  - destruct (String.eqb c k) eqn:E; simpl; rewrite E; auto.
Qed.

Lemma assoc_set_assoc_ne {A} c c' (x : A) l :
  c' <> c -> assoc c' (set_assoc c x l) = assoc c' l.
Proof.
  intros Hne. induction l as [|[k v] l IH]; simpl.
  - apply String.eqb_neq in Hne. rewrite Hne. reflexivity.
  - destruct (String.eqb c k) eqn:E; simpl.
    + apply String.eqb_eq in E. subst k.
      apply String.eqb_neq in Hne. rewrite Hne. reflexivity.
    + rewrite IH. reflexivity.
Qed.

Lemma setitem_Ok df c col df' :
  setitem df c col = Ok df' ->
  length col = nrows df
  /\ nrows df' = nrows df
  /\ columns df' = set_assoc c col (columns df).
Proof.
  unfold setitem. destruct (Nat.eqb (length col) (nrows df)) eqn:E; [|discriminate].
  apply Nat.eqb_eq in E. intros H. injection H as <-. auto.
Qed.

Lemma getitem_setitem_eq df c col df' :
  setitem df c col = Ok df' -> getitem df' c = Ok col.
Proof.
  intros H. apply setitem_Ok in H as (_ & _ & Hc).
  unfold getitem. rewrite Hc, assoc_set_assoc_eq. reflexivity.
Qed.

Lemma getitem_setitem_ne df c c' col df' :
  c' <> c -> setitem df c col = Ok df' -> getitem df' c' = getitem df c'.
Proof.
  intros Hne H. apply setitem_Ok in H as (_ & _ & Hc).
  unfold getitem. rewrite Hc, assoc_set_assoc_ne; auto.
Qed.

Lemma cell_getitem df c col i :
  getitem df c = Ok col -> cell df c i = col !! i.
Proof.
  unfold getitem, cell. destruct (assoc c (columns df)); [|discriminate].
  intros H. injection H as <-. reflexivity.
Qed.

(** ** The risk score *)

Lemma np_minimum_le_l a b : (np_minimum a b <= a)%Q.
Proof.
  unfold np_minimum. destruct (Qle_bool a b) eqn:E; [apply Qle_refl|].
  destruct (Qlt_le_dec b a) as [H|H]; [apply Qlt_le_weak; exact H|].
  apply Qle_bool_iff in H. congruence.
Qed.

Lemma np_minimum_le_r a b : (np_minimum a b <= b)%Q.
Proof.
  unfold np_minimum. destruct (Qle_bool a b) eqn:E; [|apply Qle_refl].
  apply Qle_bool_iff. exact E.
Qed.

Lemma np_maximum_ge_l a b : (a <= np_maximum a b)%Q.
Proof.
  unfold np_maximum. destruct (Qle_bool a b) eqn:E; [|apply Qle_refl].
  apply Qle_bool_iff. exact E.
Qed.

Lemma np_maximum_ge_r a b : (b <= np_maximum a b)%Q.
Proof.
  unfold np_maximum. destruct (Qle_bool a b) eqn:E; [apply Qle_refl|].
  destruct (Qlt_le_dec b a) as [H|H]; [apply Qlt_le_weak; exact H|].
  apply Qle_bool_iff in H. congruence.
Qed.

Lemma fold_minimum_le l x :
  (fold_left np_minimum l x <= x)%Q
  /\ Forall (fun y => (fold_left np_minimum l x <= y)%Q) l.
Proof.
  revert x. induction l as [|y l IH]; intros x; simpl.
  - split; [apply Qle_refl | constructor].
  - destruct (IH (np_minimum x y)) as [H1 H2]. split.
    + eapply Qle_trans; [exact H1 | apply np_minimum_le_l].
    + constructor; [|exact H2].
      eapply Qle_trans; [exact H1 | apply np_minimum_le_r].
Qed.

Lemma fold_maximum_ge l x :
  (x <= fold_left np_maximum l x)%Q
  /\ Forall (fun y => (y <= fold_left np_maximum l x)%Q) l.
Proof.
  revert x. induction l as [|y l IH]; intros x; simpl.
  - split; [apply Qle_refl | constructor].
  - destruct (IH (np_maximum x y)) as [H1 H2]. split.
    + eapply Qle_trans; [apply np_maximum_ge_l | exact H1].
    + constructor; [|exact H2].
      eapply Qle_trans; [apply np_maximum_ge_r | exact H1].
Qed.

(** One normalised score: between the batch's extremes, the quotient lies
    in [0, 1). *)
Lemma risk_formula_range (r lo hi : Q) :
  (lo <= r)%Q -> (r <= hi)%Q ->
  (0 <= (r - lo) / (hi - lo + EPSILON) * 100)%Q
  /\ ((r - lo) / (hi - lo + EPSILON) * 100 <= 100)%Q.
Proof.
  intros Hlo Hhi.
  assert (Heps : (0 < EPSILON)%Q) by reflexivity.
  assert (Hd : (0 < hi - lo + EPSILON)%Q) by lra.
  assert (H0 : (0 <= (r - lo) / (hi - lo + EPSILON))%Q).
  { apply Qle_shift_div_l; [exact Hd | lra]. }
  assert (H1 : ((r - lo) / (hi - lo + EPSILON) <= 1)%Q).
  { apply Qle_shift_div_r; [exact Hd | lra]. }
  split; lra.
Qed.

Lemma risk_of_range raw risk :
  risk_of raw = Ok risk ->
  raw <> []
  /\ length risk = length raw
  /\ Forall (fun q => (0 <= q)%Q /\ (q <= 100)%Q) risk.
Proof.
  unfold risk_of. destruct raw as [|x l]; [discriminate|].
  cbn [np_min np_max obind]. intros H. injection H as <-.
  split; [discriminate|]. split; [simpl; f_equal; apply length_map|].
  destruct (fold_minimum_le l x) as [Hmin Hmins].
  destruct (fold_maximum_ge l x) as [Hmax Hmaxs].
  constructor; [|apply Forall_map].
  - apply risk_formula_range; assumption.
  - rewrite Forall_forall in *. intros y Hy.
    apply risk_formula_range; auto.
Qed.

Lemma risk_column_in_range df risk df' :
  Forall (fun q => (0 <= q)%Q /\ (q <= 100)%Q) risk ->
  setitem df "risk_score" (risk_column risk) = Ok df' ->
  risk_scores_in_range df'.
Proof.
  intros Hrisk Hset i Hi.
  pose proof (getitem_setitem_eq _ _ _ _ Hset) as Hget.
  apply setitem_Ok in Hset as (Hlen & Hn & _).
  rewrite (cell_getitem _ _ _ i Hget).
  unfold risk_column in *. rewrite length_map in Hlen.
  assert (Hlt : (i < length risk)%nat) by lia.
  destruct (lookup_lt_is_Some_2 risk i Hlt) as [q Hq].
  rewrite lookup_map, Hq. cbn.
  exists (round_half_even (q * 100)). split; [reflexivity|].
  rewrite Forall_forall in Hrisk.
  destruct (Hrisk q (list_elem_of_lookup_2 _ _ _ Hq)) as [H0 H100].
  apply round_half_even_bounds.
  - change (inject_Z 0) with 0%Q. lra.
  - change (inject_Z 10000) with (100 * 100)%Q. lra.
Qed.

Lemma risk_scores_kept df c col df' :
  c <> "risk_score" ->
  setitem df c col = Ok df' ->
  risk_scores_in_range df -> risk_scores_in_range df'.
Proof.
  intros Hc Hset H i Hi.
  pose proof (getitem_setitem_ne _ _ "risk_score" _ _ (not_eq_sym Hc) Hset) as Hget.
  apply setitem_Ok in Hset as (_ & Hn & _).
  rewrite Hn in Hi. destruct (H i Hi) as (k & Hk & Hrange).
  exists k. split; [|exact Hrange].
  unfold cell, getitem in *.
  destruct (assoc "risk_score" (columns df)) as [col0|]; [|discriminate].
  destruct (assoc "risk_score" (columns df')) as [col1|]; [|discriminate].
  injection Hget as ->. exact Hk.
Qed.

Ltac inv_lifts :=
  repeat match goal with
         | H : lift_outcome _ _ = (_, Ok _) |- _ =>
             apply lift_outcome_Ok in H as [? H]; subst
         end.

Lemma scored_ok_intro df raw risk df' :
  risk_of raw = Ok risk ->
  setitem df "risk_score" (risk_column risk) = Ok df' ->
  scored_ok risk df'.
Proof.
  intros Hrisk Hset.
  apply risk_of_range in Hrisk as (Hne & Hlen & Hrisk).
  split; [|split].
  - apply setitem_Ok in Hset as (Hl & Hn & _).
    unfold risk_column in Hl. rewrite length_map in Hl.
    destruct raw; [congruence|]. simpl in Hlen. lia.
  - eapply getitem_setitem_eq. exact Hset.
  - eapply risk_column_in_range; eassumption.
Qed.

Lemma scored_ok_kept risk df c col df' :
  c <> "risk_score" ->
  setitem df c col = Ok df' ->
  scored_ok risk df -> scored_ok risk df'.
Proof.
  intros Hc Hset (Hpos & Hget & Hr). split; [|split].
  - apply setitem_Ok in Hset as (_ & Hn & _). lia.
  - rewrite (getitem_setitem_ne df c "risk_score" col df' (not_eq_sym Hc) Hset).
    exact Hget.
  - eapply risk_scores_kept; eassumption.
Qed.

(** C4: the table that [fit_and_score] or [predict_new_data] returns has
    at least one row (on an empty batch the minimum of the raw scores does
    not exist and the call raises), and every row has a [risk_score]
    between 0 and 100.  The column holds, rounded to two decimals, the
    sign-inverted scores of [score_samples] scaled by
    [(raw - min) / (max - min + 1e-9) * 100] with the minimum and maximum of
    the batch being scored. *)
Theorem risk_score_between_0_and_100
    (lib : Libraries) (df : DataFrame) (s s' : MLState lib) (scored : DataFrame) :
  (exists p, fit_and_score lib df s = (s', Ok (p, scored)))
  \/ predict_new_data lib df s = (s', Ok scored) ->
  (0 < nrows scored)%nat
  /\ (forall i, (i < nrows scored)%nat ->
        exists q, cell scored "risk_score" i = Some (VFloat q)
                  /\ (0 <= q)%Q /\ (q <= 100)%Q)
  /\ (exists p X scores risk,
        model_score_samples lib p X = Ok scores
        /\ risk_of (map Qopp scores) = Ok risk
        /\ getitem scored "risk_score"
           = Ok (map (fun r => VFloat (round2 r)) risk)).
Proof.
  intros H.
  assert (Hgoal : exists p X scores risk,
             model_score_samples lib p X = Ok scores
             /\ risk_of (map Qopp scores) = Ok risk
             /\ scored_ok risk scored).
  { destruct H as [[p H]|H].
    - unfold fit_and_score in H. inv_M H. inv_lifts.
      match goal with H : (_, _) = (_, _) |- _ => injection H as <- <- end.
      match goal with
      | Hsc : model_score_samples lib ?p ?X = Ok ?scores,
        Hr : risk_of _ = Ok ?risk,
        Hs : setitem _ "risk_score" _ = Ok _ |- _ =>
          exists p, X, scores, risk; split; [exact Hsc|]; split; [exact Hr|];
          pose proof (scored_ok_intro _ _ _ _ Hr Hs) as Hok; clear Hs
      end.
      repeat match goal with
             | Hs : setitem ?d ?c ?col = Ok ?d' |- _ =>
                 apply (scored_ok_kept _ d c col d' ltac:(discriminate) Hs) in Hok;
                 clear Hs
             end.
      exact Hok.
    - unfold predict_new_data, bind at 1, get_self in H.
      destruct (pipeline (detector s)) as [p|]; [|discriminate].
      inv_M H. inv_lifts.
      match goal with
      | Hsc : model_score_samples lib ?p ?X = Ok ?scores,
        Hr : risk_of _ = Ok ?risk,
        Hs : setitem _ "risk_score" _ = Ok _ |- _ =>
          exists p, X, scores, risk; split; [exact Hsc|]; split; [exact Hr|];
          pose proof (scored_ok_intro _ _ _ _ Hr Hs) as Hok; clear Hs
      end.
      repeat match goal with
             | Hs : setitem ?d ?c ?col = Ok ?d' |- _ =>
                 apply (scored_ok_kept _ d c col d' ltac:(discriminate) Hs) in Hok;
                 clear Hs
             end.
      exact Hok. }
  destruct Hgoal as (p & X & scores & risk & Hsc & Hrisk & Hpos & Hget & Hr).
  split; [exact Hpos|]. split.
  - intros i Hi. destruct (Hr i Hi) as (k & Hk & Hk0 & Hk1).
    exists (k # 100)%Q. split; [exact Hk|].
    unfold Qle; simpl. lia.
  - exists p, X, scores, risk. auto.
Qed.

(** ** The columns of the engineered table *)

Lemma Ok_inj {A} (a b : A) : Ok a = Ok b -> a = b.
Proof. intros H. injection H as H. exact H. Qed.

Ltac inv_O H :=
  lazymatch type of H with
  | obind _ _ = Ok _ =>
      let a := fresh "a" in
      let Hrun := fresh "Hstep" in
      apply obind_Ok in H as (a & Hrun & H); inv_O H
  | Ok _ = Ok _ => apply Ok_inj in H; try subst
  | _ => idtac
  end.

Lemma existsb_eqb_elem_of c (l : list string) :
  existsb (String.eqb c) l = true <-> c ∈ l.
Proof.
  rewrite existsb_exists. split.
  - intros (x & Hx & E). apply String.eqb_eq in E. subst x.
    apply list_elem_of_In. exact Hx.
  - intros H. exists c. split; [apply list_elem_of_In; exact H|].
    apply String.eqb_refl.
Qed.

Lemma existsb_eqb_not_elem_of c (l : list string) :
  existsb (String.eqb c) l = false <-> c ∉ l.
Proof.
  rewrite <- existsb_eqb_elem_of. destruct (existsb _ l); split; congruence.
Qed.

Lemma names_set_assoc {A} c (x : A) l :
  map fst (set_assoc c x l)
  = if existsb (String.eqb c) (map fst l) then map fst l else (map fst l ++ [c])%list.
Proof.
  induction l as [|[k v] l IH]; simpl; [reflexivity|].
  destruct (String.eqb c k) eqn:E; simpl; [reflexivity|].
  rewrite IH. destruct (existsb _ (map fst l)); reflexivity.
Qed.

(** Setting a column that is not one of [k] keeps the names, followed by
    [k], free of duplicates. *)
Lemma NoDup_set_assoc_app {A} c (x : A) l (k : list string) :
  c ∉ k -> NoDup (map fst l ++ k) -> NoDup (map fst (set_assoc c x l) ++ k).
Proof.
  intros Hc Hnd. rewrite names_set_assoc.
  destruct (existsb (String.eqb c) (map fst l)) eqn:E; [exact Hnd|].
  apply existsb_eqb_not_elem_of in E.
  apply NoDup_app in Hnd as (H1 & H2 & H3).
  apply NoDup_app. split; [|split].
  - apply NoDup_app. split; [exact H1|]. split; [|apply NoDup_singleton].
    intros y Hy Hy'. apply list_elem_of_singleton in Hy'. subst y. contradiction.
  - intros y Hy. apply elem_of_app in Hy as [Hy|Hy]; [auto|].
    apply list_elem_of_singleton in Hy. subst y. exact Hc.
  - exact H3.
Qed.

Lemma setitem_NoDup_app df c col df' (k : list string) :
  c ∉ k -> setitem df c col = Ok df' ->
  NoDup (column_names df ++ k) -> NoDup (column_names df' ++ k).
Proof.
  intros Hc Hset Hnd. apply setitem_Ok in Hset as (_ & _ & Hcols).
  unfold column_names in *. rewrite Hcols. apply NoDup_set_assoc_app; assumption.
Qed.

Lemma not_in_user_stats_columns c :
  existsb (String.eqb c) user_stats_columns = false -> c ∉ user_stats_columns.
Proof. apply existsb_eqb_not_elem_of. Qed.

Lemma map_fst_imap {A B} (g : A -> string) (h : nat -> A -> B) (l : list A) :
  map fst (imap (fun j c => (g c, h j c)) l) = map g l.
Proof.
  revert h. induction l as [|x l IH]; intros h; simpl; [reflexivity|].
  f_equal. apply (IH (fun j => h (S j))).
Qed.

(** Without a name on both sides, the merge appends the five aggregate
    columns under their own names. *)
Lemma merge_left_names left key stats df' :
  NoDup (column_names left ++ user_stats_columns) ->
  merge_left left key user_stats_columns stats = Ok df' ->
  column_names df' = (column_names left ++ user_stats_columns)%list.
Proof.
  intros Hnd H. unfold merge_left in H. inv_O H.
  apply NoDup_app in Hnd as (_ & Hdisj & _).
  assert (Hnone : forall c,
             existsb (String.eqb c) (column_names left)
             && existsb (String.eqb c) user_stats_columns = false).
  { intros c. destruct (existsb (String.eqb c) (column_names left)) eqn:E1;
      [|reflexivity].
    apply existsb_eqb_elem_of in E1. apply Hdisj in E1.
    apply existsb_eqb_not_elem_of in E1. rewrite E1. reflexivity. }
  unfold column_names at 1. cbn [columns].
  rewrite map_app. f_equal.
  - unfold column_names. rewrite map_map. apply map_ext.
    intros [c col]. cbn [fst snd]. rewrite Hnone. reflexivity.
  - rewrite map_fst_imap.
    transitivity (map (fun c : string => c) user_stats_columns);
      [|apply map_id].
    apply map_ext. intros c. rewrite Hnone. reflexivity.
Qed.

Lemma NoDup_app_drop (l k : list string) : NoDup (l ++ k) -> NoDup l.
Proof. intros H. apply NoDup_app in H as (H & _). exact H. Qed.

(** On a batch with distinct column names, none of them an aggregate's, the
    engineered table has distinct column names. *)
Lemma engineer_features_NoDup (lib : Libraries) df df_feat :
  NoDup (column_names df ++ user_stats_columns) ->
  engineer_features lib df = Ok df_feat ->
  NoDup (column_names df_feat).
Proof.
  intros Hnd H. unfold engineer_features in H. inv_O H.
  repeat match goal with
         | Hs : setitem df ?c ?col = Ok ?d' |- _ =>
             apply (setitem_NoDup_app df c col d' user_stats_columns
                      ltac:(apply not_in_user_stats_columns; reflexivity) Hs)
               in Hnd; clear Hs
         | Hs : setitem ?d ?c ?col = Ok ?d',
           Hn : NoDup (column_names ?d ++ user_stats_columns) |- _ =>
             apply (setitem_NoDup_app d c col d' user_stats_columns
                      ltac:(apply not_in_user_stats_columns; reflexivity) Hs)
               in Hn; clear Hs
         end.
  match goal with
  | Hm : merge_left ?d _ _ _ = Ok ?d',
    Hn : NoDup (column_names ?d ++ user_stats_columns) |- _ =>
      pose proof (merge_left_names _ _ _ _ Hn Hm) as Hnames;
      rewrite <- Hnames in Hn; clear Hm Hnames
  end.
  repeat match goal with
         | Hs : setitem ?d ?c ?col = Ok ?d', Hn : NoDup (column_names ?d) |- _ =>
             rewrite <- (app_nil_r (column_names d)) in Hn;
             apply (setitem_NoDup_app d c col d' [] ltac:(apply not_elem_of_nil) Hs)
               in Hn;
             rewrite app_nil_r in Hn; clear Hs
         end.
  assumption.
Qed.

Lemma map_outcome_ext_in {A B} (f g : A -> outcome B) (l : list A) :
  (forall x, x ∈ l -> f x = g x) -> map_outcome f l = map_outcome g l.
Proof.
  induction l as [|x l IH]; intros H; simpl; [reflexivity|].
  rewrite (H x) by apply list_elem_of_here.
  rewrite IH; [reflexivity|]. intros y Hy. apply H. apply list_elem_of_further, Hy.
Qed.

Lemma pick_all_columns (cols : list (string * list value)) :
  NoDup (map fst cols) ->
  map_outcome (fun c => let! col := match assoc c cols with
                                    | Some col => Ok col
                                    | None => Raise (KeyError c)
                                    end in Ok (c, col)) (map fst cols)
  = Ok cols.
Proof.
  induction cols as [|[k v] cols IH]; intros Hnd; [reflexivity|].
  apply NoDup_cons in Hnd as [Hk Hnd]. cbn [map fst map_outcome assoc].
  rewrite String.eqb_refl. cbn [obind].
  erewrite map_outcome_ext_in; [rewrite (IH Hnd); reflexivity|].
  intros c Hc. cbn beta.
  destruct (String.eqb c k) eqn:E; [|reflexivity].
  apply String.eqb_eq in E. subst c. contradiction.
Qed.

(** Selecting all the columns of a table by their names, in order, gives
    the table back. *)
Lemma select_all_columns (df : DataFrame) :
  NoDup (column_names df) -> select df (column_names df) = Ok df.
Proof.
  intros Hnd. destruct df as [n cols]. unfold select, getitem, column_names in *.
  cbn [columns nrows] in *. rewrite (pick_all_columns cols Hnd). reflexivity.
Qed.

Lemma missing_features_none (df : DataFrame) :
  missing_features (column_names df) df = [].
Proof.
  unfold missing_features.
  assert (H : forall l : list string,
             (forall c, c ∈ l -> c ∈ column_names df) ->
             List.filter (fun c => negb (existsb (String.eqb c) (column_names df))) l
             = []).
  { induction l as [|c l IH]; intros Hl; simpl; [reflexivity|].
    assert (Hc : c ∈ column_names df) by (apply Hl, list_elem_of_here).
    apply existsb_eqb_elem_of in Hc. rewrite Hc. simpl.
    apply IH. intros c' Hc'. apply Hl, list_elem_of_further, Hc'. }
  apply H. intros c Hc. rewrite elem_of_remove_dups in Hc. exact Hc.
Qed.

Section Scoring.
Context (lib : Libraries).

(** An engineered table with distinct column names already has the
    fit-time columns when they are its own: nothing is logged or filled. *)
Lemma ensure_same_features_own (df_feat : DataFrame) (s : MLState lib) :
  NoDup (column_names df_feat) ->
  ensure_same_features lib (column_names df_feat) df_feat s = (s, Ok df_feat).
Proof.
  intros Hnd. unfold ensure_same_features.
  rewrite missing_features_none. cbn [length Nat.eqb negb].
  unfold bind, ret, lift_outcome. rewrite (select_all_columns _ Hnd). reflexivity.
Qed.

(** [predict_new_data], step by step. *)
Lemma predict_new_data_run (df : DataFrame) (s s1 : MLState lib)
    p cols df_feat aligned X scores risk X' preds d1 d2 :
  pipeline (detector s) = Some p ->
  feature_columns (detector s) = Some cols ->
  engineer_features lib df = Ok df_feat ->
  ensure_same_features lib cols df_feat s = (s1, Ok aligned) ->
  prep_transform lib p aligned = Ok X ->
  model_score_samples lib p X = Ok scores ->
  risk_of (map Qopp scores) = Ok risk ->
  prep_transform lib p aligned = Ok X' ->
  model_predict lib p X' = Ok preds ->
  setitem df "risk_score" (risk_column risk) = Ok d1 ->
  setitem d1 "anomaly_flag" (flag_column preds) = Ok d2 ->
  predict_new_data lib df s = (s1, Ok d2).
Proof.
  intros Hp Hcols Hfeat Hens HX Hsc Hrisk HX' Hpred Hd1 Hd2.
  unfold predict_new_data, bind at 1, get_self. rewrite Hp.
  unfold bind, lift_outcome, ret.
  assert (X' = X) as -> by congruence.
  rewrite Hfeat, Hcols, Hens, HX, Hsc, Hrisk, Hpred, Hd1, Hd2. reflexivity.
Qed.

End Scoring.

Section Refit.
Context (lib : Libraries).

(** What a successful [fit_and_score] went through and leaves behind. *)
Lemma fit_and_score_inv (df : DataFrame) (s s1 : MLState lib) p scored :
  fit_and_score lib df s = (s1, Ok (p, scored)) ->
  exists df_feat X scores risk preds d1 d2,
    engineer_features lib df = Ok df_feat
    /\ detector s1
       = mkAnomalyDetector (contamination (detector s)) (n_estimators (detector s))
           (Some p) (Some (column_names df_feat)) (model_path (detector s))
    /\ files s1 = files s
    /\ pipeline_fit lib (build_pipeline lib (detector s)) df_feat = Ok p
    /\ prep_transform lib p df_feat = Ok X
    /\ model_score_samples lib p X = Ok scores
    /\ risk_of (map Qopp scores) = Ok risk
    /\ model_predict lib p X = Ok preds
    /\ setitem df "risk_score" (risk_column risk) = Ok d1
    /\ setitem d1 "anomaly_flag" (flag_column preds) = Ok d2
    /\ getitem scored "anomaly_flag" = getitem d2 "anomaly_flag"
    /\ getitem scored "risk_score" = getitem d2 "risk_score".
Proof.
  intros H. unfold fit_and_score in H. inv_M H. inv_lifts.
  match goal with H : (_, _) = (_, _) |- _ => injection H as <- <- end.
  repeat match goal with
         | Hs : logger _ _ _ _ = (_, _) |- _ =>
             cbv [logger modify] in Hs; injection Hs as <- <-
         | Hs : get_self _ _ = (_, _) |- _ =>
             cbv [get_self] in Hs; injection Hs as <- <-
         | Hs : set_pipeline _ _ _ = (_, _) |- _ =>
             cbv [set_pipeline set_self bind get_self modify] in Hs;
             injection Hs as <- <-
         | Hs : set_feature_columns _ _ _ = (_, _) |- _ =>
             cbv [set_feature_columns set_self bind get_self modify] in Hs;
             injection Hs as <- <-
         end.
  match goal with
  | H1 : prep_transform lib ?p ?d = Ok ?X1,
    H2 : prep_transform lib ?p ?d = Ok ?X2,
    H3 : model_predict lib ?p ?X2 = Ok _ |- _ =>
      assert (X2 = X1) as -> by congruence
  end.
  do 7 eexists.
  repeat match goal with
         | |- _ /\ _ => split
         end; try eassumption; try reflexivity.
  - repeat match goal with
           | Hs : setitem ?d ?c ?col = Ok scored |- _ =>
               rewrite (getitem_setitem_ne d c "anomaly_flag" col scored
                          ltac:(discriminate) Hs); clear Hs
           | Hs : setitem ?d ?c ?col = Ok ?d' |- getitem ?d' _ = _ =>
               rewrite (getitem_setitem_ne d c "anomaly_flag" col d'
                          ltac:(discriminate) Hs); clear Hs
           end.
    reflexivity.
  - repeat match goal with
           | Hs : setitem ?d ?c ?col = Ok scored |- _ =>
               rewrite (getitem_setitem_ne d c "risk_score" col scored
                          ltac:(discriminate) Hs); clear Hs
           | Hs : setitem ?d ?c ?col = Ok ?d' |- getitem ?d' _ = _ =>
               rewrite (getitem_setitem_ne d c "risk_score" col d'
                          ltac:(discriminate) Hs); clear Hs
           end.
    reflexivity.
Qed.

End Refit.

(** C5: on a batch whose column names are distinct and do not include the
    five aggregates that feature engineering adds, a detector fitted on the
    batch by [fit_and_score] gives, when [predict_new_data] is called on
    the same batch, the same [anomaly_flag] on every row (and the same
    [risk_score]).  The call leaves the whole state as it was, the
    pipeline that [fit_and_score] returned included: nothing is refitted. *)
Theorem predict_on_training_batch_reproduces_flags
    (lib : Libraries) (df : DataFrame) (s s1 : MLState lib)
    (p : Pipeline (Estimator lib)) (scored : DataFrame) :
  NoDup (column_names df ++ user_stats_columns) ->
  fit_and_score lib df s = (s1, Ok (p, scored)) ->
  exists scored' flags,
    predict_new_data lib df s1 = (s1, Ok scored')
    /\ pipeline (detector s1) = Some p
    /\ getitem scored "anomaly_flag" = Ok flags
    /\ getitem scored' "anomaly_flag" = Ok flags
    /\ length flags = nrows df
    /\ getitem scored' "risk_score" = getitem scored "risk_score".
Proof.
  intros Hnd Hfit.
  apply fit_and_score_inv in Hfit
    as (df_feat & X & scores & risk & preds & d1 & d2 & Hfeat & Hdet & Hfiles
        & Hp & HX & Hsc & Hrisk & Hpred & Hd1 & Hd2 & Hflag & Hrs).
  pose proof (engineer_features_NoDup lib df df_feat Hnd Hfeat) as Hnd'.
  exists d2, (flag_column preds). split; [|split; [|split; [|split; [|split]]]].
  - eapply predict_new_data_run; try eassumption.
    + rewrite Hdet. reflexivity.
    + rewrite Hdet. reflexivity.
    + apply ensure_same_features_own. exact Hnd'.
  - rewrite Hdet. reflexivity.
  - rewrite Hflag. eapply getitem_setitem_eq. exact Hd2.
  - eapply getitem_setitem_eq. exact Hd2.
  - apply setitem_Ok in Hd2 as (Hl & _ & _).
    apply setitem_Ok in Hd1 as (_ & Hn & _). congruence.
  - symmetry. exact Hrs.
Qed.

(** ** What feature engineering can raise *)

Lemma obind_Raise {A B} (r : outcome A) (k : A -> outcome B) e :
  obind r k = Raise e -> r = Raise e \/ exists a, r = Ok a /\ k a = Raise e.
Proof.
  destruct r as [e'|a]; simpl; intros H; [left; congruence | right; eauto].
Qed.

Lemma map_outcome_Raise {A B} (f : A -> outcome B) (l : list A) e :
  map_outcome f l = Raise e -> exists x, f x = Raise e.
Proof.
  induction l as [|x l IH]; simpl; [discriminate|]. intros H.
  apply obind_Raise in H as [H|(y & _ & H)]; [eauto|].
  apply obind_Raise in H as [H|(ys & _ & H)]; [auto | discriminate].
Qed.

Lemma getitem_Raise df c e : getitem df c = Raise e -> column_error e.
Proof.
  unfold getitem. destruct (assoc c (columns df)); [discriminate|].
  intros H. injection H as <-. left. reflexivity.
Qed.

Lemma setitem_Raise df c col e : setitem df c col = Raise e -> column_error e.
Proof.
  unfold setitem. destruct (Nat.eqb _ _); [discriminate|].
  intros H. injection H as <-. right; right; right. reflexivity.
Qed.

Lemma to_numeric_Raise v e : to_numeric v = Raise e -> column_error e.
Proof.
  destruct v; simpl; try discriminate; intros H; injection H as <-;
    right; right; left; reflexivity.
Qed.

Lemma gt_scalar_Raise k v e : gt_scalar k v = Raise e -> column_error e.
Proof.
  unfold gt_scalar. intros H.
  apply obind_Raise in H as [H|(x & _ & H)]; [|discriminate].
  eapply to_numeric_Raise; eassumption.
Qed.

Lemma lt_scalar_Raise k v e : lt_scalar k v = Raise e -> column_error e.
Proof.
  unfold lt_scalar. intros H.
  apply obind_Raise in H as [H|(x & _ & H)]; [|discriminate].
  eapply to_numeric_Raise; eassumption.
Qed.

Lemma dt_accessor_Raise f col e : dt_accessor f col = Raise e -> column_error e.
Proof.
  unfold dt_accessor. intros H. apply map_outcome_Raise in H as (v & H).
  destruct v; try discriminate; injection H as <-; right; left; reflexivity.
Qed.

Lemma merge_left_Raise left key names right e :
  merge_left left key names right = Raise e -> column_error e.
Proof.
  unfold merge_left. intros H.
  apply obind_Raise in H as [H|(x & _ & H)]; [|discriminate].
  eapply getitem_Raise; eassumption.
Qed.

Lemma user_stats_Raise lib df e : user_stats lib df = Raise e -> column_error e.
Proof.
  unfold user_stats. intros H.
  apply obind_Raise in H as [H|(users & _ & H)]; [eapply getitem_Raise; eassumption|].
  apply obind_Raise in H as [H|(sizes & _ & H)]; [eapply getitem_Raise; eassumption|].
  apply obind_Raise in H as [H|(actions & _ & H)]; [eapply getitem_Raise; eassumption|].
  apply map_outcome_Raise in H as (k & H).
  apply obind_Raise in H as [H|(xs & _ & H)]; [|discriminate].
  apply map_outcome_Raise in H as (v & H).
  eapply to_numeric_Raise; eassumption.
Qed.

Ltac column_error_leaf H :=
  first
    [ discriminate H
    | eapply getitem_Raise; exact H
    | eapply setitem_Raise; exact H
    | eapply dt_accessor_Raise; exact H
    | eapply merge_left_Raise; exact H
    | eapply user_stats_Raise; exact H
    | apply map_outcome_Raise in H as (? & H);
      first [ eapply gt_scalar_Raise; exact H | eapply lt_scalar_Raise; exact H ] ].

Ltac inv_R H :=
  lazymatch type of H with
  | obind _ _ = Raise _ =>
      let a := fresh "a" in
      apply obind_Raise in H as [H|(a & _ & H)];
      [column_error_leaf H | inv_R H]
  | _ => column_error_leaf H
  end.

(** Whatever [engineer_features] raises is an error of a column operation. *)
Lemma engineer_features_Raise (lib : Libraries) df e :
  engineer_features lib df = Raise e -> column_error e.
Proof. unfold engineer_features. intros H. inv_R H. Qed.

Lemma column_error_not_ValidationError e :
  column_error e -> exn_class e <> "ValidationError".
Proof. intros [H|[H|[H|H]]]; rewrite H; discriminate. Qed.

(** [fit_and_score] starts with feature engineering and passes its error
    on, before it builds a pipeline. *)
Lemma fit_and_score_engineer_Raise (lib : Libraries) df (s : MLState lib) e :
  engineer_features lib df = Raise e ->
  fit_and_score lib df s
  = (mkMLState (detector s) (files s)
       (ml_log s ++ [("INFO", "Starting model training and scoring")]),
     Raise e).
Proof.
  intros H. unfold fit_and_score, bind, logger, modify, lift_outcome.
  rewrite H. reflexivity.
Qed.

(** C2, as amended: on an empty batch neither call raises a
    ValidationError.  The table without rows and columns is what the
    generators return for [n = 0]; on it [engineer_features] raises
    [KeyError] for [access_time], and [fit_and_score], which runs
    [engineer_features] first, logs its start and raises that [KeyError],
    the detector untouched.  On any batch, whatever [engineer_features]
    raises is a [KeyError], [AttributeError], [TypeError] or [ValueError] of
    a column operation, and [fit_and_score] passes it on. *)
Theorem empty_batch_raises_KeyError_not_ValidationError (lib : Libraries) :
  (forall rs self start days (w : World rs),
     snd (generate_normal_events rs self 0 (Some start) days w)
     = Ok (pd_DataFrame []))
  /\ nrows (pd_DataFrame []) = 0%nat
  /\ engineer_features lib (pd_DataFrame []) = Raise (KeyError "access_time")
  /\ (forall s : MLState lib,
        fit_and_score lib (pd_DataFrame []) s
        = (mkMLState (detector s) (files s)
             (ml_log s ++ [("INFO", "Starting model training and scoring")]),
           Raise (KeyError "access_time")))
  /\ (forall df e,
        engineer_features lib df = Raise e ->
        column_error e
        /\ exn_class e <> "ValidationError"
        /\ forall s : MLState lib, snd (fit_and_score lib df s) = Raise e).
Proof.
  split; [|split; [|split; [|split]]].
  - intros rs self start days w. reflexivity.
  - reflexivity.
  - reflexivity.
  - intros s. apply fit_and_score_engineer_Raise. reflexivity.
  - intros df e H. pose proof (engineer_features_Raise lib df e H) as Hc.
    split; [exact Hc|]. split; [apply column_error_not_ValidationError, Hc|].
    intros s. rewrite (fit_and_score_engineer_Raise lib df s e H). reflexivity.
Qed.

(** C2, as stated, fails: on the empty table both calls raise a [KeyError],
    which is no ValidationError. *)
Lemma empty_batch_no_ValidationError :
  nrows (pd_DataFrame []) = 0%nat
  /\ ~ (exists e, engineer_features stub_libraries (pd_DataFrame []) = Raise e
                  /\ exn_class e = "ValidationError")
  /\ ~ (exists e, snd (fit_and_score stub_libraries (pd_DataFrame []) fresh_process)
                  = Raise e
                  /\ exn_class e = "ValidationError").
Proof.
  split; [reflexivity|]. split.
  - intros (e & H & Hc). vm_compute in H. injection H as <-. discriminate Hc.
  - intros (e & H & Hc). vm_compute in H. injection H as <-. discriminate Hc.
Qed.

(** ** Reconciling the columns of a new batch *)

Lemma fill_missing_spec (missing : list string) (df : DataFrame) :
  nrows (fill_missing missing df) = nrows df
  /\ forall c,
       (c ∈ missing ->
        assoc c (columns (fill_missing missing df))
        = Some (replicate (nrows df) (VInt 0)))
       /\ (c ∉ missing ->
           assoc c (columns (fill_missing missing df)) = assoc c (columns df)).
Proof.
  revert df. induction missing as [|x l IH]; intros df.
  - split; [reflexivity|]. intros c. split; [|reflexivity].
    intros H. apply elem_of_nil in H. contradiction.
  - unfold fill_missing in *. cbn [fold_left].
    destruct (IH (setitem_scalar df x (VInt 0))) as [Hn Hc].
    cbn [setitem_scalar nrows] in Hn, Hc.
    split; [exact Hn|]. intros c. destruct (Hc c) as [Hin Hout]. split.
    + intros H. destruct (decide (c ∈ l)) as [Hl|Hl]; [auto|].
      apply elem_of_cons in H as [->|H]; [|contradiction].
      rewrite (Hout Hl). cbn [setitem_scalar columns].
      apply assoc_set_assoc_eq.
    + intros H. apply not_elem_of_cons in H as [Hne Hl].
      rewrite (Hout Hl). cbn [setitem_scalar columns].
      apply assoc_set_assoc_ne. exact Hne.
Qed.

Lemma missing_features_elem_of cols df c :
  c ∈ missing_features cols df <-> c ∈ cols /\ c ∉ column_names df.
Proof.
  unfold missing_features. rewrite list_elem_of_In, filter_In, <- list_elem_of_In.
  rewrite elem_of_remove_dups, negb_true_iff, existsb_eqb_not_elem_of.
  reflexivity.
Qed.

Lemma assoc_Some_elem_of {A} c (l : list (string * A)) :
  is_Some (assoc c l) <-> c ∈ map fst l.
Proof.
  induction l as [|[k v] l IH]; simpl.
  - split; [intros [x H]; discriminate | intros H; apply elem_of_nil in H; contradiction].
  - destruct (String.eqb c k) eqn:E.
    + apply String.eqb_eq in E. subst k. split; [intros _; apply list_elem_of_here | eauto].
    + apply String.eqb_neq in E. rewrite IH. split.
      * intros H. apply list_elem_of_further, H.
      * intros H. apply elem_of_cons in H as [H|H]; [contradiction | exact H].
Qed.

(** Selecting names that all exist succeeds, keeps their order, and gives
    each name its column. *)
Lemma select_present (df : DataFrame) (cols : list string) :
  (forall c, c ∈ cols -> c ∈ column_names df) ->
  exists aligned,
    select df cols = Ok aligned
    /\ nrows aligned = nrows df
    /\ column_names aligned = cols
    /\ forall c, c ∈ cols -> getitem aligned c = getitem df c.
Proof.
  intros Hall. unfold select.
  assert (H : exists picked,
             map_outcome (fun c => let! col := getitem df c in Ok (c, col)) cols
             = Ok picked
             /\ map fst picked = cols
             /\ forall c, c ∈ cols ->
                  match assoc c picked with
                  | Some col => Ok col
                  | None => Raise (KeyError c)
                  end = getitem df c).
  { induction cols as [|k cols IH].
    - exists []. split; [reflexivity|]. split; [reflexivity|].
      intros c H. apply elem_of_nil in H. contradiction.
    - destruct IH as (picked & Hp & Hn & Hg).
      { intros c Hc. apply Hall, list_elem_of_further, Hc. }
      assert (Hk : is_Some (assoc k (columns df))).
      { apply assoc_Some_elem_of. apply Hall, list_elem_of_here. }
      destruct Hk as [col Hk].
      exists ((k, col) :: picked). cbn [map_outcome]. unfold getitem at 1.
      rewrite Hk. cbn [obind]. rewrite Hp. cbn [obind].
      split; [reflexivity|]. split; [simpl; congruence|].
      intros c Hc. cbn [assoc].
      destruct (String.eqb c k) eqn:E.
      + apply String.eqb_eq in E. subst c. unfold getitem. rewrite Hk. reflexivity.
      + apply String.eqb_neq in E. apply elem_of_cons in Hc as [Hc|Hc];
          [contradiction | auto]. }
  destruct H as (picked & Hp & Hn & Hg). rewrite Hp. cbn [obind].
  eexists. split; [reflexivity|]. repeat split; auto.
Qed.

Section Reconciliation.
Context (lib : Libraries).

Lemma ensure_same_features_spec (cols : list string) (df_feat : DataFrame)
    (s : MLState lib) :
  exists aligned,
    ensure_same_features lib cols df_feat s
    = (mkMLState (detector s) (files s)
         (log_after_reconciliation cols df_feat (ml_log s)),
       Ok aligned)
    /\ nrows aligned = nrows df_feat
    /\ column_names aligned = cols
    /\ (forall c, c ∈ cols -> c ∉ column_names df_feat ->
          getitem aligned c = Ok (replicate (nrows df_feat) (VInt 0)))
    /\ (forall c, c ∈ cols -> c ∈ column_names df_feat ->
          getitem aligned c = getitem df_feat c).
Proof.
  set (missing := missing_features cols df_feat).
  destruct (fill_missing_spec missing df_feat) as [Hn Hfill].
  destruct (select_present (fill_missing missing df_feat) cols)
    as (aligned & Hsel & Hna & Hnames & Hget).
  { intros c Hc. apply (assoc_Some_elem_of c (columns (fill_missing missing df_feat))).
    destruct (Hfill c) as [Hin Hout].
    destruct (decide (c ∈ column_names df_feat)) as [Hd|Hd].
    - rewrite Hout.
      + apply assoc_Some_elem_of. exact Hd.
      + intros Hm. apply missing_features_elem_of in Hm as [_ Hm]. contradiction.
    - rewrite Hin; [eauto|]. apply missing_features_elem_of. auto. }
  exists aligned. split; [|split; [congruence|split; [exact Hnames|split]]].
  - unfold ensure_same_features, log_after_reconciliation. fold missing.
    destruct missing as [|m ms] eqn:Em.
    + cbn [length Nat.eqb negb]. unfold bind, ret, lift_outcome.
      unfold fill_missing in Hsel. cbn [fold_left] in Hsel. rewrite Hsel.
      destruct s; reflexivity.
    + cbn [length Nat.eqb negb]. unfold bind, ret, lift_outcome, logger, modify.
      unfold fill_missing in Hsel. rewrite Hsel. reflexivity.
  - intros c Hc Hd. rewrite (Hget c Hc). unfold getitem.
    destruct (Hfill c) as [Hin _]. rewrite Hin; [reflexivity|].
    apply missing_features_elem_of. auto.
  - intros c Hc Hd. rewrite (Hget c Hc). unfold getitem.
    destruct (Hfill c) as [_ Hout]. rewrite Hout; [reflexivity|].
    intros Hm. apply missing_features_elem_of in Hm as [_ Hm]. contradiction.
Qed.

End Reconciliation.

Lemma risk_of_total (raw : list Q) :
  raw <> [] -> exists risk, risk_of raw = Ok risk /\ length risk = length raw.
Proof.
  destruct raw as [|x l]; [congruence|]. intros _. unfold risk_of.
  cbn [np_min np_max obind]. eexists. split; [reflexivity|].
  simpl. f_equal. apply length_map.
Qed.

Lemma setitem_total df c col :
  length col = nrows df ->
  exists df', setitem df c col = Ok df' /\ nrows df' = nrows df.
Proof.
  intros H. unfold setitem. apply Nat.eqb_eq in H. rewrite H.
  eexists. split; reflexivity.
Qed.

(** C7, as amended: when feature engineering of the new batch succeeds
    (the batch has the columns it reads: [access_time], [user_id],
    [file_size_MB], [action], [file_type]), the reconciliation does not
    raise: every fit-time column absent from the engineered table is added
    and filled with 0, the others keep their cells, the table handed to the
    pipeline has exactly the fit-time columns in their order, and one
    WARNING line is logged when a column was absent (none otherwise).
    [predict_new_data] then returns a scored table whenever scikit-learn
    scores the reconciled table, one score and one label per row. *)
Theorem missing_fit_time_columns_are_zero_filled
    (lib : Libraries) (df df_feat : DataFrame) (s : MLState lib)
    (p : Pipeline (Estimator lib)) (cols : list string) :
  pipeline (detector s) = Some p ->
  feature_columns (detector s) = Some cols ->
  engineer_features lib df = Ok df_feat ->
  exists aligned s1,
    ensure_same_features lib cols df_feat s = (s1, Ok aligned)
    /\ detector s1 = detector s
    /\ files s1 = files s
    /\ column_names aligned = cols
    /\ (forall c, c ∈ cols -> c ∉ column_names df_feat ->
          getitem aligned c = Ok (replicate (nrows df_feat) (VInt 0)))
    /\ (forall c, c ∈ cols -> c ∈ column_names df_feat ->
          getitem aligned c = getitem df_feat c)
    /\ ((forall c, c ∈ cols -> c ∈ column_names df_feat) -> ml_log s1 = ml_log s)
    /\ ((exists c, c ∈ cols /\ c ∉ column_names df_feat) ->
        exists msg, ml_log s1 = (ml_log s ++ [("WARNING", msg)])%list)
    /\ (forall X scores preds,
          prep_transform lib p aligned = Ok X ->
          model_score_samples lib p X = Ok scores ->
          model_predict lib p X = Ok preds ->
          length scores = nrows df -> length preds = nrows df ->
          (0 < nrows df)%nat ->
          exists scored, predict_new_data lib df s = (s1, Ok scored)).
Proof.
  intros Hp Hcols Hfeat.
  destruct (ensure_same_features_spec lib cols df_feat s)
    as (aligned & Hens & Hn & Hnames & Hzero & Hkeep).
  eexists aligned, _. split; [exact Hens|].
  cbn [detector files ml_log].
  split; [reflexivity|]. split; [reflexivity|]. split; [exact Hnames|].
  split; [exact Hzero|]. split; [exact Hkeep|]. split; [|split].
  - intros Hall. unfold log_after_reconciliation.
    destruct (missing_features cols df_feat) as [|m ms] eqn:Em; [reflexivity|].
    assert (Hm : m ∈ missing_features cols df_feat)
      by (rewrite Em; apply list_elem_of_here).
    apply missing_features_elem_of in Hm as [Hc Hd]. destruct (Hd (Hall m Hc)).
  - intros (c & Hc & Hd). unfold log_after_reconciliation.
    destruct (missing_features cols df_feat) as [|m ms] eqn:Em; [|eauto].
    assert (Hm : c ∈ missing_features cols df_feat)
      by (apply missing_features_elem_of; auto).
    rewrite Em in Hm. apply elem_of_nil in Hm. contradiction.
  - intros X scores preds HX Hsc Hpred Hls Hlp Hpos.
    destruct (risk_of_total (map Qopp scores)) as (risk & Hrisk & Hlr).
    { destruct scores; [simpl in Hls; lia | discriminate]. }
    rewrite length_map in Hlr.
    destruct (setitem_total df "risk_score" (risk_column risk)) as (d1 & Hd1 & Hn1).
    { unfold risk_column. rewrite length_map. congruence. }
    destruct (setitem_total d1 "anomaly_flag" (flag_column preds)) as (d2 & Hd2 & _).
    { unfold flag_column. rewrite length_map. congruence. }
    exists d2. eapply predict_new_data_run; eassumption.
Qed.

(** C7, as stated, fails: the detector was fitted on a batch with an
    [action] column; on a batch without it [predict_new_data] raises
    [KeyError], in feature engineering, before any column is filled. *)
Lemma missing_action_column_raises :
  existsb (String.eqb "action") fitted_columns = true
  /\ existsb (String.eqb "action")
             (column_names (drop_column "action" small_batch)) = false
  /\ snd (predict_new_data stub_libraries (drop_column "action" small_batch)
            fitted_process)
     = Raise (KeyError "action").
Proof. vm_compute. repeat split; reflexivity. Qed.

(** ** The theorems at work on the four accesses *)

Lemma stub_joblib_round_trip : joblib_round_trip stub_libraries.
Proof. intros d. reflexivity. Defined.

Lemma risk_score_between_0_and_100_witness :
  (0 < nrows fitted_scored)%nat
  /\ (forall i, (i < nrows fitted_scored)%nat ->
        exists q, cell fitted_scored "risk_score" i = Some (VFloat q)
                  /\ (0 <= q)%Q /\ (q <= 100)%Q)
  /\ (exists p X scores risk,
        model_score_samples stub_libraries p X = Ok scores
        /\ risk_of (map Qopp scores) = Ok risk
        /\ getitem fitted_scored "risk_score"
           = Ok (map (fun r => VFloat (round2 r)) risk)).
Proof.
  apply (risk_score_between_0_and_100 stub_libraries small_batch fresh_process
           fitted_process fitted_scored).
  left. exists fitted_pipeline. vm_compute. reflexivity.
Defined.

Lemma predict_on_training_batch_reproduces_flags_witness :
  exists scored' flags,
    predict_new_data stub_libraries small_batch fitted_process
    = (fitted_process, Ok scored')
    /\ pipeline (detector fitted_process) = Some fitted_pipeline
    /\ getitem fitted_scored "anomaly_flag" = Ok flags
    /\ getitem scored' "anomaly_flag" = Ok flags
    /\ length flags = nrows small_batch
    /\ getitem scored' "risk_score" = getitem fitted_scored "risk_score".
Proof.
  apply (predict_on_training_batch_reproduces_flags stub_libraries small_batch
           fresh_process fitted_process fitted_pipeline fitted_scored).
  - apply (bool_decide_unpack _). vm_compute. reflexivity.
  - vm_compute. reflexivity.
Defined.

Lemma save_then_load_restores_model_witness :
  exists s1,
    save_model stub_libraries fitted_process = (s1, Ok tt)
    /\ forall (d0 : AnomalyDetector stub_libraries) (lg : list log_line),
         model_path d0 = model_path (detector fitted_process) ->
         exists s2,
           load_model stub_libraries (mkMLState d0 (files s1) lg) = (s2, Ok true)
           /\ contamination (detector s2) = contamination (detector fitted_process)
           /\ n_estimators (detector s2) = n_estimators (detector fitted_process)
           /\ pipeline (detector s2) = pipeline (detector fitted_process)
           /\ feature_columns (detector s2)
              = feature_columns (detector fitted_process)
           /\ forall df fs lg',
                predict_new_data stub_libraries df (mkMLState (detector s2) fs lg')
                = predict_new_data stub_libraries df
                    (mkMLState (detector fitted_process) fs lg').
Proof.
  apply (save_then_load_restores_model stub_libraries stub_joblib_round_trip
           fitted_process fitted_pipeline).
  vm_compute. reflexivity.
Defined.

Lemma missing_fit_time_columns_are_zero_filled_witness :
  exists aligned s1,
    ensure_same_features stub_libraries fitted_columns features_without_event_id
      fitted_process = (s1, Ok aligned)
    /\ detector s1 = detector fitted_process
    /\ files s1 = files fitted_process
    /\ column_names aligned = fitted_columns
    /\ (forall c, c ∈ fitted_columns -> c ∉ column_names features_without_event_id ->
          getitem aligned c
          = Ok (replicate (nrows features_without_event_id) (VInt 0)))
    /\ (forall c, c ∈ fitted_columns -> c ∈ column_names features_without_event_id ->
          getitem aligned c = getitem features_without_event_id c)
    /\ ((forall c, c ∈ fitted_columns -> c ∈ column_names features_without_event_id) ->
        ml_log s1 = ml_log fitted_process)
    /\ ((exists c, c ∈ fitted_columns /\ c ∉ column_names features_without_event_id) ->
        exists msg, ml_log s1 = (ml_log fitted_process ++ [("WARNING", msg)])%list)
    /\ (forall X scores preds,
          prep_transform stub_libraries fitted_pipeline aligned = Ok X ->
          model_score_samples stub_libraries fitted_pipeline X = Ok scores ->
          model_predict stub_libraries fitted_pipeline X = Ok preds ->
          length scores = nrows batch_without_event_id ->
          length preds = nrows batch_without_event_id ->
          (0 < nrows batch_without_event_id)%nat ->
          exists scored,
            predict_new_data stub_libraries batch_without_event_id fitted_process
            = (s1, Ok scored)).
Proof.
  apply (missing_fit_time_columns_are_zero_filled stub_libraries
           batch_without_event_id features_without_event_id fitted_process
           fitted_pipeline fitted_columns).
  - vm_compute. reflexivity.
  - vm_compute. reflexivity.
  - vm_compute. reflexivity.
Defined.

(** That run, computed: the identifiers are missing, they are filled with
    0, a warning is logged and the batch is scored as it was when fitted. *)
Example predict_without_event_id :
  exists scored,
    snd (predict_new_data stub_libraries batch_without_event_id fitted_process)
    = Ok scored
    /\ getitem scored "risk_score"
       = getitem fitted_scored "risk_score"
    /\ last (ml_log (fst (predict_new_data stub_libraries batch_without_event_id
                            fitted_process)))
       = Some ("WARNING", "Missing features: {event_id}").
Proof. eexists. vm_compute. repeat split; reflexivity. Qed.

(** * Further properties of the code *)

(** ** Dates *)

Lemma py_int_between (a b : Z) (x : Q) :
  0 <= a -> (inject_Z a <= x)%Q -> (x <= inject_Z b)%Q -> a <= py_int x <= b.
Proof.
  intros Ha Hlo Hhi. unfold py_int.
  assert (Hnum : 0 <= Qnum x).
  { assert (H0 : (0 <= x)%Q).
    { eapply Qle_trans; [|exact Hlo]. change 0%Q with (inject_Z 0).
      rewrite <- Zle_Qle. exact Ha. }
    unfold Qle in H0. simpl in H0. lia. }
  rewrite Z.quot_div_nonneg by lia.
  replace (Qnum x / Z.pos (Qden x)) with (Qfloor x) by (destruct x; reflexivity).
  split.
  - rewrite <- (Qfloor_Z a). apply Qfloor_resp_le. exact Hlo.
  - rewrite <- (Qfloor_Z b). apply Qfloor_resp_le. exact Hhi.
Qed.

(** Adding a duration of days, hours and minutes adds its seconds. *)
Lemma datetime_add_seconds (start t : datetime.t) (d h m : Z) (td : timedelta.t) :
  valid_datetime start ->
  timedelta.make d h m = Ok td ->
  datetime.add start td = Ok t ->
  seconds_of t = seconds_of start + d * 86400 + h * 3600 + m * 60
  /\ datetime.microsecond t = datetime.microsecond start
  /\ 0 <= datetime.hour t < 24 /\ 0 <= datetime.minute t < 60
  /\ 0 <= datetime.second t < 60
  /\ 1 <= datetime.ordinal t <= datetime.MAXORDINAL.
Proof.
  intros (Hord & Hh & Hm & Hs & Hus) Htd Ht.
  unfold timedelta.make in Htd.
  destruct (Z.abs _ <=? _); [|discriminate]. apply Ok_inj in Htd. subst td.
  unfold datetime.add in Ht.
  cbn [timedelta.days timedelta.seconds timedelta.microseconds] in Ht.
  destruct (_ && _) eqn:E; [|discriminate]. apply Ok_inj in Ht. subst t.
  apply andb_true_iff in E as [E1 E2].
  apply Z.ltb_lt in E1. apply Z.leb_le in E2.
  unfold seconds_of.
  cbn [datetime.ordinal datetime.hour datetime.minute datetime.second
       datetime.microsecond].
  destruct start as [ord h0 m0 s0 us0].
  cbn [datetime.ordinal datetime.hour datetime.minute datetime.second
       datetime.microsecond] in *.
  rewrite Z.add_0_r in *.
  rewrite (Z.div_small us0 1000000) in * by lia.
  rewrite (Z.mod_small us0 1000000) by lia.
  rewrite Z.add_0_r in *.
  split; [|split; [reflexivity|]].
  - Z.div_mod_to_equations. lia.
  - repeat split; try assumption; Z.div_mod_to_equations; lia.
Qed.

(** Going back [k] days keeps the time of day. *)
Lemma datetime_sub_days (now : datetime.t) (k : Z) :
  valid_datetime now -> 0 <= k < datetime.ordinal now ->
  exists td,
    timedelta.make k 0 0 = Ok td
    /\ datetime.sub now td = Ok (days_before now k)
    /\ valid_datetime (days_before now k).
Proof.
  intros (Hord & Hh & Hm & Hs & Hus) Hk.
  assert (HM : datetime.MAXORDINAL = 3652059) by reflexivity.
  exists (timedelta.mk k 0 0). split; [|split].
  - unfold timedelta.make.
    change ((0 * 3600 + 0 * 60) / 86400) with 0.
    change ((0 * 3600 + 0 * 60) mod 86400) with 0.
    rewrite Z.add_0_r.
    destruct (Z.abs k <=? 999999999) eqn:E; [reflexivity|].
    apply Z.leb_gt in E. unfold datetime.MAXORDINAL in Hord. lia.
  - unfold datetime.sub, timedelta.neg.
    cbn [timedelta.days timedelta.seconds timedelta.microseconds].
    change (- 0) with 0. change (0 / 1000000) with 0. change (0 mod 1000000) with 0.
    change (0 + 0) with 0. change (0 / 86400) with 0. change (0 mod 86400) with 0.
    rewrite Z.add_0_r.
    destruct (Z.abs (- k) <=? 999999999) eqn:E;
      [|apply Z.leb_gt in E; unfold datetime.MAXORDINAL in Hord; lia].
    cbn [obind]. unfold datetime.add, days_before.
    cbn [timedelta.days timedelta.seconds timedelta.microseconds].
    destruct now as [ord h0 m0 s0 us0].
    cbn [datetime.ordinal datetime.hour datetime.minute datetime.second
         datetime.microsecond] in *.
    rewrite !Z.add_0_r.
    rewrite (Z.div_small us0 1000000) by lia.
    rewrite (Z.mod_small us0 1000000) by lia.
    rewrite Z.add_0_r.
    assert (Hsmall : 0 <= h0 * 3600 + m0 * 60 + s0 < 86400) by lia.
    rewrite (Z.div_small _ 86400 Hsmall), (Z.mod_small _ 86400 Hsmall).
    rewrite Z.add_0_r.
    destruct ((0 <? ord + - k) && (ord + - k <=? datetime.MAXORDINAL)) eqn:E'.
    + f_equal. f_equal; Z.div_mod_to_equations; lia.
    + apply andb_false_iff in E' as [E'|E'];
        [apply Z.ltb_ge in E' | apply Z.leb_gt in E']; lia.
  - unfold valid_datetime, days_before.
    cbn [datetime.ordinal datetime.hour datetime.minute datetime.second
         datetime.microsecond]. repeat split; lia.
Qed.

(** ** The generators, row by row *)

Lemma bind_run {S A B} (c : M S A) (k : A -> M S B) s s1 a :
  c s = (s1, Ok a) -> bind c k s = k a s1.
Proof. intros H. unfold bind. rewrite H. reflexivity. Qed.


Lemma for_range_total {S A} (body : M S A) :
  (forall s, exists s' a, body s = (s', Ok a)) ->
  forall n s, exists s' xs, for_range n body s = (s', Ok xs) /\ length xs = n.
Proof.
  intros Hbody. induction n as [|n IH]; intros s; simpl.
  - exists s, []. split; reflexivity.
  - destruct (Hbody s) as (s1 & a & Ha). rewrite (bind_run _ _ _ _ _ Ha).
    destruct (IH s1) as (s2 & xs & Hxs & Hlen). rewrite (bind_run _ _ _ _ _ Hxs).
    exists s2, (a :: xs). split; [reflexivity | simpl; congruence].
Qed.

(** The columns of a table of [n] events. *)
Lemma pd_DataFrame_events_shape (rows : list record) :
  Forall is_event rows ->
  nrows (pd_DataFrame rows) = length rows
  /\ column_names (pd_DataFrame rows)
     = match rows with [] => [] | _ => event_keys end.
Proof.
  intros Hall. split; [reflexivity|].
  unfold column_names, pd_DataFrame. cbn [columns]. rewrite map_fst_tabulate.
  destruct rows as [|r rows]; [reflexivity|].
  apply records_columns_events; [exact Hall | discriminate].
Qed.

Section GeneratorRows.
Context (rs : RandomSource) (Hrs : RandomSourceSpec rs).

Lemma employee_between_run lo hi (w w' : World rs) u :
  employee rs lo hi w = (w', Ok u) -> employee_between lo hi u.
Proof.
  unfold employee. intros H. inv_M H.
  apply (np_random_randint_range rs Hrs) in Hrun. exists a. auto.
Qed.

Lemma or_else_run label (fallback : M (World rs) string) (w w' : World rs) u :
  or_else rs label fallback w = (w', Ok u) ->
  (exists l, label = Some l /\ l <> "" /\ u = l /\ w' = w)
  \/ ((label = None \/ label = Some "") /\ fallback w = (w', Ok u)).
Proof.
  unfold or_else. destruct label as [l|]; [|auto].
  destruct (String.eqb l "") eqn:E.
  - apply String.eqb_eq in E. subst l. auto.
  - apply String.eqb_neq in E. intros H. apply ret_Ok in H as [-> ->]. left. eauto.
Qed.

(** The start date that the first lines of a generator compute. *)
Lemma generator_start start_date k (w w1 : World rs) start :
  start_ok start_date (clock w) k ->
  match start_date with
  | Some d => ret d
  | None =>
      bind (datetime_now rs) (fun now =>
      bind (lift_outcome (timedelta.make k 0 0)) (fun td =>
      lift_outcome (datetime.sub now td)))
  end w = (w1, Ok start) ->
  w1 = w /\ start = start_or start_date (clock w) k /\ valid_datetime start.
Proof.
  intros Hok H. destruct start_date as [d|]; simpl in *.
  - apply ret_Ok in H as [-> ->]. auto.
  - destruct Hok as [Hv Hk].
    destruct (datetime_sub_days (clock w) k Hv Hk) as (td & Htd & Hsub & Hv').
    unfold bind, datetime_now, lift_outcome in H. rewrite Htd, Hsub in H.
    injection H as <- <-. auto.
Qed.

Lemma generator_start_total start_date k (w : World rs) :
  start_ok start_date (clock w) k ->
  match start_date with
  | Some d => ret d
  | None =>
      bind (datetime_now rs) (fun now =>
      bind (lift_outcome (timedelta.make k 0 0)) (fun td =>
      lift_outcome (datetime.sub now td)))
  end w = (w, Ok (start_or start_date (clock w) k)).
Proof.
  intros Hok. destruct start_date as [d|]; simpl in *; [reflexivity|].
  destruct Hok as [Hv Hk].
  destruct (datetime_sub_days (clock w) k Hv Hk) as (td & Htd & Hsub & Hv').
  unfold bind, datetime_now, lift_outcome. rewrite Htd, Hsub. reflexivity.
Qed.

Lemma normal_events_rows_full self n start_date days (w w' : World rs) df :
  start_ok start_date (clock w) days ->
  generate_normal_events rs self n start_date days w = (w', Ok df) ->
  exists rows,
    df = pd_DataFrame rows
    /\ length rows = Z.to_nat n
    /\ valid_datetime (start_or start_date (clock w) days)
    /\ Forall (normal_event_row rs days (start_or start_date (clock w) days)) rows.
Proof.
  intros Hok H. unfold generate_normal_events in H.
  apply bind_Ok in H as (start & w1 & Hstart & H).
  apply (generator_start _ _ _ _ _ Hok) in Hstart as (-> & -> & Hvalid).
  inv_M H. eexists. split; [reflexivity|].
  eapply (for_range_Forall
            (normal_event_row rs days (start_or start_date (clock w) days)))
    in Hrun0 as [Hall Hlen]; [auto|].
  clear -Hrs. intros s s' r H. inv_M H.
  apply lift_outcome_Ok in Hrun5 as [-> Htd].
  apply lift_outcome_Ok in Hrun6 as [-> Ht].
  unfold random_user in Hrun. apply employee_between_run in Hrun.
  apply (np_random_randint_range rs Hrs) in Hrun2.
  apply (np_random_randint_range rs Hrs) in Hrun4.
  do 10 eexists. split; [reflexivity|]. split; [exact Hrun|].
  split; [|split; [exact Hrun2|split; [|split; [exact Hrun4|split; eassumption]]]].
  - intros Hch. unfold random_choices, py_draw in Hrun0, Hrun1.
    pose proof (py_choices_elem rs Hch FILE_TYPES (file_type_weights self)
                  (py_rng s0) ltac:(discriminate)) as Hft.
    destruct (py_choices rs FILE_TYPES (file_type_weights self) (py_rng s0)).
    injection Hrun0 as <- <-.
    match type of Hrun1 with
    | context [py_choices rs ACTIONS ?ws ?st] =>
        pose proof (py_choices_elem rs Hch ACTIONS ws st ltac:(discriminate)) as Ha;
        destruct (py_choices rs ACTIONS ws st)
    end.
    injection Hrun1 as <- <-. split; assumption.
  - apply (py_int_between 8 19); [lia| |];
      apply (np_clip_bounds _ WORK_START_HOUR WORK_END_HOUR); discriminate.
Qed.

End GeneratorRows.

(** ** The generators return *)

Lemma timedelta_make_small (d h m : Z) :
  Z.abs d <= 999999999 -> 0 <= h * 3600 + m * 60 < 86400 ->
  timedelta.make d h m = Ok (timedelta.mk d (h * 3600 + m * 60) 0).
Proof.
  intros Hd Hs. unfold timedelta.make.
  rewrite (Z.div_small _ _ Hs), (Z.mod_small _ _ Hs), Z.add_0_r.
  destruct (Z.abs d <=? 999999999) eqn:E; [reflexivity|].
  apply Z.leb_gt in E. lia.
Qed.

Lemma datetime_add_total (dt : datetime.t) (d s : Z) :
  valid_datetime dt -> 0 <= d -> 0 <= s < 86400 ->
  datetime.ordinal dt + d < datetime.MAXORDINAL ->
  exists t, datetime.add dt (timedelta.mk d s 0) = Ok t.
Proof.
  intros (Ho & Hh & Hm & Hs & Hus) Hd Hsec Hmax. unfold datetime.add.
  cbn [timedelta.days timedelta.seconds timedelta.microseconds].
  rewrite Z.add_0_r, (Z.div_small _ _ Hus), Z.add_0_r.
  match goal with
  | |- context [if ?b then _ else _] => destruct b eqn:E; [eauto|]
  end.
  apply andb_false_iff in E as [E|E];
    [apply Z.ltb_ge in E | apply Z.leb_gt in E];
    unfold datetime.MAXORDINAL in *; Z.div_mod_to_equations; lia.
Qed.

Section GeneratorsReturn.
Context (rs : RandomSource) (Hrs : RandomSourceSpec rs).

Lemma np_random_randint_total lo hi (w : World rs) :
  lo < hi ->
  exists w' k, np_random_randint rs lo hi w = (w', Ok k) /\ lo <= k < hi.
Proof.
  intros Hlt. unfold np_random_randint.
  destruct (lo <? hi) eqn:E; [|apply Z.ltb_ge in E; lia].
  destruct (np_draw_total rs (np_randint rs lo hi) w) as [w' Hrun].
  exists w', (fst (np_randint rs lo hi (np_rng w))).
  split; [exact Hrun|]. apply (np_randint_range rs Hrs). exact Hlt.
Qed.


Lemma py_draw_total {A} (f : PyState rs -> A * PyState rs) (w : World rs) :
  exists w', py_draw rs f w = (w', Ok (fst (f (py_rng w)))).
Proof. unfold py_draw. destruct (f (py_rng w)); simpl; eauto. Qed.

Lemma employee_total lo hi (w : World rs) :
  lo < hi -> exists w' u, employee rs lo hi w = (w', Ok u).
Proof.
  intros Hlt. unfold employee.
  destruct (np_random_randint_total lo hi w Hlt) as (w1 & k & Hk & _).
  rewrite (bind_run _ _ _ _ _ Hk). unfold ret. eauto.
Qed.

Lemma or_else_total label (fallback : M (World rs) string) (w : World rs) :
  (exists w' u, fallback w = (w', Ok u)) ->
  exists w' u, or_else rs label fallback w = (w', Ok u).
Proof.
  intros Hf. unfold or_else. destruct label as [l|]; [|exact Hf].
  destruct (String.eqb l ""); [exact Hf | unfold ret; eauto].
Qed.

Lemma uuid4_total (w : World rs) : exists w' id, uuid4 rs w = (w', Ok id).
Proof. unfold uuid4, bind, os_urandom, ret. eauto. Qed.

Ltac step_with L :=
  let w1 := fresh "w" in
  let x := fresh "x" in
  let Hx := fresh "Hx" in
  destruct L as (w1 & x & Hx); rewrite (bind_run _ _ _ _ _ Hx).

Lemma normal_event_total self days start (w : World rs) :
  valid_datetime start -> 1 <= days ->
  datetime.ordinal start + days <= datetime.MAXORDINAL ->
  exists w' r,
    (user <- random_user rs self ;;
     file_type <- random_choices rs FILE_TYPES (file_type_weights self) ;;
     action <- random_choices rs ACTIONS (action_weights self) ;;
     day_offset <- np_random_randint rs 0 days ;;
     h <- np_random_normal rs TYPICAL_HOUR_MEAN TYPICAL_HOUR_STD ;;
     let hour := py_int (np_clip h WORK_START_HOUR WORK_END_HOUR) in
     minute <- np_random_randint rs 0 60 ;;
     td <- lift_outcome (timedelta.make day_offset hour minute) ;;
     access_time <- lift_outcome (datetime.add start td) ;;
     file_size <- _generate_file_size rs self file_type action ;;
     event_id <- uuid4 rs ;;
     ret (event event_id user file_type file_size access_time action)) w
    = (w', Ok r).
Proof.
  intros Hv Hdays Hmax.
  step_with (employee_total 100 999 w ltac:(lia)).
  unfold random_choices.
  destruct (py_draw_total (py_choices rs FILE_TYPES (file_type_weights self)) w0)
    as [w1 Hft]; rewrite (bind_run _ _ _ _ _ Hft).
  destruct (py_draw_total (py_choices rs ACTIONS (action_weights self)) w1)
    as [w2 Ha]; rewrite (bind_run _ _ _ _ _ Ha).
  destruct (np_random_randint_total 0 days w2 ltac:(lia)) as (w3 & d & Hd & Hdr).
  rewrite (bind_run _ _ _ _ _ Hd).
  unfold np_random_normal.
  destruct (np_draw_total rs (np_normal rs TYPICAL_HOUR_MEAN TYPICAL_HOUR_STD) w3)
    as [w4 Hh]; rewrite (bind_run _ _ _ _ _ Hh).
  destruct (np_random_randint_total 0 60 w4 ltac:(lia)) as (w5 & m & Hm & Hmr).
  rewrite (bind_run _ _ _ _ _ Hm).
  set (hour := py_int _).
  assert (Hhour : 8 <= hour <= 19).
  { apply (py_int_between 8 19); [lia| |];
      apply (np_clip_bounds _ WORK_START_HOUR WORK_END_HOUR); discriminate. }
  pose proof Hv as (Hord & _).
  unfold datetime.MAXORDINAL in Hmax.
  rewrite (timedelta_make_small d hour m) by lia.
  unfold lift_outcome at 1. unfold bind at 1.
  destruct (datetime_add_total start d (hour * 3600 + m * 60) Hv) as [t Ht];
    [lia | lia | unfold datetime.MAXORDINAL; lia |].
  rewrite Ht. unfold lift_outcome at 1. unfold bind at 1.
  step_with (_generate_file_size_total rs self
               (fst (py_choices rs FILE_TYPES (file_type_weights self) (py_rng w0)))
               (fst (py_choices rs ACTIONS (action_weights self) (py_rng w1))) w5).
  step_with (uuid4_total w6).
  unfold ret. eauto.
Qed.

End GeneratorsReturn.

Lemma datetime_add_no_carry (ord h m s us off : Z) :
  1 <= ord <= datetime.MAXORDINAL ->
  0 <= h * 3600 + m * 60 + s + off < 86400 -> 0 <= us < 1000000 ->
  exists t, datetime.add (datetime.mk ord h m s us) (timedelta.mk 0 off 0) = Ok t.
Proof.
  intros Hord Hs Hus. unfold datetime.add.
  cbn [timedelta.days timedelta.seconds timedelta.microseconds
       datetime.ordinal datetime.hour datetime.minute datetime.second
       datetime.microsecond].
  match goal with
  | |- context [if ?b then _ else _] => destruct b eqn:E; [eauto|]
  end.
  apply andb_false_iff in E as [E|E];
    [apply Z.ltb_ge in E | apply Z.leb_gt in E];
    unfold datetime.MAXORDINAL in *; Z.div_mod_to_equations; lia.
Qed.

Lemma datetime_sub_days_inv (start day : datetime.t) (k : Z) (td : timedelta.t) :
  valid_datetime start -> 0 <= k ->
  timedelta.make k 0 0 = Ok td -> datetime.sub start td = Ok day ->
  day = days_before start k /\ k < datetime.ordinal start.
Proof.
  intros Hv Hk Htd Hsub.
  destruct (Z.lt_ge_cases k (datetime.ordinal start)) as [Hlt|Hge].
  - destruct (datetime_sub_days start k Hv (conj Hk Hlt)) as (td' & Htd' & Hsub' & _).
    rewrite Htd in Htd'. injection Htd' as <-. rewrite Hsub in Hsub'.
    injection Hsub' as ->. auto.
  - exfalso. destruct Hv as (Ho & Hh & Hm & Hs & Hus).
    unfold timedelta.make in Htd.
    destruct (Z.abs _ <=? 999999999); [|discriminate].
    injection Htd as <-. unfold datetime.sub, timedelta.neg in Hsub.
    cbn [timedelta.days timedelta.seconds timedelta.microseconds] in Hsub.
    destruct (Z.abs _ <=? 999999999); [|discriminate].
    cbn [obind] in Hsub. unfold datetime.add in Hsub.
    cbn [timedelta.days timedelta.seconds timedelta.microseconds] in Hsub.
    match type of Hsub with
    | (if ?b then _ else _) = _ => destruct b eqn:E; [|discriminate]
    end.
    apply andb_true_iff in E as [E _]. apply Z.ltb_lt in E.
    revert E. Z.div_mod_to_equations. lia.
Qed.

Lemma datetime_replace_3 (day : datetime.t) (m : Z) :
  valid_datetime day -> 0 <= m < 60 ->
  datetime.replace day (Some 3) (Some m) None None
  = Ok (datetime.mk (datetime.ordinal day) 3 m (datetime.second day)
                    (datetime.microsecond day)).
Proof.
  intros (Ho & Hh & Hm & Hs & Hus) Hmin.
  unfold datetime.replace, datetime.check_field. simpl.
  destruct (0 <=? m) eqn:E1; [|apply Z.leb_gt in E1; lia].
  destruct (m <=? 59) eqn:E2; [|apply Z.leb_gt in E2; lia].
  destruct (0 <=? datetime.second day) eqn:E3; [|apply Z.leb_gt in E3; lia].
  destruct (datetime.second day <=? 59) eqn:E4; [|apply Z.leb_gt in E4; lia].
  destruct (0 <=? datetime.microsecond day) eqn:E5; [|apply Z.leb_gt in E5; lia].
  destruct (datetime.microsecond day <=? 999999) eqn:E6;
    [|apply Z.leb_gt in E6; lia].
  reflexivity.
Qed.

Section SuspiciousReturn.
Context (rs : RandomSource) (Hrs : RandomSourceSpec rs).

Ltac step_with L :=
  let w1 := fresh "w" in
  let x := fresh "x" in
  let Hx := fresh "Hx" in
  destruct L as (w1 & x & Hx); rewrite (bind_run _ _ _ _ _ Hx).

Lemma mass_downloads_total self n start label (w : World rs) :
  1 <= datetime.ordinal start <= datetime.MAXORDINAL ->
  exists w' rows,
    _generate_mass_downloads rs self n start label w
      = (w', Ok (pd_DataFrame rows))
    /\ length rows = Z.to_nat n /\ Forall is_event rows.
Proof.
  intros Hord. unfold _generate_mass_downloads.
  step_with (or_else_total rs label (employee rs 900 999) w
               (employee_total rs Hrs 900 999 w ltac:(lia))).
  unfold datetime.replace, datetime.check_field. simpl obind.
  unfold lift_outcome at 1. unfold bind at 1.
  match goal with
  | |- context [for_range ?k ?body] =>
      assert (Htot : forall s, exists s' a, body s = (s', Ok a));
      [| assert (Hev : forall s s' r, body s = (s', Ok r) -> is_event r);
         [| destruct (for_range_total body Htot k w0) as (w1 & rows & Hrows & Hlen);
            pose proof (for_range_Forall is_event body Hev _ _ _ _ Hrows) as [Hall _];
            rewrite (bind_run _ _ _ _ _ Hrows); unfold ret; eauto ]]
  end.
  - intros s.
    destruct (np_random_randint_total rs Hrs 0 180 s ltac:(lia)) as (s1 & off & Hoff & Hr).
    rewrite (bind_run _ _ _ _ _ Hoff).
    rewrite (timedelta_make_small 0 0 off) by lia.
    unfold lift_outcome at 1. unfold bind at 1.
    destruct (datetime_add_no_carry (datetime.ordinal start) 2 0 0 0
                (0 * 3600 + off * 60) Hord ltac:(lia) ltac:(lia)) as [t Ht].
    rewrite Ht. unfold lift_outcome at 1. unfold bind at 1.
    unfold random_choices.
    match goal with
    | |- context [py_draw rs ?f] =>
        destruct (py_draw_total rs f s1) as [s2 Hft]
    end.
    rewrite (bind_run _ _ _ _ _ Hft).
    unfold np_random_uniform.
    repeat match goal with
           | |- context [if ?b then _ else _] => destruct b
           end;
      match goal with
      | |- context [np_draw rs ?f] =>
          destruct (np_draw_total rs f s2) as [s3 Hsz]
      end;
      rewrite (bind_run _ _ _ _ _ Hsz);
      destruct (uuid4_total rs s3) as (s4 & id & Hid);
      rewrite (bind_run _ _ _ _ _ Hid); unfold ret; eauto.
  - intros s s' r H. inv_M H. do 6 eexists. reflexivity.
Qed.

Lemma generic_suspicious_total self n start label (w : World rs) :
  valid_datetime start -> 3 <= datetime.ordinal start ->
  exists w' rows,
    _generate_generic_suspicious rs self n start label w
      = (w', Ok (pd_DataFrame rows))
    /\ length rows = Z.to_nat n /\ Forall is_event rows.
Proof.
  intros Hv Hord. unfold _generate_generic_suspicious.
  match goal with
  | |- context [for_range ?k ?body] =>
      assert (Htot : forall s, exists s' a, body s = (s', Ok a));
      [| assert (Hev : forall s s' r, body s = (s', Ok r) -> is_event r);
         [| destruct (for_range_total body Htot k w) as (w1 & rows & Hrows & Hlen);
            pose proof (for_range_Forall is_event body Hev _ _ _ _ Hrows) as [Hall _];
            rewrite (bind_run _ _ _ _ _ Hrows); unfold ret; eauto ]]
  end.
  - intros s.
    step_with (or_else_total rs label (random_user rs self) s
                 (employee_total rs Hrs 100 999 s ltac:(lia))).
    destruct (np_random_randint_total rs Hrs 0 3 w0 ltac:(lia)) as (s1 & k & Hk & Hr).
    rewrite (bind_run _ _ _ _ _ Hk).
    destruct (datetime_sub_days start k Hv ltac:(lia)) as (td & Htd & Hsub & Hv').
    rewrite Htd. unfold lift_outcome at 1. unfold bind at 1.
    rewrite Hsub. unfold lift_outcome at 1. unfold bind at 1.
    destruct (np_random_randint_total rs Hrs 0 60 s1 ltac:(lia)) as (s2 & m & Hm & Hmr).
    rewrite (bind_run _ _ _ _ _ Hm).
    rewrite (datetime_replace_3 _ m Hv' Hmr).
    unfold lift_outcome at 1. unfold bind at 1.
    unfold random_choice.
    destruct (py_draw_total rs (py_choice rs FILE_TYPES) s2) as [s3 Hft].
    rewrite (bind_run _ _ _ _ _ Hft).
    unfold np_random_uniform.
    destruct (np_draw_total rs (np_uniform rs 10 150) s3) as [s4 Hsz].
    rewrite (bind_run _ _ _ _ _ Hsz).
    destruct (uuid4_total rs s4) as (s5 & id & Hid).
    rewrite (bind_run _ _ _ _ _ Hid). unfold ret. eauto.
  - intros s s' r H. inv_M H. do 6 eexists. reflexivity.
Qed.

Lemma generic_suspicious_rows_full self n start label (w w' : World rs) df :
  valid_datetime start ->
  _generate_generic_suspicious rs self n start label w = (w', Ok df) ->
  exists rows, df = pd_DataFrame rows
               /\ Forall (generic_event_row rs start label) rows.
Proof.
  intros Hv H. unfold _generate_generic_suspicious in H. inv_M H.
  eexists. split; [reflexivity|].
  eapply (for_range_Forall (generic_event_row rs start label)) in Hrun as [Hall _];
    [exact Hall|].
  clear -Hrs Hv. intros s s' r H. inv_M H.
  apply (np_random_randint_range rs Hrs) in Hrun0.
  apply lift_outcome_Ok in Hrun1 as [-> Htd].
  apply lift_outcome_Ok in Hrun2 as [-> Hday].
  apply (np_random_randint_range rs Hrs) in Hrun3.
  apply lift_outcome_Ok in Hrun4 as [-> Ht].
  destruct (datetime_sub_days_inv _ _ _ _ Hv (proj1 Hrun0) Htd Hday) as [-> Hlt].
  assert (Hv' : valid_datetime (days_before start a0)).
  { destruct Hv as (Ho & Hrest). split; [|exact Hrest].
    unfold days_before. cbn [datetime.ordinal]. lia. }
  rewrite (datetime_replace_3 _ a3 Hv' Hrun3) in Ht. injection Ht as <-.
  exists a7, a, a5, a6, a0, a3. split; [reflexivity|].
  split; [exact Hrun0|]. split; [exact Hlt|]. split; [exact Hrun3|].
  split; [|split].
  - intros Hch. unfold random_choice, py_draw in Hrun5.
    match type of Hrun5 with
    | context [py_choice rs FILE_TYPES ?st] =>
        pose proof (py_choice_elem rs Hch FILE_TYPES st ltac:(discriminate)) as Hft;
        destruct (py_choice rs FILE_TYPES st)
    end.
    injection Hrun5 as <- <-. exact Hft.
  - intros l -> Hl. apply or_else_run in Hrun as [(l' & E & _ & -> & _)|[[E|E] _]];
      congruence.
  - intros Hlab. apply or_else_run in Hrun as [(l' & E & Hne & _)|[_ Hrun]].
    + destruct Hlab; congruence.
    + unfold random_user in Hrun. eapply employee_between_run; eassumption.
Qed.

(** The user of the rows of the mass-download pattern. *)
Lemma mass_downloads_user self n start label (w w' : World rs) df :
  _generate_mass_downloads rs self n start label w = (w', Ok df) ->
  exists u rows,
    df = pd_DataFrame rows
    /\ Forall (fun r => exists id ft sz t, r = event id u ft sz t "download") rows
    /\ (forall l, label = Some l -> l <> "" -> u = l)
    /\ (label = None \/ label = Some "" -> employee_between 900 999 u).
Proof.
  intros H. unfold _generate_mass_downloads in H. inv_M H.
  exists a, a1. split; [reflexivity|]. split; [|split].
  - eapply for_range_Forall; [|eassumption].
    clear. intros s s' r H. inv_M H. do 4 eexists. reflexivity.
  - intros l -> Hl. apply or_else_run in Hrun as [(l' & E & _ & -> & _)|[[E|E] _]];
      congruence.
  - intros Hlab. apply or_else_run in Hrun as [(l' & E & Hne & _)|[_ Hrun]].
    + destruct Hlab; congruence.
    + eapply employee_between_run; eassumption.
Qed.

End SuspiciousReturn.

Lemma counter_source_choice : ChoiceSpec counter_source.
Proof.
  assert (Hnth : forall (population : list string) (s : Z),
             population <> [] ->
             nth (Z.to_nat (s mod Z.of_nat (length population))) population ""
               ∈ population).
  { intros population s Hne. apply list_elem_of_In, nth_In.
    assert (0 < Z.of_nat (length population)).
    { destruct population; [congruence | simpl; lia]. }
    pose proof (Z.mod_pos_bound s (Z.of_nat (length population))). lia. }
  split.
  - intros population weights s Hne. apply Hnth, Hne.
  - intros population s Hne. apply Hnth, Hne.
Defined.

Lemma new_year_2024_valid : valid_datetime new_year_2024.
Proof. unfold valid_datetime, new_year_2024, datetime.MAXORDINAL. simpl. lia. Defined.

(** ** What the generators return *)

(** X1: [generate_normal_events] returns a table for every [n] when
    [days >= 1] and the last day of the span is a date of the calendar: the
    table has [n] rows ([0] for a negative [n]) and the six event columns in
    the order of the dict literal, or no column at all when it has no row. *)
Theorem generate_normal_events_returns
    (rs : RandomSource) (Hrs : RandomSourceSpec rs) (self : DataGenerator)
    (n : Z) (start_date : option datetime.t) (days : Z) (w : World rs) :
  start_ok start_date (clock w) days ->
  1 <= days ->
  datetime.ordinal (start_or start_date (clock w) days) + days
    <= datetime.MAXORDINAL ->
  exists w' df,
    generate_normal_events rs self n start_date days w = (w', Ok df)
    /\ nrows df = Z.to_nat n
    /\ column_names df = (if 0 <? n then event_keys else []).
Proof.
  intros Hok Hdays Hmax. unfold generate_normal_events.
  rewrite (bind_run _ _ _ _ _ (generator_start_total rs start_date days w Hok)).
  unfold gen_logger_info at 1. unfold modify at 1. unfold bind at 1.
  assert (Hv : valid_datetime (start_or start_date (clock w) days)).
  { destruct start_date as [d|]; [exact Hok|]. destruct Hok as [Hv Hk].
    destruct (datetime_sub_days (clock w) days Hv Hk) as (_ & _ & _ & Hv').
    exact Hv'. }
  match goal with
  | |- exists _ _, bind (for_range ?k ?body) _ ?s = _ /\ _ =>
      destruct (for_range_total body
                  (fun s0 => normal_event_total rs Hrs self days _ s0 Hv Hdays Hmax)
                  k s) as (w1 & rows & Hrows & Hlen);
      assert (Hall : Forall is_event rows)
  end.
  { eapply for_range_Forall; [|exact Hrows].
    intros s s' r H. inv_M H. do 6 eexists. reflexivity. }
  rewrite (bind_run _ _ _ _ _ Hrows). unfold ret.
  exists w1, (pd_DataFrame rows). split; [reflexivity|].
  destruct (pd_DataFrame_events_shape rows Hall) as [Hn Hcols].
  split; [congruence|]. rewrite Hcols.
  destruct (0 <? n) eqn:E.
  - apply Z.ltb_lt in E. destruct rows; [simpl in Hlen; lia | reflexivity].
  - apply Z.ltb_ge in E. destruct rows; [reflexivity | simpl in Hlen; lia].
Qed.

Lemma generate_normal_events_returns_witness :
  exists w' df,
    generate_normal_events counter_source DataGenerator_init 3
      (Some new_year_2024) 10 world_zeros = (w', Ok df)
    /\ nrows df = Z.to_nat 3
    /\ column_names df = (if 0 <? 3 then event_keys else []).
Proof.
  apply (generate_normal_events_returns counter_source counter_source_spec
           DataGenerator_init 3 (Some new_year_2024) 10 world_zeros).
  - exact new_year_2024_valid.
  - lia.
  - vm_compute. discriminate.
Defined.




Lemma normal_event_row_is_event rs days start r :
  normal_event_row rs days start r -> is_event r.
Proof.
  intros (id & u & ft & sz & t & a & d & h & m & td & -> & _).
  do 6 eexists. reflexivity.
Qed.

Lemma generic_event_row_is_event rs start label r :
  generic_event_row rs start label r -> is_event r.
Proof.
  intros (id & u & ft & sz & k & m & -> & _). do 6 eexists. reflexivity.
Qed.

(** X3: every event of [generate_normal_events] is by a user
    [employee100] .. [employee998], on one of the seven file types of the
    configuration, and is a view or a download ([random.choices] returns
    members of its population). *)
Theorem normal_events_user_type_action
    (rs : RandomSource) (Hrs : RandomSourceSpec rs) (Hch : ChoiceSpec rs)
    (self : DataGenerator) (n : Z) (start_date : option datetime.t) (days : Z)
    (w w' : World rs) (df : DataFrame) :
  start_ok start_date (clock w) days ->
  generate_normal_events rs self n start_date days w = (w', Ok df) ->
  forall i, (i < nrows df)%nat ->
    exists u ft a,
      cell df "user_id" i = Some (VStr u)
      /\ cell df "file_type" i = Some (VStr ft)
      /\ cell df "action" i = Some (VStr a)
      /\ employee_between 100 999 u
      /\ ft ∈ FILE_TYPES
      /\ (a = "view" \/ a = "download").
Proof.
  intros Hok H i Hi.
  apply (normal_events_rows_full rs Hrs _ _ _ _ _ _ _ Hok) in H
    as (rows & -> & _ & _ & Hrows).
  destruct (rows_of_frame _ rows i Hrows Hi)
    as (r & Hr & id & u & ft & sz & t & a & d & h & m & td & -> & Hu & Hc & _).
  assert (Hev : Forall is_event rows).
  { eapply events_weaken; [|exact Hrows]. apply normal_event_row_is_event. }
  destruct (cell_event rows i _ _ _ _ _ _ Hev Hr) as (_ & Cu & Cft & _ & _ & Ca).
  destruct (Hc Hch) as [Hft Ha].
  exists u, ft, a. repeat (split; [assumption|]).
  unfold ACTIONS in Ha.
  apply elem_of_cons in Ha as [Ha|Ha]; [auto|].
  apply elem_of_cons in Ha as [Ha|Ha]; [auto|].
  apply elem_of_nil in Ha. contradiction.
Qed.

Lemma normal_events_user_type_action_witness :
  exists u ft a,
    cell (returned demo_normal_run (pd_DataFrame [])) "user_id" 2 = Some (VStr u)
    /\ cell (returned demo_normal_run (pd_DataFrame [])) "file_type" 2
       = Some (VStr ft)
    /\ cell (returned demo_normal_run (pd_DataFrame [])) "action" 2 = Some (VStr a)
    /\ employee_between 100 999 u
    /\ ft ∈ FILE_TYPES
    /\ (a = "view" \/ a = "download").
Proof.
  apply (normal_events_user_type_action counter_source counter_source_spec
           counter_source_choice DataGenerator_init 3 (Some new_year_2024) 10
           world_zeros (fst demo_normal_run)
           (returned demo_normal_run (pd_DataFrame []))).
  - exact new_year_2024_valid.
  - vm_compute. reflexivity.
  - vm_compute. lia.
Defined.

(** X4: the access time of every event of [generate_normal_events] lies a
    whole number of days [0 <= d < days] plus a time of day between 08:00
    and 19:59 after the start date; the start date is the one passed, or
    [days] days before the call.  So for a start date at midnight the events
    fall on the [days] days from the start date on, within working hours; a
    start date with a time of day (the default is one) shifts all of them by
    that time. *)
Theorem normal_events_access_time
    (rs : RandomSource) (Hrs : RandomSourceSpec rs)
    (self : DataGenerator) (n : Z) (start_date : option datetime.t) (days : Z)
    (w w' : World rs) (df : DataFrame) :
  start_ok start_date (clock w) days ->
  generate_normal_events rs self n start_date days w = (w', Ok df) ->
  forall i, (i < nrows df)%nat ->
    exists t,
      cell df "access_time" i = Some (VTime t)
      /\ valid_datetime t
      /\ 0 <= elapsed (start_or start_date (clock w) days) t / 86400 < days
      /\ 8 * 3600 <= elapsed (start_or start_date (clock w) days) t mod 86400
         < 20 * 3600
      /\ (at_midnight (start_or start_date (clock w) days) ->
          datetime.ordinal (start_or start_date (clock w) days)
            <= datetime.ordinal t
            < datetime.ordinal (start_or start_date (clock w) days) + days
          /\ 8 <= datetime.hour t <= 19).
Proof.
  intros Hok H i Hi.
  apply (normal_events_rows_full rs Hrs _ _ _ _ _ _ _ Hok) in H
    as (rows & -> & _ & Hv & Hrows).
  destruct (rows_of_frame _ rows i Hrows Hi)
    as (r & Hr & id & u & ft & sz & t & a & d & h & m & td & -> & _ & _
        & Hd & Hh & Hm & Htd & Ht).
  assert (Hev : Forall is_event rows).
  { eapply events_weaken; [|exact Hrows]. apply normal_event_row_is_event. }
  destruct (cell_event rows i _ _ _ _ _ _ Hev Hr) as (_ & _ & _ & _ & Ct & _).
  destruct (datetime_add_seconds _ _ _ _ _ _ Hv Htd Ht)
    as (Hsec & Hus & Hfields & Hord).
  exists t. split; [exact Ct|].
  assert (Hvt : valid_datetime t).
  { unfold valid_datetime. rewrite Hus. destruct Hv as (_ & _ & _ & _ & Hus').
    tauto. }
  split; [exact Hvt|].
  unfold elapsed. rewrite Hsec.
  replace (seconds_of (start_or start_date (clock w) days) + d * 86400
           + h * 3600 + m * 60 - seconds_of (start_or start_date (clock w) days))
    with ((h * 3600 + m * 60) + d * 86400) by ring.
  rewrite Z.div_add, Z.mod_add by lia.
  rewrite Z.div_small, Z.mod_small by lia.
  split; [lia|]. split; [lia|].
  intros (H0 & M0 & S0). unfold seconds_of in Hsec. rewrite H0, M0, S0 in Hsec.
  destruct Hvt as (_ & Hth & Htm & Hts & _). lia.
Qed.

Lemma normal_events_access_time_witness :
  exists t,
    cell (returned demo_normal_run (pd_DataFrame [])) "access_time" 1
      = Some (VTime t)
    /\ valid_datetime t
    /\ 0 <= elapsed (start_or (Some new_year_2024) (clock world_zeros) 10) t
            / 86400 < 10
    /\ 8 * 3600
       <= elapsed (start_or (Some new_year_2024) (clock world_zeros) 10) t
            mod 86400
       < 20 * 3600
    /\ (at_midnight (start_or (Some new_year_2024) (clock world_zeros) 10) ->
        datetime.ordinal (start_or (Some new_year_2024) (clock world_zeros) 10)
          <= datetime.ordinal t
          < datetime.ordinal (start_or (Some new_year_2024) (clock world_zeros) 10)
            + 10
        /\ 8 <= datetime.hour t <= 19).
Proof.
  apply (normal_events_access_time counter_source counter_source_spec
           DataGenerator_init 3 (Some new_year_2024) 10
           world_zeros (fst demo_normal_run)
           (returned demo_normal_run (pd_DataFrame []))).
  - exact new_year_2024_valid.
  - vm_compute. reflexivity.
  - vm_compute. lia.
Defined.

(** The generator that [generate_suspicious_events] runs, from the start
    date it computes. *)
Lemma suspicious_events_from_start (rs : RandomSource) self n start_date label
    pattern (w w' : World rs) df :
  start_ok start_date (clock w) 1 ->
  generate_suspicious_events rs self n start_date label pattern w = (w', Ok df) ->
  valid_datetime (start_or start_date (clock w) 1)
  /\ exists w1,
       if String.eqb pattern "mass_downloads"
       then _generate_mass_downloads rs self n (start_or start_date (clock w) 1)
              label w1 = (w', Ok df)
       else _generate_generic_suspicious rs self n
              (start_or start_date (clock w) 1) label w1 = (w', Ok df).
Proof.
  intros Hok H. unfold generate_suspicious_events in H.
  apply bind_Ok in H as (start & w1 & Hstart & H).
  apply (generator_start rs _ _ _ _ _ Hok) in Hstart as (-> & -> & Hv).
  apply bind_Ok in H as (u & w2 & _ & H).
  split; [exact Hv | exists w2].
  destruct (String.eqb pattern "mass_downloads"); exact H.
Qed.

Lemma generic_suspicious_user (rs : RandomSource) (Hrs : RandomSourceSpec rs)
    self n start label (w w' : World rs) df :
  _generate_generic_suspicious rs self n start label w = (w', Ok df) ->
  exists rows,
    df = pd_DataFrame rows
    /\ Forall (fun r => exists id u ft sz t,
                 r = event id u ft sz t "download"
                 /\ (forall l, label = Some l -> l <> "" -> u = l)
                 /\ (label = None \/ label = Some "" ->
                     employee_between 100 999 u)) rows.
Proof.
  intros H. unfold _generate_generic_suspicious in H. inv_M H.
  eexists. split; [reflexivity|].
  eapply for_range_Forall; [|eassumption].
  clear -Hrs. intros s s' r H.
  apply bind_Ok in H as (u & s1 & Hu & H). inv_M H.
  do 5 eexists. split; [reflexivity|]. split.
  - intros l -> Hl. apply or_else_run in Hu as [(l' & E & _ & -> & _)|[[E|E] _]];
      congruence.
  - intros Hlab. apply or_else_run in Hu as [(l' & E & Hne & _)|[_ Hu]].
    + destruct Hlab; congruence.
    + unfold random_user in Hu. eapply employee_between_run; eassumption.
Qed.

(** X5: every event of [generate_suspicious_events] with a pattern other
    than [mass_downloads] is a download of one of the seven file types, at
    03:00 to 03:59 on the start date or one of the two days before it; the
    seconds and microseconds are those of the start date, which is the date
    passed, or one day before the call. *)
Theorem generic_suspicious_pattern
    (rs : RandomSource) (Hrs : RandomSourceSpec rs) (Hch : ChoiceSpec rs)
    (self : DataGenerator) (n : Z) (start_date : option datetime.t)
    (label_user : option string) (pattern : string)
    (w w' : World rs) (df : DataFrame) :
  pattern <> "mass_downloads" ->
  start_ok start_date (clock w) 1 ->
  generate_suspicious_events rs self n start_date label_user pattern w
    = (w', Ok df) ->
  forall i, (i < nrows df)%nat ->
    cell df "action" i = Some (VStr "download")
    /\ (exists ft, cell df "file_type" i = Some (VStr ft) /\ ft ∈ FILE_TYPES)
    /\ exists t,
         cell df "access_time" i = Some (VTime t)
         /\ datetime.hour t = 3 /\ 0 <= datetime.minute t < 60
         /\ datetime.second t
            = datetime.second (start_or start_date (clock w) 1)
         /\ datetime.microsecond t
            = datetime.microsecond (start_or start_date (clock w) 1)
         /\ datetime.ordinal (start_or start_date (clock w) 1) - 2
            <= datetime.ordinal t
            <= datetime.ordinal (start_or start_date (clock w) 1).
Proof.
  intros Hpat Hok H i Hi.
  apply (suspicious_events_from_start rs _ _ _ _ _ _ _ _ Hok) in H as (Hv & w1 & H).
  apply String.eqb_neq in Hpat. rewrite Hpat in H.
  apply (generic_suspicious_rows_full rs Hrs _ _ _ _ _ _ _ Hv) in H
    as (rows & -> & Hrows).
  destruct (rows_of_frame _ rows i Hrows Hi)
    as (r & Hr & id & u & ft & sz & k & m & -> & Hk & _ & Hm & Hft & _).
  assert (Hev : Forall is_event rows).
  { eapply events_weaken; [|exact Hrows]. apply generic_event_row_is_event. }
  destruct (cell_event rows i _ _ _ _ _ _ Hev Hr) as (_ & _ & Cft & _ & Ct & Ca).
  split; [exact Ca|]. split; [exists ft; auto|].
  eexists. split; [exact Ct|]. cbn. repeat split; lia.
Qed.

Lemma generic_suspicious_pattern_witness :
  cell (returned demo_generic_run (pd_DataFrame [])) "action" 1
    = Some (VStr "download")
  /\ (exists ft, cell (returned demo_generic_run (pd_DataFrame [])) "file_type" 1
                 = Some (VStr ft) /\ ft ∈ FILE_TYPES)
  /\ exists t,
       cell (returned demo_generic_run (pd_DataFrame [])) "access_time" 1
         = Some (VTime t)
       /\ datetime.hour t = 3 /\ 0 <= datetime.minute t < 60
       /\ datetime.second t
          = datetime.second (start_or (Some new_year_2024) (clock world_zeros) 1)
       /\ datetime.microsecond t
          = datetime.microsecond
              (start_or (Some new_year_2024) (clock world_zeros) 1)
       /\ datetime.ordinal (start_or (Some new_year_2024) (clock world_zeros) 1) - 2
          <= datetime.ordinal t
          <= datetime.ordinal (start_or (Some new_year_2024) (clock world_zeros) 1).
Proof.
  apply (generic_suspicious_pattern counter_source counter_source_spec
           counter_source_choice DataGenerator_init 3 (Some new_year_2024) None
           "generic" world_zeros (fst demo_generic_run)
           (returned demo_generic_run (pd_DataFrame []))).
  - discriminate.
  - exact new_year_2024_valid.
  - vm_compute. reflexivity.
  - vm_compute. lia.
Defined.

(** X6: the user of suspicious events.  With a non-empty [label_user] every
    event of [generate_suspicious_events] carries that user, whatever the
    pattern.  Without one, or with the empty string, which [or] treats as
    absent, the user is drawn: [employee900] .. [employee998] for
    [mass_downloads], [employee100] .. [employee998] for the other
    patterns. *)
Theorem suspicious_events_user
    (rs : RandomSource) (Hrs : RandomSourceSpec rs)
    (self : DataGenerator) (n : Z) (start_date : option datetime.t)
    (label_user : option string) (pattern : string)
    (w w' : World rs) (df : DataFrame) :
  generate_suspicious_events rs self n start_date label_user pattern w
    = (w', Ok df) ->
  forall i, (i < nrows df)%nat ->
    exists u,
      cell df "user_id" i = Some (VStr u)
      /\ (forall l, label_user = Some l -> l <> "" -> u = l)
      /\ (label_user = None \/ label_user = Some "" ->
          employee_between
            (if String.eqb pattern "mass_downloads" then 900 else 100) 999 u).
Proof.
  intros H i Hi.
  apply suspicious_events_dispatch in H as (start & w1 & _ & _ & H).
  destruct (String.eqb pattern "mass_downloads").
  - apply (mass_downloads_user rs Hrs) in H as (u & rows & -> & Hrows & Hl & He).
    destruct (rows_of_frame _ rows i Hrows Hi) as (r & Hr & id & ft & sz & t & ->).
    assert (Hev : Forall is_event rows).
    { eapply events_weaken; [|exact Hrows].
      intros r (id' & ft' & sz' & t' & ->). do 6 eexists; reflexivity. }
    destruct (cell_event rows i _ _ _ _ _ _ Hev Hr) as (_ & Cu & _).
    exists u. auto.
  - apply (generic_suspicious_user rs Hrs) in H as (rows & -> & Hrows).
    destruct (rows_of_frame _ rows i Hrows Hi)
      as (r & Hr & id & u & ft & sz & t & -> & Hl & He).
    assert (Hev : Forall is_event rows).
    { eapply events_weaken; [|exact Hrows].
      intros r (id' & u' & ft' & sz' & t' & -> & _). do 6 eexists; reflexivity. }
    destruct (cell_event rows i _ _ _ _ _ _ Hev Hr) as (_ & Cu & _).
    exists u. auto.
Qed.

Lemma suspicious_events_user_witness :
  exists u,
    cell (returned demo_attack_run (pd_DataFrame [])) "user_id" 1 = Some (VStr u)
    /\ (forall l, Some "employee123" = Some l -> l <> "" -> u = l)
    /\ (Some "employee123" = None \/ Some "employee123" = Some "" ->
        employee_between
          (if String.eqb "mass_downloads" "mass_downloads" then 900 else 100)
          999 u).
Proof.
  apply (suspicious_events_user counter_source counter_source_spec
           DataGenerator_init 2 (Some new_year_2024) (Some "employee123")
           "mass_downloads" world_zeros (fst demo_attack_run)
           (returned demo_attack_run (pd_DataFrame []))).
  - vm_compute. reflexivity.
  - vm_compute. lia.
Defined.

(** X7: [generate_suspicious_events] returns a table of [n] rows ([0] for a
    negative [n]) with the six event columns (none when it has no row), for
    every pattern name, provided the start date is the third day of the
    calendar or later; for [mass_downloads] any start date will do. *)
Theorem generate_suspicious_events_returns
    (rs : RandomSource) (Hrs : RandomSourceSpec rs) (self : DataGenerator)
    (n : Z) (start_date : option datetime.t) (label_user : option string)
    (pattern : string) (w : World rs) :
  start_ok start_date (clock w) 1 ->
  pattern = "mass_downloads"
  \/ 3 <= datetime.ordinal (start_or start_date (clock w) 1) ->
  exists w' df,
    generate_suspicious_events rs self n start_date label_user pattern w
      = (w', Ok df)
    /\ nrows df = Z.to_nat n
    /\ column_names df = (if 0 <? n then event_keys else []).
Proof.
  intros Hok Hpat. unfold generate_suspicious_events.
  rewrite (bind_run _ _ _ _ _ (generator_start_total rs start_date 1 w Hok)).
  unfold gen_logger_info at 1. unfold modify at 1. unfold bind at 1.
  assert (Hv : valid_datetime (start_or start_date (clock w) 1)).
  { destruct start_date as [d|]; [exact Hok|]. destruct Hok as [Hv Hk].
    destruct (datetime_sub_days (clock w) 1 Hv Hk) as (_ & _ & _ & Hv').
    exact Hv'. }
  match goal with
  | |- exists _ _, (if _ then ?f else ?g) ?s = _ /\ _ =>
      assert (Hrun : exists w' rows,
                 (if String.eqb pattern "mass_downloads" then f else g) s
                 = (w', Ok (pd_DataFrame rows))
                 /\ length rows = Z.to_nat n /\ Forall is_event rows)
  end.
  { destruct (String.eqb pattern "mass_downloads") eqn:E.
    - apply (mass_downloads_total rs Hrs). destruct Hv as [Ho _]. exact Ho.
    - apply (generic_suspicious_total rs Hrs); [exact Hv|].
      destruct Hpat as [->|Hord]; [discriminate | exact Hord]. }
  destruct Hrun as (w1 & rows & Hrun & Hlen & Hall).
  exists w1, (pd_DataFrame rows). split; [exact Hrun|].
  destruct (pd_DataFrame_events_shape rows Hall) as [Hn Hcols].
  split; [congruence|]. rewrite Hcols.
  destruct (0 <? n) eqn:E.
  - apply Z.ltb_lt in E. destruct rows; [simpl in Hlen; lia | reflexivity].
  - apply Z.ltb_ge in E. destruct rows; [reflexivity | simpl in Hlen; lia].
Qed.

Lemma generate_suspicious_events_returns_witness :
  exists w' df,
    generate_suspicious_events counter_source DataGenerator_init 3 None None
      "generic" world_zeros = (w', Ok df)
    /\ nrows df = Z.to_nat 3
    /\ column_names df = (if 0 <? 3 then event_keys else []).
Proof.
  apply (generate_suspicious_events_returns counter_source counter_source_spec
           DataGenerator_init 3 None None "generic" world_zeros).
  - split; [exact new_year_2024_valid | vm_compute; split; [discriminate | reflexivity]].
  - right. vm_compute. discriminate.
Defined.

(** ** Feature engineering, column by column *)

Lemma map_outcome_lookup {A B} (g : A -> outcome B) (l : list A) (l' : list B)
    (i : nat) (x : A) :
  map_outcome g l = Ok l' -> l !! i = Some x ->
  exists y, g x = Ok y /\ l' !! i = Some y.
Proof.
  revert l' i. induction l as [|a l IH]; intros l' i H Hi; [discriminate|].
  simpl in H. apply obind_Ok in H as (y & Hy & H).
  apply obind_Ok in H as (ys & Hys & H). apply Ok_inj in H. subst l'.
  destruct i as [|i]; simpl in *.
  - injection Hi as <-. eauto.
  - eapply IH; eauto.
Qed.

Lemma map_outcome_length {A B} (g : A -> outcome B) (l : list A) (l' : list B) :
  map_outcome g l = Ok l' -> length l' = length l.
Proof.
  revert l'. induction l as [|a l IH]; intros l' H; simpl in H.
  - apply Ok_inj in H. subst l'. reflexivity.
  - apply obind_Ok in H as (y & Hy & H).
    apply obind_Ok in H as (ys & Hys & H). apply Ok_inj in H. subst l'.
    simpl. f_equal. apply IH, Hys.
Qed.

Lemma map_outcome_total {A B} (g : A -> outcome B) (l : list A) :
  Forall (fun x => exists y, g x = Ok y) l ->
  exists l', map_outcome g l = Ok l'.
Proof.
  induction 1 as [|x l (y & Hy) _ (l' & IH)]; simpl; [eauto|].
  rewrite Hy, IH. simpl. eauto.
Qed.

Lemma assoc_app {A} c (l k : list (string * A)) :
  assoc c (l ++ k) = match assoc c l with Some v => Some v | None => assoc c k end.
Proof.
  induction l as [|[n v] l IH]; simpl; [reflexivity|].
  destruct (String.eqb c n); [reflexivity | exact IH].
Qed.

Lemma assoc_None_names {A} c (l : list (string * A)) :
  c ∉ map fst l -> assoc c l = None.
Proof.
  induction l as [|[n v] l IH]; simpl; [reflexivity|]. intros H.
  apply not_elem_of_cons in H as [Hne H]. apply String.eqb_neq in Hne.
  rewrite Hne. auto.
Qed.

Lemma clear_of_merge_spec names c n :
  clear_of_merge names c = true -> n ∈ names ->
  c <> n /\ c <> n +:+ "_x" /\ c <> n +:+ "_y".
Proof.
  unfold clear_of_merge. rewrite forallb_forall. intros H Hn.
  apply list_elem_of_In in Hn. apply H in Hn.
  apply andb_true_iff in Hn as [Hn H3]. apply andb_true_iff in Hn as [H1 H2].
  apply negb_true_iff in H1, H2, H3.
  apply String.eqb_neq in H1, H2, H3. auto.
Qed.

(** The merge keeps a column whose name is clear of the aggregates'. *)
Lemma getitem_merge_left left key names stats df' c :
  clear_of_merge names c = true ->
  merge_left left key names stats = Ok df' ->
  getitem df' c = getitem left c.
Proof.
  intros Hc H. unfold merge_left in H. inv_O H.
  unfold getitem. cbn [columns]. rewrite assoc_app.
  set (on_both := fun c0 : string =>
         existsb (String.eqb c0) (column_names left)
         && existsb (String.eqb c0) names).
  assert (Hleft : forall l : list (string * list value),
             assoc c (map (fun c0 => (if on_both (fst c0) then fst c0 +:+ "_x"
                                      else fst c0, snd c0)) l)
             = assoc c l).
  { induction l as [|[n v] l IH]; [reflexivity|]. cbn [map assoc fst snd].
    rewrite IH. destruct (on_both n) eqn:E; [|reflexivity].
    unfold on_both in E. apply andb_true_iff in E as [_ E].
    apply existsb_eqb_elem_of in E.
    destruct (clear_of_merge_spec names c n Hc E) as (H1 & H2 & _).
    apply String.eqb_neq in H1, H2. rewrite H1, H2. reflexivity. }
  fold on_both. rewrite Hleft.
  destruct (assoc c (columns left)) as [col|]; [reflexivity|].
  rewrite assoc_None_names; [reflexivity|].
  rewrite map_fst_imap. intros Hin.
  apply list_elem_of_fmap in Hin as (n & E & Hn).
  destruct (clear_of_merge_spec names c n Hc Hn) as (H1 & _ & H3).
  match type of E with
  | _ = (if ?b then _ else _) => destruct b
  end; congruence.
Qed.

Lemma merge_left_nrows left key names stats df' :
  merge_left left key names stats = Ok df' -> nrows df' = nrows left.
Proof. intros H. unfold merge_left in H. inv_O H. reflexivity. Qed.

(** What [engineer_features] reads and what it writes. *)
Lemma engineer_features_inv (lib : Libraries) df f :
  engineer_features lib df = Ok f ->
  exists times hours dows early late types sizes gt100 gt50 gt10,
    getitem df "access_time" = Ok times
    /\ dt_accessor datetime.hour times = Ok hours
    /\ dt_accessor datetime.weekday times = Ok dows
    /\ map_outcome (lt_scalar 8) hours = Ok early
    /\ map_outcome (gt_scalar 19) hours = Ok late
    /\ getitem df "file_type" = Ok types
    /\ getitem df "file_size_MB" = Ok sizes
    /\ map_outcome (gt_scalar 100) sizes = Ok gt100
    /\ map_outcome (gt_scalar 50) sizes = Ok gt50
    /\ map_outcome (gt_scalar 10) sizes = Ok gt10
    /\ nrows f = nrows df
    /\ getitem f "hour" = Ok hours
    /\ getitem f "dayofweek" = Ok dows
    /\ getitem f "is_weekend"
       = Ok (map (fun v => astype_int (isin [5; 6] v)) dows)
    /\ getitem f "is_after_hours"
       = Ok (zip_with (fun a b => astype_int (a || b)) early late)
    /\ getitem f "file_type_risk"
       = Ok (map (fun v => match v with
                           | VStr s => type_risk s
                           | _ => VNaN
                           end) types)
    /\ getitem f "is_large_file" = Ok (map astype_int gt50)
    /\ getitem f "size_risk_score"
       = Ok (zip_with (fun a bc => size_risk a (fst bc) (snd bc))
                      gt100 (zip gt50 gt10)).
Proof.
  intros H. unfold engineer_features in H. inv_O H.
  pose proof (getitem_setitem_eq _ _ _ _ Hstep1) as G1.
  pose proof (getitem_setitem_eq _ _ _ _ Hstep4) as G4.
  pose proof (getitem_setitem_eq _ _ _ _ Hstep6) as G6.
  pose proof (getitem_setitem_eq _ _ _ _ Hstep10) as G10.
  pose proof (getitem_setitem_eq _ _ _ _ Hstep14) as G14.
  pose proof (getitem_setitem_eq _ _ _ _ Hstep17) as G17.
  pose proof (getitem_setitem_eq _ _ _ _ Hstep22) as G22.
  pose proof (fun c Hc => getitem_setitem_ne _ _ c _ _ Hc Hstep1) as N1.
  pose proof (fun c Hc => getitem_setitem_ne _ _ c _ _ Hc Hstep4) as N4.
  pose proof (fun c Hc => getitem_setitem_ne _ _ c _ _ Hc Hstep6) as N6.
  pose proof (fun c Hc => getitem_setitem_ne _ _ c _ _ Hc Hstep10) as N10.
  pose proof (fun c Hc => getitem_merge_left _ _ _ _ _ c Hc Hstep12) as N12.
  pose proof (fun c Hc => getitem_setitem_ne _ _ c _ _ Hc Hstep14) as N14.
  pose proof (fun c Hc => getitem_setitem_ne _ _ c _ _ Hc Hstep17) as N17.
  pose proof (fun c Hc => getitem_setitem_ne _ _ c _ _ Hc Hstep22) as N22.
  rewrite N1 in Hstep2 by discriminate. rewrite Hstep in Hstep2.
  apply Ok_inj in Hstep2. subst a2.
  rewrite G4 in Hstep5. apply Ok_inj in Hstep5. subst a5.
  rewrite N6, N4, G1 in Hstep7 by discriminate.
  apply Ok_inj in Hstep7. subst a7.
  rewrite N12, N10, N6, N4, N1 in Hstep13 by (reflexivity || discriminate).
  rewrite N14, N12, N10, N6, N4, N1 in Hstep15 by (reflexivity || discriminate).
  rewrite N17, N14, N12, N10, N6, N4, N1 in Hstep18 by (reflexivity || discriminate).
  rewrite Hstep15 in Hstep18. apply Ok_inj in Hstep18. subst a18.
  rewrite Hstep16 in Hstep20. apply Ok_inj in Hstep20. subst a20.
  exists a, a0, a3, a8, a9, a13, a15, a19, a16, a21.
  repeat (split; [assumption|]).
  split.
  { apply setitem_Ok in Hstep1 as (_ & E1 & _), Hstep4 as (_ & E4 & _),
      Hstep6 as (_ & E6 & _), Hstep10 as (_ & E10 & _),
      Hstep14 as (_ & E14 & _), Hstep17 as (_ & E17 & _),
      Hstep22 as (_ & E22 & _).
    apply merge_left_nrows in Hstep12. congruence. }
  split.
  { rewrite N22, N17, N14, N12, N10, N6, N4 by (reflexivity || discriminate).
    exact G1. }
  split.
  { rewrite N22, N17, N14, N12, N10, N6 by (reflexivity || discriminate).
    exact G4. }
  split.
  { rewrite N22, N17, N14, N12, N10 by (reflexivity || discriminate).
    exact G6. }
  split.
  { rewrite N22, N17, N14, N12 by (reflexivity || discriminate). exact G10. }
  split.
  { rewrite N22, N17 by discriminate. exact G14. }
  split.
  { rewrite N22 by discriminate. exact G17. }
  exact G22.
Qed.

Lemma Qlt_bool_inject_Z (a b : Z) : Qlt_bool (inject_Z a) (inject_Z b) = (a <? b).
Proof.
  unfold Qlt_bool. destruct (a <? b) eqn:E.
  - apply Z.ltb_lt in E. apply negb_true_iff.
    destruct (Qle_bool (inject_Z b) (inject_Z a)) eqn:F; [|reflexivity].
    apply Qle_bool_iff in F. rewrite <- Zle_Qle in F. lia.
  - apply Z.ltb_ge in E. apply negb_false_iff.
    apply Qle_bool_iff. rewrite <- Zle_Qle. exact E.
Qed.

Lemma cell_of_column df c col i v :
  getitem df c = Ok col -> cell df c i = Some v -> col !! i = Some v.
Proof. intros Hget Hcell. rewrite (cell_getitem _ _ _ i Hget) in Hcell. exact Hcell. Qed.

Lemma dt_accessor_lookup (g : datetime.t -> Z) col out i t :
  dt_accessor g col = Ok out -> col !! i = Some (VTime t) ->
  out !! i = Some (VInt (g t)).
Proof.
  intros H Hi. unfold dt_accessor in H.
  destruct (map_outcome_lookup _ _ _ _ _ H Hi) as (y & Hy & Hout).
  apply Ok_inj in Hy. subst y. exact Hout.
Qed.

(** X8: what [engineer_features] computes for a row, from that row alone.
    A row accessed at [t] gets [hour] and [dayofweek] of [t] (Monday is 0),
    [is_weekend] 1 on Saturday and Sunday, and [is_after_hours] 1 before
    08:00 and from 20:00 on; a row of [q] MB gets [is_large_file] 1 above
    50 MB and [size_risk_score] 10, 7, 4 or 1 with the thresholds 100, 50
    and 10 MB, each excluded; a row of file type [s] gets the sensitivity of
    [s], or a missing value for an unknown type.  No later step of the
    function, the merge of the per-user aggregates included, changes these
    cells. *)
Theorem engineer_features_row
    (lib : Libraries) (df f : DataFrame) (i : nat) :
  engineer_features lib df = Ok f ->
  (forall t, cell df "access_time" i = Some (VTime t) ->
     cell f "hour" i = Some (VInt (datetime.hour t))
     /\ cell f "dayofweek" i = Some (VInt (datetime.weekday t))
     /\ cell f "is_weekend" i
        = Some (astype_int ((datetime.weekday t =? 5) || (datetime.weekday t =? 6)))
     /\ cell f "is_after_hours" i
        = Some (astype_int ((datetime.hour t <? 8) || (19 <? datetime.hour t))))
  /\ (forall q, cell df "file_size_MB" i = Some (VFloat q) ->
        cell f "is_large_file" i = Some (astype_int (Qlt_bool 50 q))
        /\ cell f "size_risk_score" i = Some (VInt (size_score q)))
  /\ (forall s, cell df "file_type" i = Some (VStr s) ->
        cell f "file_type_risk" i = Some (type_risk s)).
Proof.
  intros H.
  apply engineer_features_inv in H
    as (times & hours & dows & early & late & types & sizes & gt100 & gt50 & gt10
        & Gt & Hh & Hd & He & Hl & Gty & Gs & H100 & H50 & H10 & Hn
        & Fh & Fd & Fw & Fa & Fr & Fl & Fs).
  split; [|split].
  - intros t Ht. apply (cell_of_column _ _ _ _ _ Gt) in Ht.
    pose proof (dt_accessor_lookup _ _ _ _ _ Hh Ht) as Hhi.
    pose proof (dt_accessor_lookup _ _ _ _ _ Hd Ht) as Hdi.
    rewrite (cell_getitem _ _ _ i Fh), (cell_getitem _ _ _ i Fd),
      (cell_getitem _ _ _ i Fw), (cell_getitem _ _ _ i Fa).
    split; [exact Hhi|]. split; [exact Hdi|]. split.
    + rewrite lookup_map, Hdi. cbn. rewrite orb_false_r. reflexivity.
    + destruct (map_outcome_lookup _ _ _ _ _ He Hhi) as (e & Ee & Hei).
      destruct (map_outcome_lookup _ _ _ _ _ Hl Hhi) as (l & El & Hli).
      rewrite lookup_zip_with, Hei, Hli. cbn.
      cbn in Ee, El. apply Ok_inj in Ee, El. subst e l.
      change 8%Q with (inject_Z 8). change 19%Q with (inject_Z 19).
      rewrite !Qlt_bool_inject_Z. reflexivity.
  - intros q Hq. apply (cell_of_column _ _ _ _ _ Gs) in Hq.
    rewrite (cell_getitem _ _ _ i Fl), (cell_getitem _ _ _ i Fs).
    destruct (map_outcome_lookup _ _ _ _ _ H100 Hq) as (b100 & E100 & Hi100).
    destruct (map_outcome_lookup _ _ _ _ _ H50 Hq) as (b50 & E50 & Hi50).
    destruct (map_outcome_lookup _ _ _ _ _ H10 Hq) as (b10 & E10 & Hi10).
    cbn in E100, E50, E10. apply Ok_inj in E100, E50, E10. subst b100 b50 b10.
    split.
    + rewrite lookup_map, Hi50. reflexivity.
    + rewrite lookup_zip_with, Hi100. cbn.
      rewrite lookup_zip_with, Hi50, Hi10. reflexivity.
  - intros s Hs. apply (cell_of_column _ _ _ _ _ Gty) in Hs.
    rewrite (cell_getitem _ _ _ i Fr), lookup_map, Hs. reflexivity.
Qed.

Lemma engineer_features_row_witness :
  (forall t, cell small_batch "access_time" 3 = Some (VTime t) ->
     cell small_features "hour" 3 = Some (VInt (datetime.hour t))
     /\ cell small_features "dayofweek" 3 = Some (VInt (datetime.weekday t))
     /\ cell small_features "is_weekend" 3
        = Some (astype_int ((datetime.weekday t =? 5) || (datetime.weekday t =? 6)))
     /\ cell small_features "is_after_hours" 3
        = Some (astype_int ((datetime.hour t <? 8) || (19 <? datetime.hour t))))
  /\ (forall q, cell small_batch "file_size_MB" 3 = Some (VFloat q) ->
        cell small_features "is_large_file" 3 = Some (astype_int (Qlt_bool 50 q))
        /\ cell small_features "size_risk_score" 3 = Some (VInt (size_score q)))
  /\ (forall s, cell small_batch "file_type" 3 = Some (VStr s) ->
        cell small_features "file_type_risk" 3 = Some (type_risk s)).
Proof.
  apply (engineer_features_row stub_libraries small_batch small_features 3).
  vm_compute. reflexivity.
Defined.

(** ** The generators and the features together *)

Lemma mass_download_hour (ord off : Z) (td : timedelta.t) (t : datetime.t) :
  0 <= off < 180 ->
  timedelta.make 0 0 off = Ok td ->
  datetime.add (datetime.mk ord 2 0 0 0) td = Ok t ->
  2 <= datetime.hour t <= 4.
Proof.
  intros Hoff Htd Ht. unfold timedelta.make in Htd.
  destruct (Z.abs _ <=? _); [|discriminate]. injection Htd as <-.
  unfold datetime.add in Ht.
  cbn [timedelta.days timedelta.seconds timedelta.microseconds
       datetime.ordinal datetime.hour datetime.minute datetime.second
       datetime.microsecond] in Ht.
  destruct (_ && _); [|discriminate]. injection Ht as <-.
  cbn [datetime.hour]. Z.div_mod_to_equations. lia.
Qed.

Lemma mass_downloads_hours (rs : RandomSource) (Hrs : RandomSourceSpec rs)
    self n start label (w w' : World rs) df :
  _generate_mass_downloads rs self n start label w = (w', Ok df) ->
  exists rows,
    df = pd_DataFrame rows
    /\ Forall (fun r => exists id u ft sz t,
                 r = event id u ft sz t "download"
                 /\ 2 <= datetime.hour t <= 4) rows.
Proof.
  unfold _generate_mass_downloads. intros H. inv_M H.
  apply lift_outcome_Ok in Hrun0 as [-> Hbase].
  unfold datetime.replace in Hbase. simpl in Hbase. injection Hbase as <-.
  eexists. split; [reflexivity|].
  eapply for_range_Forall; [|eassumption].
  clear -Hrs. intros s s' r H. inv_M H.
  apply (np_random_randint_range rs Hrs) in Hrun.
  apply lift_outcome_Ok in Hrun0 as [-> Htd].
  apply lift_outcome_Ok in Hrun1 as [-> Ht].
  do 5 eexists. split; [reflexivity|].
  eapply mass_download_hour; eassumption.
Qed.

(** X9: feature engineering marks every suspicious event as after hours.
    On the table that [generate_suspicious_events] returns,
    [engineer_features] gives every row [is_after_hours] 1: the hour is 2,
    3 or 4 for the pattern [mass_downloads] and 3 for any other pattern. *)
Theorem suspicious_events_are_after_hours
    (rs : RandomSource) (Hrs : RandomSourceSpec rs) (lib : Libraries)
    (self : DataGenerator) (n : Z) (start_date : option datetime.t)
    (label_user : option string) (pattern : string)
    (w w' : World rs) (df f : DataFrame) :
  start_ok start_date (clock w) 1 ->
  generate_suspicious_events rs self n start_date label_user pattern w
    = (w', Ok df) ->
  engineer_features lib df = Ok f ->
  forall i, (i < nrows df)%nat ->
    cell f "is_after_hours" i = Some (VInt 1)
    /\ exists h, cell f "hour" i = Some (VInt h)
                 /\ 2 <= h <= 4
                 /\ (pattern <> "mass_downloads" -> h = 3).
Proof.
  intros Hok H Hf i Hi.
  destruct (engineer_features_row lib df f i Hf) as (Htime & _ & _).
  apply (suspicious_events_from_start rs _ _ _ _ _ _ _ _ Hok) in H as (Hv & w1 & H).
  assert (Hrow : exists t, cell df "access_time" i = Some (VTime t)
                           /\ 2 <= datetime.hour t <= 4
                           /\ (pattern <> "mass_downloads" -> datetime.hour t = 3)).
  { destruct (String.eqb pattern "mass_downloads") eqn:E.
    - apply String.eqb_eq in E.
      apply (mass_downloads_hours rs Hrs) in H as (rows & -> & Hrows).
      destruct (rows_of_frame _ rows i Hrows Hi)
        as (r & Hr & id & u & ft & sz & t & -> & Hh).
      assert (Hev : Forall is_event rows).
      { eapply events_weaken; [|exact Hrows].
        intros r (id' & u' & ft' & sz' & t' & -> & _). do 6 eexists; reflexivity. }
      destruct (cell_event rows i _ _ _ _ _ _ Hev Hr) as (_ & _ & _ & _ & Ct & _).
      exists t. split; [exact Ct|]. split; [exact Hh | congruence].
    - apply (generic_suspicious_rows_full rs Hrs _ _ _ _ _ _ _ Hv) in H
        as (rows & -> & Hrows).
      destruct (rows_of_frame _ rows i Hrows Hi)
        as (r & Hr & id & u & ft & sz & k & m & -> & _).
      assert (Hev : Forall is_event rows).
      { eapply events_weaken; [|exact Hrows]. apply generic_event_row_is_event. }
      destruct (cell_event rows i _ _ _ _ _ _ Hev Hr) as (_ & _ & _ & _ & Ct & _).
      eexists. split; [exact Ct|]. cbn. split; [lia | reflexivity]. }
  destruct Hrow as (t & Ct & Hh & H3).
  destruct (Htime t Ct) as (Fh & _ & _ & Fa).
  split.
  - rewrite Fa. destruct (datetime.hour t <? 8) eqn:E; [reflexivity|].
    apply Z.ltb_ge in E. lia.
  - exists (datetime.hour t). auto.
Qed.

Lemma suspicious_events_are_after_hours_witness :
  cell demo_mass_features "is_after_hours" 2 = Some (VInt 1)
  /\ exists h, cell demo_mass_features "hour" 2 = Some (VInt h)
               /\ 2 <= h <= 4
               /\ ("mass_downloads" <> "mass_downloads" -> h = 3).
Proof.
  apply (suspicious_events_are_after_hours counter_source counter_source_spec
           stub_libraries DataGenerator_init 4 (Some new_year_2024) None
           "mass_downloads" world_zeros (fst demo_mass_run)
           (returned demo_mass_run (pd_DataFrame [])) demo_mass_features).
  - exact new_year_2024_valid.
  - vm_compute. reflexivity.
  - vm_compute. reflexivity.
  - vm_compute. lia.
Defined.

(** ** Feature engineering returns *)

Lemma getitem_elem_of df c col :
  getitem df c = Ok col -> (c, col) ∈ columns df.
Proof.
  unfold getitem. induction (columns df) as [|[n v] l IH]; simpl; [discriminate|].
  destruct (String.eqb c n) eqn:E.
  - apply String.eqb_eq in E. subst n. intros H. injection H as <-.
    apply list_elem_of_here.
  - intros H. apply list_elem_of_further. exact (IH H).
Qed.

Lemma getitem_column_name df c col :
  getitem df c = Ok col -> c ∈ column_names df.
Proof.
  intros H. apply getitem_elem_of in H. unfold column_names.
  apply list_elem_of_fmap. exists (c, col). auto.
Qed.

Lemma getitem_length df c col :
  rectangular df -> getitem df c = Ok col -> length col = nrows df.
Proof.
  intros Hrect H. apply getitem_elem_of in H.
  unfold rectangular in Hrect. rewrite Forall_forall in Hrect.
  exact (Hrect _ H).
Qed.

Lemma group_cells_Forall (P : value -> Prop) k keys col :
  Forall P col -> Forall P (group_cells k keys col).
Proof.
  intros H. unfold group_cells. rewrite Forall_forall in *.
  intros v Hv. apply list_elem_of_fmap in Hv as ([k' v'] & -> & Hin).
  apply list_elem_of_In, filter_In in Hin as [Hin _].
  apply H. apply list_elem_of_In. eapply in_combine_r. exact Hin.
Qed.

Lemma user_stats_total (lib : Libraries) d users sizes actions :
  getitem d "user_id" = Ok users ->
  getitem d "file_size_MB" = Ok sizes ->
  getitem d "action" = Ok actions ->
  Forall (fun v => exists q, v = VFloat q) sizes ->
  exists stats, user_stats lib d = Ok stats.
Proof.
  intros Hu Hs Ha Hsz. unfold user_stats. rewrite Hu, Hs, Ha. cbn [obind].
  apply map_outcome_total. apply Forall_forall. intros k _.
  destruct (map_outcome_total to_numeric (group_cells k users sizes)) as [xs Hxs].
  { eapply Forall_impl; [apply group_cells_Forall; exact Hsz|].
    intros v [q ->]. simpl. eauto. }
  rewrite Hxs. cbn [obind]. eauto.
Qed.

Lemma elem_of_set_assoc_names {A} c c' (x : A) l :
  c' ∈ map fst l -> c' ∈ map fst (set_assoc c x l).
Proof.
  rewrite names_set_assoc. destruct (existsb _ _); [auto|].
  intros H. apply elem_of_app. auto.
Qed.

Lemma setitem_keeps_names df c col df' c' :
  setitem df c col = Ok df' -> c' ∈ column_names df -> c' ∈ column_names df'.
Proof.
  intros H Hc. apply setitem_Ok in H as (_ & _ & Hcols).
  unfold column_names in *. rewrite Hcols. apply elem_of_set_assoc_names, Hc.
Qed.

(** With no aggregate's name among the columns of the batch, the engineered
    table has the five aggregates under their own names. *)
Lemma engineer_features_aggregates (lib : Libraries) df f c :
  NoDup (column_names df ++ user_stats_columns) ->
  engineer_features lib df = Ok f ->
  c ∈ user_stats_columns -> c ∈ column_names f.
Proof.
  intros Hnd H Hc. unfold engineer_features in H. inv_O H.
  apply (setitem_NoDup_app _ "hour" _ _ user_stats_columns
           (not_in_user_stats_columns "hour" eq_refl) Hstep1) in Hnd.
  apply (setitem_NoDup_app _ "dayofweek" _ _ user_stats_columns
           (not_in_user_stats_columns "dayofweek" eq_refl) Hstep4) in Hnd.
  apply (setitem_NoDup_app _ "is_weekend" _ _ user_stats_columns
           (not_in_user_stats_columns "is_weekend" eq_refl) Hstep6) in Hnd.
  apply (setitem_NoDup_app _ "is_after_hours" _ _ user_stats_columns
           (not_in_user_stats_columns "is_after_hours" eq_refl) Hstep10) in Hnd.
  pose proof (merge_left_names _ _ _ _ Hnd Hstep12) as Hnames.
  apply (setitem_keeps_names _ _ _ _ _ Hstep22).
  apply (setitem_keeps_names _ _ _ _ _ Hstep17).
  apply (setitem_keeps_names _ _ _ _ _ Hstep14).
  rewrite Hnames. apply elem_of_app. auto.
Qed.

Lemma engineer_features_total (lib : Libraries) df :
  event_table df -> exists f, engineer_features lib df = Ok f.
Proof.
  intros (Hrect & (times & Gt & Ht) & (sizes & Gs & Hs) & (users & Gu & Hu)
          & (actions & Ga) & (types & Gty)).
  pose proof (getitem_length _ _ _ Hrect Gt) as Lt.
  pose proof (getitem_length _ _ _ Hrect Gs) as Ls.
  pose proof (getitem_length _ _ _ Hrect Gty) as Lty.
  unfold engineer_features. rewrite Gt. cbn [obind].
  destruct (map_outcome_total
              (fun v => match v with
                        | VTime t => Ok (VInt (datetime.hour t))
                        | VNaN => Ok VNaN
                        | _ => Raise (AttributeError
                                 "Can only use .dt accessor with datetimelike values")
                        end) times) as [hours Hh].
  { eapply Forall_impl; [exact Ht|]. intros v [t ->]. eauto. }
  destruct (map_outcome_total
              (fun v => match v with
                        | VTime t => Ok (VInt (datetime.weekday t))
                        | VNaN => Ok VNaN
                        | _ => Raise (AttributeError
                                 "Can only use .dt accessor with datetimelike values")
                        end) times) as [dows Hd].
  { eapply Forall_impl; [exact Ht|]. intros v [t ->]. eauto. }
  fold (dt_accessor datetime.hour times) in Hh.
  fold (dt_accessor datetime.weekday times) in Hd.
  rewrite Hh. cbn [obind].
  pose proof (map_outcome_length _ _ _ Hh) as Lh.
  pose proof (map_outcome_length _ _ _ Hd) as Ld.
  destruct (setitem_total df "hour" hours ltac:(congruence)) as (d1 & S1 & N1).
  pose proof (fun c Hc => getitem_setitem_ne _ _ c _ _ Hc S1) as K1.
  rewrite S1. cbn [obind].
  rewrite K1, Gt by discriminate.
  cbn [obind]. rewrite Hd. cbn [obind].
  destruct (setitem_total d1 "dayofweek" dows ltac:(congruence)) as (d2 & S2 & N2).
  pose proof (fun c Hc => getitem_setitem_ne _ _ c _ _ Hc S2) as K2.
  rewrite S2. cbn [obind].
  rewrite (getitem_setitem_eq _ _ _ _ S2). cbn [obind].
  destruct (setitem_total d2 "is_weekend"
              (map (fun v => astype_int (isin [5; 6] v)) dows)
              ltac:(rewrite length_map; congruence)) as (d3 & S3 & N3).
  pose proof (fun c Hc => getitem_setitem_ne _ _ c _ _ Hc S3) as K3.
  rewrite S3. cbn [obind].
  rewrite K3, K2, (getitem_setitem_eq _ _ _ _ S1) by discriminate.
  cbn [obind].
  assert (Hint : Forall (fun v => exists z, v = VInt z) hours).
  { apply Forall_forall. intros v Hv.
    apply list_elem_of_lookup in Hv as [i Hi].
    assert (Hlt : (i < length times)%nat).
    { rewrite <- Lh. eapply lookup_lt_Some. exact Hi. }
    destruct (lookup_lt_is_Some_2 times i Hlt) as [x Hx].
    assert (Hxt : exists t, x = VTime t).
    { rewrite Forall_forall in Ht. apply Ht.
      eapply list_elem_of_lookup_2. exact Hx. }
    destruct Hxt as [t ->].
    rewrite (dt_accessor_lookup _ _ _ _ _ Hh Hx) in Hi. injection Hi as <-. eauto. }
  destruct (map_outcome_total (lt_scalar 8) hours) as [early He].
  { eapply Forall_impl; [exact Hint|]. intros v [z ->]. cbn. eauto. }
  destruct (map_outcome_total (gt_scalar 19) hours) as [late Hl].
  { eapply Forall_impl; [exact Hint|]. intros v [z ->]. cbn. eauto. }
  rewrite He. cbn [obind]. rewrite Hl. cbn [obind].
  pose proof (map_outcome_length _ _ _ He) as Le.
  pose proof (map_outcome_length _ _ _ Hl) as Ll.
  destruct (setitem_total d3 "is_after_hours"
              (zip_with (fun a b => astype_int (a || b)) early late)
              ltac:(rewrite length_zip_with; lia)) as (d4 & S4 & N4).
  pose proof (fun c Hc => getitem_setitem_ne _ _ c _ _ Hc S4) as K4.
  rewrite S4. cbn [obind].
  assert (K : forall c, c <> "hour" -> c <> "dayofweek" -> c <> "is_weekend" ->
                        c <> "is_after_hours" -> getitem d4 c = getitem df c).
  { intros c H1 H2 H3 H4.
    rewrite K4, K3, K2, K1 by assumption. reflexivity. }
  destruct (user_stats_total lib d4 users sizes actions) as [stats Hst];
    try (rewrite K by discriminate; assumption); [exact Hs|].
  rewrite Hst. cbn [obind].
  assert (Hm : exists d5, merge_left d4 "user_id" user_stats_columns stats = Ok d5).
  { unfold merge_left. rewrite K by discriminate. rewrite Gu. cbn [obind]. eauto. }
  destruct Hm as [d5 Hm]. rewrite Hm. cbn [obind].
  pose proof (merge_left_nrows _ _ _ _ _ Hm) as N5.
  rewrite (getitem_merge_left _ _ user_stats_columns _ _ "file_type" eq_refl Hm).
  rewrite K, Gty by discriminate.
  cbn [obind].
  match goal with
  | |- context [setitem d5 "file_type_risk" ?col] =>
      destruct (setitem_total d5 "file_type_risk" col
                  ltac:(rewrite length_map; congruence)) as (d6 & S6 & N6)
  end.
  pose proof (fun c Hc => getitem_setitem_ne _ _ c _ _ Hc S6) as K6.
  rewrite S6. cbn [obind].
  assert (Gs6 : getitem d6 "file_size_MB" = Ok sizes).
  { rewrite K6 by discriminate.
    rewrite (getitem_merge_left _ _ user_stats_columns _ _ "file_size_MB" eq_refl Hm).
    rewrite K by discriminate. exact Gs. }
  rewrite Gs6. cbn [obind].
  destruct (map_outcome_total (gt_scalar 50) sizes) as [gt50 H50].
  { eapply Forall_impl; [exact Hs|]. intros v [q ->]. cbn. eauto. }
  destruct (map_outcome_total (gt_scalar 100) sizes) as [gt100 H100].
  { eapply Forall_impl; [exact Hs|]. intros v [q ->]. cbn. eauto. }
  destruct (map_outcome_total (gt_scalar 10) sizes) as [gt10 H10].
  { eapply Forall_impl; [exact Hs|]. intros v [q ->]. cbn. eauto. }
  pose proof (map_outcome_length _ _ _ H50) as L50.
  pose proof (map_outcome_length _ _ _ H100) as L100.
  pose proof (map_outcome_length _ _ _ H10) as L10.
  rewrite H50. cbn [obind].
  destruct (setitem_total d6 "is_large_file" (map astype_int gt50)
              ltac:(rewrite length_map; congruence)) as (d7 & S7 & N7).
  pose proof (fun c Hc => getitem_setitem_ne _ _ c _ _ Hc S7) as K7.
  rewrite S7. cbn [obind].
  rewrite K7, Gs6 by discriminate.
  cbn [obind]. rewrite H100. cbn [obind]. rewrite H50. cbn [obind].
  rewrite H10. cbn [obind].
  match goal with
  | |- context [setitem d7 "size_risk_score" ?col] =>
      destruct (setitem_total d7 "size_risk_score" col) as (d8 & S8 & N8)
  end.
  { rewrite length_zip_with, length_zip_with. lia. }
  rewrite S8. cbn [obind]. eauto.
Qed.

Lemma engineer_features_keeps (lib : Libraries) df f c :
  engineer_features lib df = Ok f ->
  c ∉ row_features -> clear_of_merge user_stats_columns c = true ->
  getitem f c = getitem df c.
Proof.
  intros H Hc Hm. unfold engineer_features in H. inv_O H.
  unfold row_features in Hc.
  apply not_elem_of_cons in Hc as [C1 Hc]. apply not_elem_of_cons in Hc as [C2 Hc].
  apply not_elem_of_cons in Hc as [C3 Hc]. apply not_elem_of_cons in Hc as [C4 Hc].
  apply not_elem_of_cons in Hc as [C5 Hc]. apply not_elem_of_cons in Hc as [C6 Hc].
  apply not_elem_of_cons in Hc as [C7 _].
  rewrite (getitem_setitem_ne _ _ c _ _ C7 Hstep22),
    (getitem_setitem_ne _ _ c _ _ C6 Hstep17),
    (getitem_setitem_ne _ _ c _ _ C5 Hstep14),
    (getitem_merge_left _ _ _ _ _ c Hm Hstep12),
    (getitem_setitem_ne _ _ c _ _ C4 Hstep10),
    (getitem_setitem_ne _ _ c _ _ C3 Hstep6),
    (getitem_setitem_ne _ _ c _ _ C2 Hstep4),
    (getitem_setitem_ne _ _ c _ _ C1 Hstep1).
  reflexivity.
Qed.

Ltac not_a_row_feature :=
  let Hx := fresh "Hx" in
  unfold row_features; intros Hx;
  repeat (apply elem_of_cons in Hx as [Hx|Hx]; [discriminate|]);
  apply elem_of_nil in Hx; exact Hx.

Lemma engineer_features_reads (lib : Libraries) df f :
  engineer_features lib df = Ok f ->
  exists users actions,
    getitem df "user_id" = Ok users /\ getitem df "action" = Ok actions.
Proof.
  intros H. unfold engineer_features in H. inv_O H.
  unfold user_stats in Hstep11. inv_O Hstep11.
  pose proof (fun c Hc => getitem_setitem_ne _ _ c _ _ Hc Hstep1) as N1.
  pose proof (fun c Hc => getitem_setitem_ne _ _ c _ _ Hc Hstep4) as N4.
  pose proof (fun c Hc => getitem_setitem_ne _ _ c _ _ Hc Hstep6) as N6.
  pose proof (fun c Hc => getitem_setitem_ne _ _ c _ _ Hc Hstep10) as N10.
  match goal with
  | Hu : getitem a10 "user_id" = Ok ?u, Ha : getitem a10 "action" = Ok ?a |- _ =>
      rewrite N10, N6, N4, N1 in Hu by discriminate;
      rewrite N10, N6, N4, N1 in Ha by discriminate;
      exists u, a; auto
  end.
Qed.

(** With no aggregate's name among the columns of the batch, the engineered
    table has every column the pipeline is built over. *)
Lemma engineer_features_pipeline_columns (lib : Libraries)
    (self : AnomalyDetector lib) df f :
  NoDup (column_names df ++ user_stats_columns) ->
  engineer_features lib df = Ok f ->
  forall c, c ∈ pipeline_columns lib self -> c ∈ column_names f.
Proof.
  intros Hnd Hf.
  pose proof (engineer_features_inv lib df f Hf)
    as (times & hours & dows & early & late & types & sizes & gt100 & gt50 & gt10
        & Gt & Hh & Hd & He & Hl & Gty & Gs & H100 & H50 & H10 & Hn
        & Fh & Fd & Fw & Fa & Fr & Fl & Fs).
  destruct (engineer_features_reads lib df f Hf) as (users & actions & Gu & Ga).
  assert (Hkeep : forall c col,
             getitem df c = Ok col -> c ∉ row_features ->
             clear_of_merge user_stats_columns c = true -> c ∈ column_names f).
  { intros c col G H1 H2. apply (getitem_column_name f c col).
    rewrite (engineer_features_keeps lib df f c Hf H1 H2). exact G. }
  assert (Hagg : forall c, c ∈ user_stats_columns -> c ∈ column_names f).
  { intros c. apply (engineer_features_aggregates lib df f c Hnd Hf). }
  intros c Hc. unfold pipeline_columns in Hc. cbn in Hc.
  apply elem_of_cons in Hc as [->|Hc].
  { apply (Hkeep _ _ Gty); [not_a_row_feature | reflexivity]. }
  apply elem_of_cons in Hc as [->|Hc].
  { apply (Hkeep _ _ Ga); [not_a_row_feature | reflexivity]. }
  apply elem_of_cons in Hc as [->|Hc].
  { apply (Hkeep _ _ Gu); [not_a_row_feature | reflexivity]. }
  apply elem_of_cons in Hc as [->|Hc].
  { apply (Hkeep _ _ Gs); [not_a_row_feature | reflexivity]. }
  apply elem_of_cons in Hc as [->|Hc]; [exact (getitem_column_name _ _ _ Fh)|].
  apply elem_of_cons in Hc as [->|Hc]; [exact (getitem_column_name _ _ _ Fd)|].
  apply elem_of_cons in Hc as [->|Hc]; [exact (getitem_column_name _ _ _ Fw)|].
  apply elem_of_cons in Hc as [->|Hc]; [exact (getitem_column_name _ _ _ Fa)|].
  apply elem_of_cons in Hc as [->|Hc]; [exact (getitem_column_name _ _ _ Fr)|].
  apply elem_of_cons in Hc as [->|Hc]; [exact (getitem_column_name _ _ _ Fl)|].
  apply elem_of_cons in Hc as [->|Hc]; [exact (getitem_column_name _ _ _ Fs)|].
  apply elem_of_cons in Hc as [->|Hc].
  { apply Hagg. unfold user_stats_columns. apply list_elem_of_here. }
  apply elem_of_cons in Hc as [->|Hc].
  { apply Hagg. unfold user_stats_columns.
    apply list_elem_of_further, list_elem_of_here. }
  apply elem_of_cons in Hc as [->|Hc].
  { apply Hagg. unfold user_stats_columns.
    do 4 apply list_elem_of_further. apply list_elem_of_here. }
  apply elem_of_nil in Hc. contradiction.
Qed.


Lemma small_batch_event_table : event_table small_batch.
Proof.
  split; [|split; [|split; [|split; [|split]]]].
  - unfold rectangular. repeat constructor.
  - eexists. split; [reflexivity|]. repeat constructor; eexists; reflexivity.
  - eexists. split; [reflexivity|]. repeat constructor; eexists; reflexivity.
  - eexists. split; [reflexivity|]. repeat constructor; eexists; reflexivity.
  - eexists. reflexivity.
  - eexists. reflexivity.
Defined.


(** X11: [engineer_features] leaves the batch as it is, apart from what it
    adds: the engineered table has the rows of the batch, and every column
    other than the seven row features, whose name is no aggregate's name
    (with or without the suffix [_x] or [_y] of a merge), is in the
    engineered table what it is in the batch: kept cell for cell, or absent
    from both. *)
Theorem engineer_features_keeps_input
    (lib : Libraries) (df f : DataFrame) :
  engineer_features lib df = Ok f ->
  nrows f = nrows df
  /\ forall c, c ∉ row_features ->
       clear_of_merge user_stats_columns c = true ->
       getitem f c = getitem df c.
Proof.
  intros H. split.
  - apply engineer_features_inv in H
      as (times & hours & dows & early & late & types & sizes & gt100 & gt50 & gt10
          & _ & _ & _ & _ & _ & _ & _ & _ & _ & _ & Hn & _).
    exact Hn.
  - intros c H1 H2. exact (engineer_features_keeps lib df f c H H1 H2).
Qed.

Lemma engineer_features_keeps_input_witness :
  nrows small_features = nrows small_batch
  /\ forall c, c ∉ row_features ->
       clear_of_merge user_stats_columns c = true ->
       getitem small_features c = getitem small_batch c.
Proof.
  apply (engineer_features_keeps_input stub_libraries small_batch small_features).
  vm_compute. reflexivity.
Defined.

(** ** From the generators to the features *)

Lemma events_column (rows : list record) (c : string) :
  Forall is_event rows -> rows <> [] -> c ∈ event_keys ->
  getitem (pd_DataFrame rows) c
  = Ok (map (fun r => default VNaN (assoc c r)) rows).
Proof.
  intros Hall Hne Hc. unfold getitem, pd_DataFrame. cbn [columns].
  rewrite (records_columns_events rows Hall Hne).
  unfold event_keys in *.
  repeat (apply elem_of_cons in Hc as [->|Hc]; [reflexivity|]).
  apply elem_of_nil in Hc. contradiction.
Qed.

Lemma events_table (rows : list record) :
  Forall is_event rows -> rows <> [] ->
  event_table (pd_DataFrame rows)
  /\ NoDup (column_names (pd_DataFrame rows) ++ user_stats_columns).
Proof.
  intros Hall Hne.
  assert (Hkeys : forall c, c ∈ event_keys ->
             getitem (pd_DataFrame rows) c
             = Ok (map (fun r => default VNaN (assoc c r)) rows)).
  { intros c. apply events_column; assumption. }
  assert (Hcol : forall (c : string) (P : value -> Prop),
             (forall id u ft sz t a, P (default VNaN (assoc c (event id u ft sz t a)))) ->
             Forall P (map (fun r => default VNaN (assoc c r)) rows)).
  { intros c P HP. apply Forall_map. eapply Forall_impl; [exact Hall|].
    intros r (id & u & ft & sz & t & a & ->). apply HP. }
  split.
  - split; [|split; [|split; [|split; [|split]]]].
    + unfold rectangular, pd_DataFrame. cbn [columns nrows].
      apply Forall_map. apply Forall_forall. intros c _. cbn [snd].
      apply length_map.
    + eexists. split; [apply Hkeys; unfold event_keys;
        repeat (first [apply list_elem_of_here | apply list_elem_of_further])|].
      apply Hcol. intros. cbn. eauto.
    + eexists. split; [apply Hkeys; unfold event_keys;
        repeat (first [apply list_elem_of_here | apply list_elem_of_further])|].
      apply Hcol. intros. cbn. eauto.
    + eexists. split; [apply Hkeys; unfold event_keys;
        repeat (first [apply list_elem_of_here | apply list_elem_of_further])|].
      apply Hcol. intros. cbn. eauto.
    + eexists. apply Hkeys. unfold event_keys.
      repeat (first [apply list_elem_of_here | apply list_elem_of_further]).
    + eexists. apply Hkeys. unfold event_keys.
      repeat (first [apply list_elem_of_here | apply list_elem_of_further]).
  - destruct (pd_DataFrame_events_shape rows Hall) as [_ Hnames].
    rewrite Hnames. destruct rows; [congruence|].
    apply (bool_decide_unpack _). vm_compute. reflexivity.
Qed.

Lemma normal_events_shape (rs : RandomSource) self n start_date days
    (w w' : World rs) df :
  generate_normal_events rs self n start_date days w = (w', Ok df) ->
  exists rows, df = pd_DataFrame rows /\ Forall is_event rows
               /\ length rows = Z.to_nat n.
Proof.
  unfold generate_normal_events. intros H. inv_M H.
  eexists. split; [reflexivity|].
  eapply for_range_Forall; [|eassumption].
  clear. intros s s' r H. inv_M H. do 6 eexists. reflexivity.
Qed.

Lemma suspicious_events_shape (rs : RandomSource) self n start_date label pattern
    (w w' : World rs) df :
  generate_suspicious_events rs self n start_date label pattern w = (w', Ok df) ->
  exists rows, df = pd_DataFrame rows /\ Forall is_event rows
               /\ length rows = Z.to_nat n.
Proof.
  intros H. apply suspicious_events_dispatch in H as (start & w1 & _ & _ & H).
  destruct (String.eqb pattern "mass_downloads").
  - unfold _generate_mass_downloads in H. inv_M H.
    eexists. split; [reflexivity|].
    eapply for_range_Forall; [|eassumption].
    clear. intros s s' r H. inv_M H. do 6 eexists. reflexivity.
  - unfold _generate_generic_suspicious in H. inv_M H.
    eexists. split; [reflexivity|].
    eapply for_range_Forall; [|eassumption].
    clear. intros s s' r H. inv_M H. do 6 eexists. reflexivity.
Qed.

(** X12: feature engineering accepts what the generators return.  When
    [generate_normal_events] or [generate_suspicious_events] returns a
    table for [n >= 1], [engineer_features] returns on it, with [n] rows
    and every column the pipeline is built over.  (For [n <= 0] the table
    has no column and [engineer_features] raises [KeyError].) *)
Theorem generated_events_are_engineered
    (rs : RandomSource) (lib : Libraries) (self : DataGenerator)
    (det : AnomalyDetector lib) (n : Z) (start_date : option datetime.t)
    (days : Z) (label_user : option string) (pattern : string)
    (w w' : World rs) (df : DataFrame) :
  1 <= n ->
  generate_normal_events rs self n start_date days w = (w', Ok df)
  \/ generate_suspicious_events rs self n start_date label_user pattern w
     = (w', Ok df) ->
  exists f,
    engineer_features lib df = Ok f
    /\ nrows f = Z.to_nat n
    /\ forall c, c ∈ pipeline_columns lib det -> c ∈ column_names f.
Proof.
  intros Hn H.
  assert (Hrows : exists rows, df = pd_DataFrame rows /\ Forall is_event rows
                               /\ length rows = Z.to_nat n).
  { destruct H as [H|H].
    - eapply normal_events_shape; eassumption.
    - eapply suspicious_events_shape; eassumption. }
  destruct Hrows as (rows & -> & Hall & Hlen).
  assert (Hne : rows <> []) by (intros ->; simpl in Hlen; lia).
  destruct (events_table rows Hall Hne) as [Hev Hnd].
  destruct (engineer_features_total lib _ Hev) as [f Hf].
  exists f. split; [exact Hf|]. split.
  - pose proof (engineer_features_inv lib _ f Hf)
      as (times & hours & dows & early & late & types & sizes & gt100 & gt50 & gt10
          & _ & _ & _ & _ & _ & _ & _ & _ & _ & _ & Hnr & _).
    rewrite Hnr. exact Hlen.
  - apply (engineer_features_pipeline_columns lib det _ f Hnd Hf).
Qed.

Lemma generated_events_are_engineered_witness :
  exists f,
    engineer_features stub_libraries (returned demo_normal_run (pd_DataFrame []))
      = Ok f
    /\ nrows f = Z.to_nat 3
    /\ forall c, c ∈ pipeline_columns stub_libraries new_detector ->
                 c ∈ column_names f.
Proof.
  apply (generated_events_are_engineered counter_source stub_libraries
           DataGenerator_init new_detector 3 (Some new_year_2024) 10 None ""
           world_zeros (fst demo_normal_run)
           (returned demo_normal_run (pd_DataFrame []))).
  - lia.
  - left. vm_compute. reflexivity.
Defined.

(** ** The per-user aggregates *)

Lemma value_eqb_VStr u v : value_eqb (VStr u) v = true -> v = VStr u.
Proof.
  destruct v; simpl; try discriminate. intros H.
  apply String.eqb_eq in H. congruence.
Qed.

Lemma group_keys_seen seen col k : k ∈ seen -> k ∈ group_keys seen col.
Proof.
  revert seen. induction col as [|v col IH]; intros seen Hk; simpl; [exact Hk|].
  destruct (is_missing v || existsb (value_eqb v) seen); apply IH; [exact Hk|].
  apply elem_of_app. auto.
Qed.

Lemma group_keys_VStr seen col u :
  VStr u ∈ col -> VStr u ∈ group_keys seen col.
Proof.
  revert seen. induction col as [|v col IH]; intros seen Hu.
  - apply elem_of_nil in Hu. contradiction.
  - apply elem_of_cons in Hu as [<-|Hu].
    + cbn [group_keys is_missing orb].
      destruct (existsb (value_eqb (VStr u)) seen) eqn:E.
      * apply existsb_exists in E as (k & Hk & Ek).
        apply value_eqb_VStr in Ek. subst k.
        apply group_keys_seen, list_elem_of_In, Hk.
      * apply group_keys_seen, elem_of_app. right. apply list_elem_of_here.
    + simpl. destruct (is_missing v || existsb (value_eqb v) seen); apply IH, Hu.
Qed.

(** Looking a user up in the table of aggregates finds that user's row. *)
Lemma find_user_stats {B} (g : value -> outcome (value * B)) keys stats u :
  (forall k r, g k = Ok r -> fst r = k) ->
  map_outcome g keys = Ok stats -> VStr u ∈ keys ->
  exists r, List.find (fun r => value_eqb (VStr u) (fst r)) stats = Some r
            /\ g (VStr u) = Ok r.
Proof.
  intros Hfst. revert stats. induction keys as [|k keys IH]; intros stats H Hu.
  - apply elem_of_nil in Hu. contradiction.
  - simpl in H. apply obind_Ok in H as (r & Hr & H).
    apply obind_Ok in H as (rs & Hrs & H). apply Ok_inj in H. subst stats.
    cbn [List.find]. rewrite (Hfst _ _ Hr).
    destruct (value_eqb (VStr u) k) eqn:E.
    + apply value_eqb_VStr in E. subst k. eauto.
    + apply elem_of_cons in Hu as [Hu|Hu].
      * subst k. unfold value_eqb in E. rewrite String.eqb_refl in E.
        discriminate.
      * apply IH; assumption.
Qed.

Lemma group_cells_length k keys col :
  length keys = length col ->
  length (group_cells k keys col) = length (List.filter (value_eqb k) keys).
Proof.
  unfold group_cells. rewrite length_map.
  revert col. induction keys as [|x keys IH]; intros [|y col] Hlen;
    simpl in *; try discriminate; [reflexivity|].
  destruct (value_eqb k x); simpl; rewrite IH by lia; reflexivity.
Qed.

Lemma group_cells_filter (p : value -> bool) k keys col :
  length (List.filter p (group_cells k keys col))
  = length (List.filter (fun kv => value_eqb k (fst kv) && p (snd kv))
                        (zip keys col)).
Proof.
  unfold group_cells.
  induction (zip keys col) as [|[x y] l IH]; simpl; [reflexivity|].
  destruct (value_eqb k x); simpl; [|exact IH].
  destruct (p y); simpl; rewrite IH; reflexivity.
Qed.

Lemma filter_pair_le {A B} (p : A -> bool) (q : A * B -> bool)
    (l : list A) (k : list B) :
  (length (List.filter (fun ab => p (fst ab) && q ab) (zip l k))
   <= length (List.filter p l))%nat.
Proof.
  revert k. induction l as [|x l IH]; intros [|y k];
    cbn [zip zip_with List.filter length fst]; try lia.
  specialize (IH k). destruct (p x); cbn [andb];
    [destruct (q (x, y))|]; cbn [length]; lia.
Qed.

Lemma agg_count_numbers (col : list value) xs :
  Forall (fun v => exists q, v = VFloat q) col ->
  map_outcome to_numeric col = Ok xs ->
  agg_count xs = Z.of_nat (length col).
Proof.
  intros Hcol. revert xs. induction Hcol as [|v col [q ->] _ IH]; intros xs H.
  - apply Ok_inj in H. subst xs. reflexivity.
  - simpl in H. apply obind_Ok in H as (ys & Hys & H). apply Ok_inj in H. subst xs.
    specialize (IH _ Hys). unfold agg_count in *. cbn [List.filter length].
    lia.
Qed.

(** The column of an aggregate after the merge: for every row, the cell of
    the row of its user in the table of aggregates. *)
Lemma merge_left_aggregate left key stats df' keys c j :
  NoDup (column_names left ++ user_stats_columns) ->
  merge_left left key user_stats_columns stats = Ok df' ->
  getitem left key = Ok keys ->
  user_stats_columns !! j = Some c ->
  getitem df' c
  = Ok (map (fun k =>
               default VNaN
                 (match List.find (fun r => value_eqb k (fst r)) stats with
                  | Some r => snd r
                  | None => map (fun _ => VNaN) user_stats_columns
                  end !! j)) keys).
Proof.
  intros Hnd H Hkeys Hj. unfold merge_left in H. rewrite Hkeys in H.
  cbn [obind] in H. apply Ok_inj in H. subst df'.
  assert (Hc : c ∈ user_stats_columns).
  { eapply list_elem_of_lookup_2. exact Hj. }
  apply NoDup_app in Hnd as (_ & Hdisj & _).
  assert (Hnone : forall c0,
             existsb (String.eqb c0) (column_names left)
             && existsb (String.eqb c0) user_stats_columns = false).
  { intros c0. destruct (existsb (String.eqb c0) (column_names left)) eqn:E1;
      [|reflexivity].
    apply existsb_eqb_elem_of in E1. apply Hdisj in E1.
    apply existsb_eqb_not_elem_of in E1. rewrite E1. reflexivity. }
  unfold getitem. cbn [columns]. rewrite assoc_app.
  rewrite assoc_None_names.
  - match goal with
    | |- context [imap ?g user_stats_columns] =>
        rewrite (imap_ext g (fun j0 c0 => (c0, snd (g j0 c0))) user_stats_columns)
    end.
    + rewrite <- (map_map _ (fun r : list value => default VNaN (r !! j))).
      unfold user_stats_columns in Hj.
      destruct j as [|[|[|[|[|j]]]]]; cbn in Hj; try discriminate;
        injection Hj as <-; reflexivity.
    + intros j0 c0 _. cbn [snd]. rewrite Hnone. reflexivity.
  - rewrite map_map. cbn [fst].
    intros Hin. apply list_elem_of_fmap in Hin as ([n v] & E & Hn).
    cbn [fst] in E. rewrite Hnone in E. subst n.
    apply (Hdisj c); [|exact Hc].
    unfold column_names. apply list_elem_of_fmap. exists (c, v). auto.
Qed.

(** X13: the per-user aggregates of a row are those of the row's own user,
    counted over the whole batch.  On a table of access events without a
    column named like an aggregate, the row of user [u] gets
    [total_access], the number of rows of [u] in the batch (at least 1),
    [download_count], the number of those rows whose action is
    [download], and [download_ratio], their quotient, between 0 and 1. *)
Theorem engineer_features_user_aggregates
    (lib : Libraries) (df f : DataFrame) (users actions : list value)
    (i : nat) (u : string) :
  event_table df ->
  NoDup (column_names df ++ user_stats_columns) ->
  engineer_features lib df = Ok f ->
  getitem df "user_id" = Ok users ->
  getitem df "action" = Ok actions ->
  users !! i = Some (VStr u) ->
  1 <= accesses_of u users
  /\ 0 <= downloads_of u users actions <= accesses_of u users
  /\ cell f "total_access" i = Some (VInt (accesses_of u users))
  /\ cell f "download_count" i = Some (VInt (downloads_of u users actions))
  /\ cell f "download_ratio" i
     = Some (VFloat (inject_Z (downloads_of u users actions)
                     / inject_Z (accesses_of u users))).
Proof.
  intros (Hrect & _ & (sizes & Gs & Hs) & _) Hnd H Gu Ga Hi.
  pose proof (getitem_length _ _ _ Hrect Gu) as Lu.
  pose proof (getitem_length _ _ _ Hrect Gs) as Ls.
  pose proof (getitem_length _ _ _ Hrect Ga) as La.
  assert (Hin : VStr u ∈ users) by (eapply list_elem_of_lookup_2; exact Hi).
  assert (Hone : 1 <= accesses_of u users).
  { unfold accesses_of.
    assert (In (VStr u) (List.filter (value_eqb (VStr u)) users)).
    { apply filter_In. split; [apply list_elem_of_In; exact Hin|].
      unfold value_eqb. apply String.eqb_refl. }
    destruct (List.filter (value_eqb (VStr u)) users); [contradiction|].
    simpl. lia. }
  assert (Hle : 0 <= downloads_of u users actions <= accesses_of u users).
  { unfold downloads_of, accesses_of. split; [lia|].
    apply inj_le.
    apply (filter_pair_le (value_eqb (VStr u))
             (fun ua => value_eqb (VStr "download") (snd ua))). }
  split; [exact Hone|]. split; [exact Hle|].
  unfold engineer_features in H. inv_O H.
  pose proof (fun c Hc => getitem_setitem_ne _ _ c _ _ Hc Hstep1) as N1.
  pose proof (fun c Hc => getitem_setitem_ne _ _ c _ _ Hc Hstep4) as N4.
  pose proof (fun c Hc => getitem_setitem_ne _ _ c _ _ Hc Hstep6) as N6.
  pose proof (fun c Hc => getitem_setitem_ne _ _ c _ _ Hc Hstep10) as N10.
  pose proof (fun c Hc => getitem_setitem_ne _ _ c _ _ Hc Hstep14) as N14.
  pose proof (fun c Hc => getitem_setitem_ne _ _ c _ _ Hc Hstep17) as N17.
  pose proof (fun c Hc => getitem_setitem_ne _ _ c _ _ Hc Hstep22) as N22.
  assert (Gu10 : getitem a10 "user_id" = Ok users).
  { rewrite N10, N6, N4, N1 by discriminate. exact Gu. }
  assert (Gs10 : getitem a10 "file_size_MB" = Ok sizes).
  { rewrite N10, N6, N4, N1 by discriminate. exact Gs. }
  assert (Ga10 : getitem a10 "action" = Ok actions).
  { rewrite N10, N6, N4, N1 by discriminate. exact Ga. }
  apply (setitem_NoDup_app _ "hour" _ _ user_stats_columns
           (not_in_user_stats_columns "hour" eq_refl) Hstep1) in Hnd.
  apply (setitem_NoDup_app _ "dayofweek" _ _ user_stats_columns
           (not_in_user_stats_columns "dayofweek" eq_refl) Hstep4) in Hnd.
  apply (setitem_NoDup_app _ "is_weekend" _ _ user_stats_columns
           (not_in_user_stats_columns "is_weekend" eq_refl) Hstep6) in Hnd.
  apply (setitem_NoDup_app _ "is_after_hours" _ _ user_stats_columns
           (not_in_user_stats_columns "is_after_hours" eq_refl) Hstep10) in Hnd.
  unfold user_stats in Hstep11. rewrite Gu10, Gs10, Ga10 in Hstep11.
  cbn [obind] in Hstep11.
  apply (find_user_stats _ _ _ u) in Hstep11 as (r & Hfind & Hr);
    [| intros k r0 Hr0; apply obind_Ok in Hr0 as (xs & _ & Hr0);
       apply Ok_inj in Hr0; subst r0; reflexivity
     | apply group_keys_VStr; exact Hin ].
  apply obind_Ok in Hr as (xs & Hxs & Hr). apply Ok_inj in Hr.
  assert (Htotal : agg_count xs = accesses_of u users).
  { rewrite (agg_count_numbers _ _ (group_cells_Forall _ _ _ _ Hs) Hxs).
    unfold accesses_of. rewrite group_cells_length by congruence. reflexivity. }
  assert (Hdl : Z.of_nat (length (List.filter (value_eqb (VStr "download"))
                                    (group_cells (VStr u) users actions)))
                = downloads_of u users actions).
  { unfold downloads_of. rewrite group_cells_filter. reflexivity. }
  rewrite Htotal, Hdl in Hr.
  assert (Hcell : forall c j,
             user_stats_columns !! j = Some c ->
             c <> "file_type_risk" -> c <> "is_large_file" ->
             c <> "size_risk_score" ->
             cell f c i = Some (default VNaN (snd r !! j))).
  { intros c j Hj C1 C2 C3.
    pose proof (merge_left_aggregate _ _ _ _ _ c j Hnd Hstep12 Gu10 Hj) as G.
    rewrite <- (N14 c C1), <- (N17 c C2), <- (N22 c C3) in G.
    rewrite (cell_getitem _ _ _ i G), lookup_map, Hi. cbn [fmap option_fmap option_map].
    rewrite Hfind. reflexivity. }
  subst r. cbn [snd] in Hcell.
  split; [|split].
  - rewrite (Hcell "total_access" 2%nat) by (reflexivity || discriminate).
    reflexivity.
  - rewrite (Hcell "download_count" 3%nat) by (reflexivity || discriminate).
    reflexivity.
  - rewrite (Hcell "download_ratio" 4%nat) by (reflexivity || discriminate).
    cbn [lookup list_lookup default]. unfold true_divide.
    destruct (accesses_of u users =? 0) eqn:E; [apply Z.eqb_eq in E; lia|].
    reflexivity.
Qed.

Lemma engineer_features_user_aggregates_witness :
  1 <= accesses_of "employee101" (column_cells small_batch "user_id")
  /\ 0 <= downloads_of "employee101" (column_cells small_batch "user_id")
            (column_cells small_batch "action")
       <= accesses_of "employee101" (column_cells small_batch "user_id")
  /\ cell small_features "total_access" 1
     = Some (VInt (accesses_of "employee101"
                     (column_cells small_batch "user_id")))
  /\ cell small_features "download_count" 1
     = Some (VInt (downloads_of "employee101"
                     (column_cells small_batch "user_id")
                     (column_cells small_batch "action")))
  /\ cell small_features "download_ratio" 1
     = Some (VFloat (inject_Z (downloads_of "employee101"
                                 (column_cells small_batch "user_id")
                                 (column_cells small_batch "action"))
                     / inject_Z (accesses_of "employee101"
                                   (column_cells small_batch "user_id")))).
Proof.
  apply (engineer_features_user_aggregates stub_libraries small_batch
           small_features).
  - exact small_batch_event_table.
  - apply (bool_decide_unpack _). vm_compute. reflexivity.
  - vm_compute. reflexivity.
  - vm_compute. reflexivity.
  - vm_compute. reflexivity.
  - vm_compute. reflexivity.
Defined.

(** * Further properties of the detector *)

Lemma stateless_ret {S A} (a : A) : stateless (ret a : M S A).
Proof. intros s. reflexivity. Qed.

Lemma stateless_raise {S A} (e : exn) : stateless (raise e : M S A).
Proof. intros s. reflexivity. Qed.

Lemma stateless_lift {S A} (r : outcome A) : stateless (lift_outcome r : M S A).
Proof. intros s. reflexivity. Qed.

Lemma stateless_bind {S A B} (c : M S A) (k : A -> M S B) :
  stateless c -> (forall a, stateless (k a)) -> stateless (bind c k).
Proof.
  intros Hc Hk s. unfold bind. specialize (Hc s).
  destruct (c s) as [s1 [e|a]]; simpl in *; subst s1; [reflexivity|].
  apply Hk.
Qed.

Ltac stateless_steps :=
  repeat first [ apply stateless_ret | apply stateless_raise | apply stateless_lift
               | apply stateless_bind; [|intros ?] ].

(** X14: [predict_new_data] never changes the detector or the files: the
    pipeline, the fit-time columns, the two hyperparameters and the model
    path are after the call what they were before it, whether it returns or
    raises; the log grows by at most the one WARNING line of the column
    reconciliation. *)
Theorem predict_new_data_keeps_the_model
    (lib : Libraries) (df : DataFrame) (s : MLState lib) :
  detector (fst (predict_new_data lib df s)) = detector s
  /\ files (fst (predict_new_data lib df s)) = files s
  /\ at_most_a_warning (ml_log s) (ml_log (fst (predict_new_data lib df s))).
Proof.
  assert (H : exists lg,
             fst (predict_new_data lib df s) = mkMLState (detector s) (files s) lg
             /\ at_most_a_warning (ml_log s) lg).
  { assert (Hsame : fst (s, @Raise DataFrame (ValueError ""))
                    = mkMLState (detector s) (files s) (ml_log s))
      by (destruct s; reflexivity).
    cbn [fst] in Hsame.
    unfold predict_new_data. unfold bind at 1. unfold get_self.
    destruct (pipeline (detector s)) as [p|];
      [|exists (ml_log s); split; [exact Hsame | left; reflexivity]].
    unfold bind at 1. unfold lift_outcome at 1.
    destruct (engineer_features lib df) as [e|df_feat];
      [exists (ml_log s); split; [exact Hsame | left; reflexivity]|].
    unfold bind at 1.
    destruct (feature_columns (detector s)) as [cols|];
      [|exists (ml_log s); split; [exact Hsame | left; reflexivity]].
    unfold ret at 1.
    destruct (ensure_same_features_spec lib cols df_feat s) as (aligned & Hrun & _).
    unfold bind at 1. rewrite Hrun.
    match goal with
    | |- context [fst (?tail ?s1)] =>
        assert (Htail : stateless tail) by stateless_steps;
        rewrite (Htail s1)
    end.
    eexists. split; [reflexivity|].
    unfold at_most_a_warning, log_after_reconciliation.
    destruct (missing_features cols df_feat); [left; reflexivity | right; eauto]. }
  destruct H as (lg & -> & Hlg). cbn [detector files ml_log]. auto.
Qed.

(** X15: [fit_and_score] is not atomic.  When feature engineering succeeds
    and scikit-learn's [fit] raises, [fit_and_score] raises that error after
    it has assigned the new, unfitted pipeline to [self.pipeline]: the
    detector is left with a pipeline that is not [None], its fit-time
    columns are those of before the call, no file is touched, and a
    [save_model] that follows passes its guard and writes the model file. *)
Theorem failed_fit_leaves_a_pipeline
    (lib : Libraries) (df df_feat : DataFrame) (s : MLState lib) (e : exn) :
  engineer_features lib df = Ok df_feat ->
  sk_fit lib (steps (build_pipeline lib (detector s))) df_feat = Raise e ->
  exists s',
    fit_and_score lib df s = (s', Raise e)
    /\ (exists p, pipeline (detector s') = Some p
                  /\ steps p = steps (build_pipeline lib (detector s)))
    /\ feature_columns (detector s') = feature_columns (detector s)
    /\ files s' = files s
    /\ exists s'',
         save_model lib s' = (s'', Ok tt)
         /\ is_Some (files s'' !! model_path (detector s)).
Proof.
  intros Hf Hfit. eexists. split.
  - unfold fit_and_score, bind, logger, modify, lift_outcome, get_self,
      set_pipeline, set_self, bind, get_self, modify.
    rewrite Hf. cbn [detector files ml_log].
    unfold pipeline_fit. rewrite Hfit. cbn [obind]. reflexivity.
  - cbn [detector files ml_log pipeline feature_columns model_path].
    split; [eexists; split; reflexivity|]. split; [reflexivity|]. split; [reflexivity|].
    eexists. split.
    + unfold save_model, bind, get_self, modify, logger, modify.
      cbn [detector files ml_log pipeline feature_columns model_path].
      reflexivity.
    + cbn [files]. rewrite lookup_insert_eq. eexists; reflexivity.
Qed.

Lemma failed_fit_leaves_a_pipeline_witness :
  exists s',
    fit_and_score stub_libraries no_rows_batch fresh_process
      = (s', Raise (ValueError "Found array with 0 sample(s)"))
    /\ (exists p, pipeline (detector s') = Some p
                  /\ steps p = steps (build_pipeline stub_libraries
                                        (detector fresh_process)))
    /\ feature_columns (detector s') = feature_columns (detector fresh_process)
    /\ files s' = files fresh_process
    /\ exists s'',
         save_model stub_libraries s' = (s'', Ok tt)
         /\ is_Some (files s'' !! model_path (detector fresh_process)).
Proof.
  apply (failed_fit_leaves_a_pipeline stub_libraries no_rows_batch
           no_rows_features fresh_process).
  - vm_compute. reflexivity.
  - vm_compute. reflexivity.
Defined.

(** ** Risk scores are relative to the batch *)







Lemma scored_rows_intro df raw risk df' :
  risk_of raw = Ok risk ->
  setitem df "risk_score" (risk_column risk) = Ok df' ->
  scored_ok risk df' /\ length risk = nrows df'.
Proof.
  intros Hr Hs. split; [eapply scored_ok_intro; eassumption|].
  apply setitem_Ok in Hs as (Hl & Hn & _).
  unfold risk_column in Hl. rewrite length_map in Hl. congruence.
Qed.

Lemma scored_rows_kept risk df c col df' :
  c <> "risk_score" ->
  setitem df c col = Ok df' ->
  scored_ok risk df /\ length risk = nrows df ->
  scored_ok risk df' /\ length risk = nrows df'.
Proof.
  intros Hc Hs [Hok Hlen]. split; [eapply scored_ok_kept; eassumption|].
  apply setitem_Ok in Hs as (_ & Hn & _). congruence.
Qed.

(** The scores, the risks and the scored table of a call that returns. *)
Lemma scoring_inv (lib : Libraries) (df : DataFrame) (s s' : MLState lib)
    (scored : DataFrame) :
  (exists p, fit_and_score lib df s = (s', Ok (p, scored)))
  \/ predict_new_data lib df s = (s', Ok scored) ->
  exists p X scores risk,
    model_score_samples lib p X = Ok scores
    /\ risk_of (map Qopp scores) = Ok risk
    /\ scored_ok risk scored
    /\ length risk = nrows scored.
Proof.
  intros [[p H]|H].
  - unfold fit_and_score in H. inv_M H. inv_lifts.
    match goal with H : (_, _) = (_, _) |- _ => injection H as <- <- end.
    match goal with
    | Hsc : model_score_samples lib ?p ?X = Ok ?scores,
      Hr : risk_of _ = Ok ?risk,
      Hs : setitem _ "risk_score" _ = Ok _ |- _ =>
        exists p, X, scores, risk; split; [exact Hsc|]; split; [exact Hr|];
        pose proof (scored_rows_intro _ _ _ _ Hr Hs) as Hok; clear Hs
    end.
    repeat match goal with
           | Hs : setitem ?d ?c ?col = Ok ?d' |- _ =>
               apply (scored_rows_kept _ d c col d' ltac:(discriminate) Hs) in Hok;
               clear Hs
           end.
    exact Hok.
  - unfold predict_new_data, bind at 1, get_self in H.
    destruct (pipeline (detector s)) as [p|]; [|discriminate].
    inv_M H. inv_lifts.
    match goal with
    | Hsc : model_score_samples lib ?p ?X = Ok ?scores,
      Hr : risk_of _ = Ok ?risk,
      Hs : setitem _ "risk_score" _ = Ok _ |- _ =>
        exists p, X, scores, risk; split; [exact Hsc|]; split; [exact Hr|];
        pose proof (scored_rows_intro _ _ _ _ Hr Hs) as Hok; clear Hs
    end.
    repeat match goal with
           | Hs : setitem ?d ?c ?col = Ok ?d' |- _ =>
               apply (scored_rows_kept _ d c col d' ltac:(discriminate) Hs) in Hok;
               clear Hs
           end.
    exact Hok.
Qed.




(** ** The scored table *)






(** * Alerts, filters and the check of predictions *)

(** ** Rows kept by a mask *)

Lemma keep_rows_map {A B} (p : A -> bool) (f : A -> B) (l : list A) :
  keep_rows (map p l) (map f l) = map f (List.filter p l).
Proof.
  unfold keep_rows. induction l as [|x l IH]; [reflexivity|].
  cbn [map zip zip_with List.filter fst]. destruct (p x); cbn [map snd]; rewrite IH;
    reflexivity.
Qed.

Lemma keep_rows_length {A B} (p : A -> bool) (l : list A) (k : list B) :
  length l = length k ->
  length (keep_rows (map p l) k) = length (List.filter p l).
Proof.
  unfold keep_rows. rewrite length_map. revert k.
  induction l as [|x l IH]; intros [|y k] H; simpl in *; try discriminate;
    [reflexivity|].
  destruct (p x); simpl; rewrite IH by lia; reflexivity.
Qed.

(** A rectangular table is the table of all its rows. *)
Lemma take_all_rows (df : DataFrame) :
  rectangular df -> take_rows df (all_rows df) = df.
Proof.
  intros Hrect. destruct df as [n cols]. unfold take_rows, all_rows, rectangular in *.
  cbn [nrows columns] in *. f_equal; [apply length_seq|].
  induction Hrect as [|[c col] cols Hlen _ IH]; [reflexivity|].
  cbn [map fst snd] in *. rewrite IH. f_equal. f_equal.
  subst n. apply list_eq. intros i. rewrite lookup_map.
  destruct (decide (i < length col)%nat) as [Hi|Hi].
  - rewrite lookup_seq_lt by exact Hi. cbn. unfold cell_at.
    destruct (lookup_lt_is_Some_2 col i Hi) as [v Hv]. rewrite Hv. reflexivity.
  - rewrite lookup_seq_ge by lia. rewrite lookup_ge_None_2 by lia. reflexivity.
Qed.

Lemma getitem_take_rows df rows c :
  getitem (take_rows df rows) c
  = match getitem df c with
    | Ok col => Ok (map (cell_at col) rows)
    | Raise e => Raise e
    end.
Proof.
  unfold getitem, take_rows. cbn [columns].
  induction (columns df) as [|[n v] l IH]; [reflexivity|].
  cbn [map assoc fst snd]. destruct (String.eqb c n); [reflexivity | exact IH].
Qed.

Lemma column_names_take_rows df rows :
  column_names (take_rows df rows) = column_names df.
Proof.
  unfold column_names, take_rows. cbn [columns]. rewrite map_map. reflexivity.
Qed.

(** Masking the table of the rows [rows] by a mask computed row by row
    gives the table of the rows that pass. *)
Lemma boolean_index_take_rows df rows (p : nat -> bool) :
  boolean_index (take_rows df rows) (map p rows)
  = take_rows df (List.filter p rows).
Proof.
  unfold boolean_index, take_rows. cbn [nrows columns]. f_equal.
  - apply keep_rows_length. rewrite length_seq. reflexivity.
  - rewrite map_map. apply map_ext. intros [c col]. cbn [fst snd].
    rewrite keep_rows_map. reflexivity.
Qed.

Lemma cell_or_missing_getitem df c col i :
  getitem df c = Ok col -> cell_or_missing df c i = cell_at col i.
Proof.
  intros H. unfold cell_or_missing, cell_at. rewrite (cell_getitem _ _ _ i H).
  reflexivity.
Qed.

Lemma row_get_take_rows df rows j i c d :
  rows !! j = Some i ->
  row_get (take_rows df rows) j c d
  = match assoc c (columns df) with
    | Some col => cell_at col i
    | None => d
    end.
Proof.
  intros Hj. unfold row_get, take_rows. cbn [columns].
  induction (columns df) as [|[n v] l IH]; [reflexivity|].
  cbn [map assoc fst snd]. destruct (String.eqb c n); [|exact IH].
  rewrite lookup_map, Hj. reflexivity.
Qed.

Lemma row_get_rectangular df i c d :
  rectangular df -> (i < nrows df)%nat ->
  row_get df i c d
  = match assoc c (columns df) with
    | Some col => cell_at col i
    | None => d
    end.
Proof.
  intros Hrect Hi. unfold row_get.
  destruct (assoc c (columns df)) as [col|] eqn:E; [|reflexivity].
  unfold cell_at. destruct (col !! i); reflexivity.
Qed.

Lemma map_seq_rows {A} (f g : nat -> A) (rows : list nat) :
  (forall j i, rows !! j = Some i -> f j = g i) ->
  map f (seq 0 (length rows)) = map g rows.
Proof.
  intros H. apply list_eq. intros j. rewrite !lookup_map.
  destruct (rows !! j) as [i|] eqn:E.
  - rewrite lookup_seq_lt by (eapply lookup_lt_Some; exact E). cbn.
    rewrite (H j i E). reflexivity.
  - apply lookup_ge_None in E. rewrite lookup_seq_ge by lia. reflexivity.
Qed.

(** The alerts of a table: one for each row at or above the threshold. *)
Lemma check_high_risk_events_rows (df : DataFrame) (threshold : Q) :
  rectangular df ->
  (forall risk, getitem df "risk_score" = Ok risk ->
                Forall (fun v => exists q, v = VFloat q) risk) ->
  check_high_risk_events df threshold
  = Ok (map (alert df) (List.filter (at_or_above threshold df) (all_rows df))).
Proof.
  intros Hrect Hfloat. unfold check_high_risk_events.
  destruct (existsb (String.eqb "risk_score") (column_names df)) eqn:E; cbn [negb].
  - apply existsb_eqb_elem_of, assoc_Some_elem_of in E as [risk Hrisk].
    assert (G : getitem df "risk_score" = Ok risk) by (unfold getitem; rewrite Hrisk; reflexivity).
    rewrite G. cbn [obind]. specialize (Hfloat risk G).
    pose proof (getitem_length _ _ _ Hrect G) as Hlen.
    assert (Hmask : map_outcome (ge_scalar threshold) risk
                    = Ok (map (at_or_above threshold df) (all_rows df))).
    { assert (Hrows : risk = map (cell_at risk) (all_rows df)).
      { unfold all_rows. rewrite <- Hlen. apply list_eq. intros i.
        rewrite lookup_map.
        destruct (decide (i < length risk)%nat) as [Hi|Hi].
        - rewrite lookup_seq_lt by exact Hi. cbn. unfold cell_at.
          destruct (lookup_lt_is_Some_2 risk i Hi) as [v Hv]. rewrite Hv. reflexivity.
        - rewrite lookup_seq_ge by lia. rewrite lookup_ge_None_2 by lia. reflexivity. }
      rewrite Hrows at 1.
      assert (Hall : Forall (fun i => exists q, cell_at risk i = VFloat q)
                            (all_rows df)).
      { apply Forall_forall. intros i Hi. unfold all_rows in Hi.
        apply elem_of_seq in Hi as [_ Hi]. cbn in Hi.
        destruct (lookup_lt_is_Some_2 risk i ltac:(lia)) as [v Hv].
        rewrite Forall_forall in Hfloat.
        destruct (Hfloat v (list_elem_of_lookup_2 _ _ _ Hv)) as [q ->].
        exists q. unfold cell_at. rewrite Hv. reflexivity. }
      clear Hrows. revert Hall. generalize (all_rows df). intros rows Hall.
      induction Hall as [|i rows (q & Hq) _ IH]; [reflexivity|].
      cbn [map map_outcome]. unfold at_or_above at 1.
      rewrite (cell_or_missing_getitem _ _ _ i G), Hq.
      cbn [ge_scalar to_numeric obind]. rewrite IH. reflexivity. }
    rewrite Hmask. cbn [obind].
    assert (Hb : boolean_index df (map (at_or_above threshold df) (all_rows df))
                 = take_rows df (List.filter (at_or_above threshold df) (all_rows df))).
    { rewrite <- boolean_index_take_rows. rewrite (take_all_rows df Hrect).
      reflexivity. }
    rewrite Hb. cbn [take_rows nrows].
    f_equal. apply map_seq_rows. intros j i Hj.
    assert (Hi : (i < nrows df)%nat).
    { apply list_elem_of_lookup_2, list_elem_of_In, filter_In in Hj as [Hj _].
      apply in_seq in Hj. lia. }
    unfold alert. rewrite !(row_get_take_rows _ _ j i _ _ Hj).
    rewrite !(row_get_rectangular df i _ _ Hrect Hi). reflexivity.
  - apply existsb_eqb_not_elem_of in E.
    assert (Hnone : forall i, at_or_above threshold df i = false).
    { intros i. unfold at_or_above, cell_or_missing, cell.
      rewrite (assoc_None_names "risk_score" (columns df) E). reflexivity. }
    induction (all_rows df) as [|i l IH]; [reflexivity|].
    cbn [List.filter]. rewrite Hnone. exact IH.
Qed.

Lemma filter_length_le {A} (p : A -> bool) (l : list A) :
  (length (List.filter p l) <= length l)%nat.
Proof. induction l as [|x l IH]; simpl; [lia|]. destruct (p x); simpl; lia. Qed.

Lemma filter_all {A} (p : A -> bool) (l : list A) :
  (forall x, x ∈ l -> p x = true) -> List.filter p l = l.
Proof.
  induction l as [|x l IH]; intros H; [reflexivity|]. simpl.
  rewrite (H x (list_elem_of_here _ _)). f_equal. apply IH.
  intros y Hy. apply H, list_elem_of_further, Hy.
Qed.

Lemma filter_none {A} (p : A -> bool) (l : list A) :
  (forall x, x ∈ l -> p x = false) -> List.filter p l = [].
Proof.
  induction l as [|x l IH]; intros H; [reflexivity|]. simpl.
  rewrite (H x (list_elem_of_here _ _)). apply IH.
  intros y Hy. apply H, list_elem_of_further, Hy.
Qed.

(** X19: the alerts are the rows at or above the threshold.  On a table
    whose columns have one cell per row and whose [risk_score] cells are
    floats, [check_high_risk_events] returns one alert for every row with
    [risk_score >= threshold] and for no other, in the order of the rows,
    each with the fields of its own row (["unknown"] for a column the table
    does not have); a table without a [risk_score] column gives no alert. *)
Theorem alerts_are_the_high_risk_rows (df : DataFrame) (threshold : Q) :
  rectangular df ->
  (forall risk, getitem df "risk_score" = Ok risk ->
                Forall (fun v => exists q, v = VFloat q) risk) ->
  exists alerts,
    check_high_risk_events df threshold = Ok alerts
    /\ alerts = map (alert df)
                    (List.filter (at_or_above threshold df) (all_rows df))
    /\ (length alerts <= nrows df)%nat
    /\ ("risk_score" ∉ column_names df -> alerts = []).
Proof.
  intros Hrect Hfloat. eexists. split; [|split; [reflexivity|split]].
  - apply check_high_risk_events_rows; assumption.
  - rewrite length_map. etransitivity; [apply filter_length_le|].
    unfold all_rows. rewrite length_seq. lia.
  - intros Hno. rewrite filter_none; [reflexivity|].
    intros i _. unfold at_or_above, cell_or_missing, cell.
    rewrite (assoc_None_names "risk_score" (columns df) Hno). reflexivity.
Qed.

Lemma setitem_rectangular df c col df' :
  rectangular df -> setitem df c col = Ok df' -> rectangular df'.
Proof.
  intros Hrect H. apply setitem_Ok in H as (Hlen & Hn & Hcols).
  unfold rectangular in *. rewrite Hcols, Hn. clear Hcols Hn.
  induction Hrect as [|[k v] l Hk Hl IH]; cbn [set_assoc].
  - constructor; [exact Hlen | constructor].
  - destruct (String.eqb c k); constructor;
      [exact Hlen | exact Hl | exact Hk | exact IH].
Qed.

Lemma small_batch_rectangular : rectangular small_batch.
Proof. unfold rectangular. repeat constructor. Defined.

Lemma scored_rectangular (lib : Libraries) (df : DataFrame) (s s' : MLState lib)
    (scored : DataFrame) :
  rectangular df ->
  (exists p, fit_and_score lib df s = (s', Ok (p, scored)))
  \/ predict_new_data lib df s = (s', Ok scored) ->
  rectangular scored.
Proof.
  intros Hrect [[p H]|H].
  - unfold fit_and_score in H. inv_M H. inv_lifts.
    match goal with H : (_, _) = (_, _) |- _ => injection H as <- <- end.
    repeat match goal with
           | Hs : setitem ?d ?c ?col = Ok ?d', Hr : rectangular ?d |- _ =>
               apply (setitem_rectangular d c col d' Hr) in Hs
           end.
    assumption.
  - unfold predict_new_data, bind at 1, get_self in H.
    destruct (pipeline (detector s)) as [p|]; [|discriminate].
    inv_M H. inv_lifts.
    repeat match goal with
           | Hs : setitem ?d ?c ?col = Ok ?d', Hr : rectangular ?d |- _ =>
               apply (setitem_rectangular d c col d' Hr) in Hs
           end.
    assumption.
Qed.

Lemma fitted_scored_rectangular : rectangular fitted_scored.
Proof. unfold rectangular. vm_compute. repeat constructor. Defined.

Lemma alerts_are_the_high_risk_rows_witness :
  exists alerts,
    check_high_risk_events fitted_scored 80 = Ok alerts
    /\ alerts = map (alert fitted_scored)
                    (List.filter (at_or_above 80 fitted_scored)
                                 (all_rows fitted_scored))
    /\ (length alerts <= nrows fitted_scored)%nat
    /\ ("risk_score" ∉ column_names fitted_scored -> alerts = []).
Proof.
  apply (alerts_are_the_high_risk_rows fitted_scored 80).
  - exact fitted_scored_rectangular.
  - intros risk H. vm_compute in H. injection H as <-.
    repeat constructor; eexists; reflexivity.
Defined.

(** X20: the alerts of a scored table.  On the table that [fit_and_score]
    or [predict_new_data] returns for a batch whose columns have one cell
    per row, [check_high_risk_events] does not raise; every alert carries a
    risk score between the threshold and 100; a threshold above 100 gives
    no alert and a threshold of 0 or less gives an alert for every row. *)
Theorem alerts_of_a_scored_table
    (lib : Libraries) (df : DataFrame) (s s' : MLState lib) (scored : DataFrame)
    (threshold : Q) :
  rectangular df ->
  (exists p, fit_and_score lib df s = (s', Ok (p, scored)))
  \/ predict_new_data lib df s = (s', Ok scored) ->
  exists alerts,
    check_high_risk_events scored threshold = Ok alerts
    /\ (forall a, a ∈ alerts ->
          exists q, assoc "risk_score" a = Some (VFloat q)
                    /\ (threshold <= q)%Q /\ (q <= 100)%Q)
    /\ ((100 < threshold)%Q -> alerts = [])
    /\ ((threshold <= 0)%Q -> length alerts = nrows scored).
Proof.
  intros Hrect H.
  pose proof (scored_rectangular lib df s s' scored Hrect H) as Hsr.
  apply scoring_inv in H as (p & X & scores & risk & _ & Hrisk & Hok & Hlen).
  destruct Hok as (Hpos & Hget & Hrange).
  assert (Hfloat : forall col, getitem scored "risk_score" = Ok col ->
                               Forall (fun v => exists q, v = VFloat q) col).
  { intros col Hcol. rewrite Hget in Hcol. apply Ok_inj in Hcol. subst col.
    apply Forall_map. apply Forall_forall. intros r _. eauto. }
  assert (Hcell : forall i, (i < nrows scored)%nat ->
             exists q, cell_or_missing scored "risk_score" i = VFloat q
                       /\ (0 <= q)%Q /\ (q <= 100)%Q
                       /\ at_or_above threshold scored i = Qle_bool threshold q).
  { intros i Hi. destruct (Hrange i Hi) as (k & Hk & Hk0 & Hk1).
    exists (k # 100)%Q. unfold at_or_above, cell_or_missing. rewrite Hk. cbn.
    repeat split; unfold Qle; simpl; lia. }
  rewrite (check_high_risk_events_rows scored threshold Hsr Hfloat).
  eexists. split; [reflexivity|]. split; [|split].
  - intros a Ha. apply list_elem_of_fmap in Ha as (i & -> & Hi).
    apply list_elem_of_In, filter_In in Hi as [Hi Hp].
    apply in_seq in Hi. cbn in Hi. destruct Hi as [_ Hi].
    destruct (Hcell i Hi) as (q & Hq & H0 & H100 & Hat).
    exists q. unfold alert. cbn [assoc String.eqb Ascii.eqb Bool.eqb].
    rewrite (row_get_rectangular scored i _ _ Hsr Hi).
    unfold getitem in Hget.
    destruct (assoc "risk_score" (columns scored)) as [col|] eqn:E; [|discriminate].
    unfold cell_or_missing, cell in Hq. rewrite E in Hq. unfold cell_at.
    rewrite Hq. split; [reflexivity|]. split; [|exact H100].
    rewrite Hat in Hp. apply Qle_bool_iff. exact Hp.
  - intros Hthr. rewrite filter_none; [reflexivity|].
    intros i Hi. apply elem_of_seq in Hi as [_ Hi]. cbn in Hi.
    destruct (Hcell i Hi) as (q & _ & _ & H100 & ->).
    destruct (Qle_bool threshold q) eqn:E; [|reflexivity].
    apply Qle_bool_iff in E. lra.
  - intros Hthr. rewrite length_map, filter_all.
    + unfold all_rows. apply length_seq.
    + intros i Hi. apply elem_of_seq in Hi as [_ Hi]. cbn in Hi.
      destruct (Hcell i Hi) as (q & _ & H0 & _ & ->).
      apply Qle_bool_iff. lra.
Qed.

Lemma alerts_of_a_scored_table_witness :
  exists alerts,
    check_high_risk_events fitted_scored 80 = Ok alerts
    /\ (forall a, a ∈ alerts ->
          exists q, assoc "risk_score" a = Some (VFloat q)
                    /\ (80 <= q)%Q /\ (q <= 100)%Q)
    /\ ((100 < 80)%Q -> alerts = [])
    /\ ((80 <= 0)%Q -> length alerts = nrows fitted_scored).
Proof.
  apply (alerts_of_a_scored_table stub_libraries small_batch fresh_process
           fitted_process fitted_scored 80).
  - exact small_batch_rectangular.
  - left. exists fitted_pipeline. vm_compute. reflexivity.
Defined.

(** ** The filters of the dashboard *)

Lemma filter_filter_and {A} (p q : A -> bool) (l : list A) :
  List.filter q (List.filter p l) = List.filter (fun x => p x && q x) l.
Proof.
  induction l as [|x l IH]; [reflexivity|]. simpl.
  destruct (p x); simpl; [destruct (q x)|]; rewrite IH; reflexivity.
Qed.

Lemma map_outcome_map_Ok {A B C} (g : B -> outcome C) (f : A -> B) (d : C)
    (l : list A) (out : list C) :
  map_outcome g (map f l) = Ok out ->
  out = map (fun x => match g (f x) with Ok y => y | Raise _ => d end) l.
Proof.
  revert out. induction l as [|x l IH]; intros out H; simpl in H.
  - apply Ok_inj in H. subst out. reflexivity.
  - apply obind_Ok in H as (y & Hy & H). apply obind_Ok in H as (ys & Hys & H).
    apply Ok_inj in H. subst out. cbn [map]. rewrite Hy, <- (IH _ Hys). reflexivity.
Qed.

Lemma as_mask_map {A} (f : A -> value) (l : list A) (mask : list bool) :
  as_mask (map f l) = Ok mask ->
  mask = map (fun x => value_eqb (VBool true) (f x)) l.
Proof.
  unfold as_mask. revert mask. induction l as [|x l IH]; intros mask H; simpl in H.
  - apply Ok_inj in H. subst mask. reflexivity.
  - apply obind_Ok in H as (y & Hy & H). apply obind_Ok in H as (ys & Hys & H).
    apply Ok_inj in H. subst mask. cbn [map]. rewrite <- (IH _ Hys). f_equal.
    destruct (f x); try discriminate. apply Ok_inj in Hy. subst y.
    destruct b; reflexivity.
Qed.

(** One filter on the table of the rows [rows]. *)
Lemma filter_step df rows c (g : value -> bool) (col : list value) :
  getitem (take_rows df rows) c = Ok col ->
  boolean_index (take_rows df rows) (map g col)
  = take_rows df (List.filter (fun i => g (cell_or_missing df c i)) rows).
Proof.
  intros H. rewrite getitem_take_rows in H.
  destruct (getitem df c) as [e|col0] eqn:G; [discriminate|].
  apply Ok_inj in H. subst col. rewrite map_map.
  rewrite (boolean_index_take_rows df rows (fun i => g (cell_at col0 i))).
  f_equal. apply filter_ext. intros i.
  rewrite (cell_or_missing_getitem _ _ _ i G). reflexivity.
Qed.

Lemma apply_filters_rows (df : DataFrame) (filters : Filters) (out : DataFrame) :
  rectangular df ->
  _apply_filters df filters = Ok out ->
  out = take_rows df (List.filter (passes filters df) (all_rows df)).
Proof.
  intros Hrect H. unfold _apply_filters in H.
  apply obind_Ok in H as (d1 & H1 & H).
  apply obind_Ok in H as (d2 & H2 & H).
  apply obind_Ok in H as (d3 & H3 & H).
  apply obind_Ok in H as (d4 & H4 & H).
  apply Ok_inj in H. subst out.
  set (p1 := fun i => is_empty_list (user_filter filters)
                      || isin_str (user_filter filters)
                           (cell_or_missing df "user_id" i)).
  set (p2 := fun i => is_empty_list (type_filter filters)
                      || isin_str (type_filter filters)
                           (cell_or_missing df "file_type" i)).
  set (p3 := fun i => negb (show_only_anoms filters)
                      || value_eqb (VBool true)
                           (cell_or_missing df "anomaly_flag" i)).
  set (p4 := fun i => negb (existsb (String.eqb "risk_score") (column_names df))
                      || at_or_above (risk_threshold filters) df i).
  assert (E1 : d1 = take_rows df (List.filter p1 (all_rows df))).
  { unfold p1. destruct (is_empty_list (user_filter filters)); cbn [negb orb] in *.
    - apply Ok_inj in H1. subst d1. rewrite filter_all by auto.
      symmetry. apply take_all_rows, Hrect.
    - apply obind_Ok in H1 as (users & Hu & H1). apply Ok_inj in H1. subst d1.
      rewrite <- (filter_step df (all_rows df) "user_id"
                    (isin_str (user_filter filters)) users);
        rewrite (take_all_rows df Hrect); [reflexivity | exact Hu]. }
  subst d1.
  assert (E2 : d2 = take_rows df (List.filter p2 (List.filter p1 (all_rows df)))).
  { unfold p2. destruct (is_empty_list (type_filter filters)); cbn [negb orb] in *.
    - apply Ok_inj in H2. subst d2. rewrite (filter_all (fun _ => true)); auto.
    - apply obind_Ok in H2 as (types & Ht & H2). apply Ok_inj in H2. subst d2.
      apply (filter_step df _ "file_type" (isin_str (type_filter filters)) types Ht). }
  subst d2.
  assert (E3 : d3 = take_rows df (List.filter p3
                      (List.filter p2 (List.filter p1 (all_rows df))))).
  { unfold p3. destruct (show_only_anoms filters); cbn [negb orb] in *.
    - apply obind_Ok in H3 as (flags & Hf & H3).
      apply obind_Ok in H3 as (mask & Hm & H3). apply Ok_inj in H3. subst d3.
      pose proof Hf as Hf'. rewrite getitem_take_rows in Hf'.
      destruct (getitem df "anomaly_flag") as [e|col0] eqn:G; [discriminate|].
      apply Ok_inj in Hf'. subst flags.
      apply as_mask_map in Hm. subst mask.
      rewrite (boolean_index_take_rows df _
                 (fun i => value_eqb (VBool true) (cell_at col0 i))).
      f_equal. apply filter_ext. intros i.
      rewrite (cell_or_missing_getitem _ _ _ i G). reflexivity.
    - apply Ok_inj in H3. subst d3. rewrite (filter_all (fun _ => true)); auto. }
  subst d3.
  assert (E4 : d4 = take_rows df (List.filter p4 (List.filter p3
                      (List.filter p2 (List.filter p1 (all_rows df)))))).
  { unfold p4. rewrite column_names_take_rows in H4.
    destruct (existsb (String.eqb "risk_score") (column_names df));
      cbn [negb orb] in *.
    - apply obind_Ok in H4 as (risk & Hr & H4).
      apply obind_Ok in H4 as (mask & Hm & H4). apply Ok_inj in H4. subst d4.
      pose proof Hr as Hr'. rewrite getitem_take_rows in Hr'.
      destruct (getitem df "risk_score") as [e|col0] eqn:G; [discriminate|].
      apply Ok_inj in Hr'. subst risk.
      apply (map_outcome_map_Ok _ _ false) in Hm. subst mask.
      rewrite (boolean_index_take_rows df _
                 (fun i => match ge_scalar (risk_threshold filters) (cell_at col0 i)
                           with Ok y => y | Raise _ => false end)).
      f_equal. apply filter_ext. intros i. unfold at_or_above.
      rewrite (cell_or_missing_getitem _ _ _ i G). reflexivity.
    - apply Ok_inj in H4. subst d4. rewrite (filter_all (fun _ => true)); auto. }
  subst d4. rewrite !filter_filter_and. f_equal.
  apply filter_ext. intros i. unfold passes, p1, p2, p3, p4.
  rewrite ?andb_assoc. reflexivity.
Qed.

(** X21: the filtered table shows the rows that pass every filter that is
    switched on, and nothing else.  When [_apply_filters] returns, on a
    table whose columns have one cell per row, the result has the columns
    of the table and exactly its rows, in their order, whose user is among
    the selected users (an empty selection selects all), whose file type is
    among the selected types (likewise), that are flagged when only
    anomalies are asked for, and whose risk score is at or above the
    threshold when the table has a [risk_score] column; a row without a
    risk score never passes that last filter. *)
Theorem apply_filters_shows_the_passing_rows
    (df : DataFrame) (filters : Filters) (out : DataFrame) :
  rectangular df ->
  _apply_filters df filters = Ok out ->
  out = take_rows df (List.filter (passes filters df) (all_rows df))
  /\ column_names out = column_names df
  /\ (nrows out <= nrows df)%nat
  /\ (forall i, "risk_score" ∈ column_names df ->
                cell_or_missing df "risk_score" i = VNaN ->
                passes filters df i = false).
Proof.
  intros Hrect H. pose proof (apply_filters_rows df filters out Hrect H) as ->.
  split; [reflexivity|]. split; [apply column_names_take_rows|]. split.
  - cbn [take_rows nrows]. etransitivity; [apply filter_length_le|].
    unfold all_rows. rewrite length_seq. lia.
  - intros i Hc Hnan. unfold passes, at_or_above. rewrite Hnan.
    apply existsb_eqb_elem_of in Hc. rewrite Hc. cbn.
    apply andb_false_r.
Qed.

Lemma apply_filters_shows_the_passing_rows_witness :
  shown_accesses
  = take_rows fitted_scored
      (List.filter (passes anomalies_of_employee101 fitted_scored)
                   (all_rows fitted_scored))
  /\ column_names shown_accesses = column_names fitted_scored
  /\ (nrows shown_accesses <= nrows fitted_scored)%nat
  /\ (forall i, "risk_score" ∈ column_names fitted_scored ->
                cell_or_missing fitted_scored "risk_score" i = VNaN ->
                passes anomalies_of_employee101 fitted_scored i = false).
Proof.
  apply (apply_filters_shows_the_passing_rows fitted_scored
           anomalies_of_employee101).
  - exact fitted_scored_rectangular.
  - vm_compute. reflexivity.
Defined.

(** ** The check of predictions *)












(** * The application: timers and retraining *)

Lemma preserves_ret {S T A} (f : S -> T) (a : A) : preserves f (ret a : M S A).
Proof. intros s. reflexivity. Qed.

Lemma preserves_raise {S T A} (f : S -> T) (e : exn) :
  preserves f (raise e : M S A).
Proof. intros s. reflexivity. Qed.

Lemma preserves_lift {S T A} (f : S -> T) (r : outcome A) :
  preserves f (lift_outcome r : M S A).
Proof. intros s. reflexivity. Qed.

Lemma preserves_bind {S T A B} (f : S -> T) (c : M S A) (k : A -> M S B) :
  preserves f c -> (forall a, preserves f (k a)) -> preserves f (bind c k).
Proof.
  intros Hc Hk s. unfold bind. specialize (Hc s).
  destruct (c s) as [s1 [e|a]]; simpl in *; [exact Hc|].
  rewrite (Hk a s1). exact Hc.
Qed.

Section FilesKept.
Context (lib : Libraries).

Lemma logger_files level msg : preserves files (logger lib level msg).
Proof. intros s. reflexivity. Qed.

Lemma get_self_files : preserves files (get_self lib).
Proof. intros s. reflexivity. Qed.

Lemma set_pipeline_files p : preserves files (set_pipeline lib p).
Proof. intros s. reflexivity. Qed.

Lemma set_feature_columns_files cols :
  preserves files (set_feature_columns lib cols).
Proof. intros s. reflexivity. Qed.

(** [fit_and_score] writes no file, whether it returns or raises. *)
Lemma fit_and_score_files (df : DataFrame) :
  preserves files (fit_and_score lib df).
Proof.
  unfold fit_and_score.
  repeat first [ apply preserves_ret | apply preserves_lift
               | apply logger_files | apply get_self_files
               | apply set_pipeline_files | apply set_feature_columns_files
               | apply preserves_bind; [|intros ?] ].
Qed.

End FilesKept.

Section Retraining.
Context (lib : Libraries).

Lemma on_new_detector {A} (ds : list (AnomalyDetector lib)) (d : AnomalyDetector lib)
    (method : M (MLState lib) A) fs lg sdf sm sds pm clk ticks alog msgs :
  on_detector lib (length ds) method
    (mkApp (ds ++ [d])%list fs lg sdf sm sds pm clk ticks alog msgs)
  = (mkApp (<[length ds := detector (fst (method (mkMLState d fs lg)))]>
              (ds ++ [d])%list)
           (files (fst (method (mkMLState d fs lg))))
           (ml_log (fst (method (mkMLState d fs lg))))
           sdf sm sds pm clk ticks alog msgs,
     snd (method (mkMLState d fs lg))).
Proof.
  unfold on_detector. cbn [detectors app_files pipeline_log session_df
                           session_model session_df_scored performance_monitor
                           app_clock app_ticks app_log st_messages].
  rewrite (list_lookup_middle ds [] d _ eq_refl).
  destruct (method _) as [s r]. reflexivity.
Qed.

(** What [_retrain_model] does, by the outcome of the training. *)
Lemma retrain_model_run (a : App lib) (contamination : Q) :
  exists a',
    _retrain_model lib contamination a = (a', Ok tt)
    /\ app_files a' = app_files a
    /\ st_messages a'
       = (st_messages a
          ++ [("error", "Failed to retrain model. Please check the logs.")])%list
    /\ start_times (performance_monitor a') !! "model_training"
       = Some (app_clock a (app_ticks a))
    /\ metrics (performance_monitor a') = metrics (performance_monitor a)
    /\ forall df s1 p scored,
         session_df a = Some df ->
         fit_and_score lib df (retraining_state lib a contamination)
           = (s1, Ok (p, scored)) ->
         session_model a' = Some (PyPipeline p)
         /\ session_df_scored a' = Some scored
         /\ app_log a'
            = (app_log a
               ++ [("ERROR",
                    "Error retraining model: 'Pipeline' object has no attribute 'save_model'")])%list.
Proof.
  unfold _retrain_model, start_timer, app_now, set_monitor, get, modify.
  unfold bind at 1. unfold bind at 1. unfold bind at 1. unfold bind at 1.
  cbn [detectors app_files pipeline_log session_df session_model
       session_df_scored performance_monitor app_clock app_ticks app_log
       st_messages start_times metrics].
  unfold try_except, new_AnomalyDetector.
  unfold bind at 1. unfold bind at 1. unfold get.
  cbn [detectors app_files pipeline_log session_df session_model
       session_df_scored performance_monitor app_clock app_ticks app_log
       st_messages start_times metrics].
  unfold bind at 1. unfold call_fit_and_score.
  destruct (session_df a) as [df|] eqn:Edf.
  - rewrite (on_new_detector (detectors a) _ (fit_and_score lib df)).
    pose proof (fit_and_score_files lib df
                  (mkMLState (AnomalyDetector_init lib contamination 300)
                             (app_files a) (pipeline_log a))) as Hfiles.
    cbn [files] in Hfiles.
    destruct (fit_and_score lib df _) as [s1 [e|[p scored]]] eqn:Erun;
      cbn [fst snd] in *.
    + eexists. split; [reflexivity|].
      cbn [detectors app_files pipeline_log session_df session_model
           session_df_scored performance_monitor app_clock app_ticks app_log
           st_messages start_times metrics].
      split; [exact Hfiles|]. split; [reflexivity|].
      split; [apply lookup_insert_eq|]. split; [reflexivity|].
      intros df' s1' p' scored' Hdf' Hrun'. injection Hdf' as <-.
      unfold retraining_state in Hrun'. rewrite Erun in Hrun'. discriminate.
    + eexists. split; [reflexivity|].
      cbn [detectors app_files pipeline_log session_df session_model
           session_df_scored performance_monitor app_clock app_ticks app_log
           st_messages start_times metrics].
      split; [exact Hfiles|]. split; [reflexivity|].
      split; [apply lookup_insert_eq|]. split; [reflexivity|].
      intros df' s1' p' scored' Hdf' Hrun'. injection Hdf' as <-.
      unfold retraining_state in Hrun'. rewrite Erun in Hrun'.
      injection Hrun' as _ <- <-. auto.
  - rewrite (on_new_detector (detectors a) _
               (logger lib "INFO" "Starting model training and scoring" ;;;
                raise (AttributeError "'NoneType' object has no attribute 'copy'"))).
    eexists. split; [reflexivity|].
    cbn [detectors app_files pipeline_log session_df session_model
         session_df_scored performance_monitor app_clock app_ticks app_log
         st_messages start_times metrics].
    split; [reflexivity|]. split; [reflexivity|].
    split; [apply lookup_insert_eq|]. split; [reflexivity|].
    intros df' s1' p' scored' Hdf'. discriminate.
Qed.

End Retraining.

(** X23: retraining from the dashboard never saves the model and never
    reports success.  [_retrain_model] does not raise; whatever the
    training does, no file is written, the one Streamlit message added is
    the error "Failed to retrain model", the timer "model_training" stays
    started and no metric is recorded. *)
Theorem retrain_model_never_saves
    (lib : Libraries) (a : App lib) (contamination : Q) :
  exists a',
    _retrain_model lib contamination a = (a', Ok tt)
    /\ app_files a' = app_files a
    /\ st_messages a'
       = (st_messages a
          ++ [("error", "Failed to retrain model. Please check the logs.")])%list
    /\ start_times (performance_monitor a') !! "model_training"
       = Some (app_clock a (app_ticks a))
    /\ metrics (performance_monitor a') = metrics (performance_monitor a).
Proof.
  destruct (retrain_model_run lib a contamination)
    as (a' & H1 & H2 & H3 & H4 & H5 & _).
  exists a'. auto.
Qed.

(** X24: why: the name [detector] is bound again.  When the training
    succeeds, [fit_and_score] returns the pipeline first, the assignment
    [detector, df_scored = detector.fit_and_score(..)] binds [detector] to
    that pipeline, the session gets the pipeline as its model and the scored
    table, and [detector.save_model()] raises [AttributeError], a
    [Pipeline] having no such method; the handler logs it. *)
Theorem retrain_model_loses_the_detector
    (lib : Libraries) (a : App lib) (contamination : Q) (df : DataFrame)
    (s1 : MLState lib) (p : Pipeline (Estimator lib)) (scored : DataFrame) :
  session_df a = Some df ->
  fit_and_score lib df (retraining_state lib a contamination)
    = (s1, Ok (p, scored)) ->
  exists a',
    _retrain_model lib contamination a = (a', Ok tt)
    /\ session_model a' = Some (PyPipeline p)
    /\ session_df_scored a' = Some scored
    /\ app_files a' = app_files a
    /\ app_log a'
       = (app_log a
          ++ [("ERROR",
               "Error retraining model: 'Pipeline' object has no attribute 'save_model'")])%list.
Proof.
  intros Hdf Hrun.
  destruct (retrain_model_run lib a contamination)
    as (a' & H1 & H2 & _ & _ & _ & H6).
  destruct (H6 df s1 p scored Hdf Hrun) as (M1 & M2 & M3).
  exists a'. auto.
Qed.

Lemma retrain_model_loses_the_detector_witness :
  exists a',
    _retrain_model stub_libraries DEFAULT_CONTAMINATION demo_app = (a', Ok tt)
    /\ session_model a' = Some (PyPipeline fitted_pipeline)
    /\ session_df_scored a' = Some fitted_scored
    /\ app_files a' = app_files demo_app
    /\ app_log a'
       = (app_log demo_app
          ++ [("ERROR",
               "Error retraining model: 'Pipeline' object has no attribute 'save_model'")])%list.
Proof.
  apply (retrain_model_loses_the_detector stub_libraries demo_app
           DEFAULT_CONTAMINATION small_batch fitted_process fitted_pipeline
           fitted_scored).
  - reflexivity.
  - vm_compute. reflexivity.
Defined.

(** ** Timers *)

(** The seconds between two datetimes, whatever the normalisation of the
    difference does. *)
Lemma total_seconds_diff (x y : datetime.t) :
  (total_seconds (datetime_diff x y)
   == inject_Z (elapsed y x)
      + inject_Z (datetime.microsecond x - datetime.microsecond y) / 1000000)%Q.
Proof.
  unfold total_seconds, datetime_diff, elapsed, seconds_of.
  cbn [timedelta.days timedelta.seconds timedelta.microseconds].
  set (us := datetime.microsecond x - datetime.microsecond y).
  set (sx := datetime.hour x * 3600 + datetime.minute x * 60 + datetime.second x).
  set (sy := datetime.hour y * 3600 + datetime.minute y * 60 + datetime.second y).
  assert (E : ((datetime.ordinal x - datetime.ordinal y
                + (sx - sy + us / 1000000) / 86400) * 86400
               + (sx - sy + us / 1000000) mod 86400) * 1000000
              + us mod 1000000
              = (datetime.ordinal x * 86400 + sx
                 - (datetime.ordinal y * 86400 + sy)) * 1000000 + us).
  { Z.div_mod_to_equations. lia. }
  rewrite E.
  replace (datetime.ordinal x * 86400 + datetime.hour x * 3600
           + datetime.minute x * 60 + datetime.second x
           - (datetime.ordinal y * 86400 + datetime.hour y * 3600
              + datetime.minute y * 60 + datetime.second y))
    with (datetime.ordinal x * 86400 + sx - (datetime.ordinal y * 86400 + sy))
    by (unfold sx, sy; ring).
  rewrite inject_Z_plus, inject_Z_mult. field.
Qed.

(** X25: a timer measures the time between its two readings of the clock,
    once.  After [start_timer], [end_timer] returns the seconds between
    the reading of the clock at the start and the one at the end, records
    them as the metric of the operation and forgets the timer; a second
    [end_timer] returns 0.0, reads no clock and changes nothing. *)
Theorem timer_measures_once (lib : Libraries) (a : App lib) (operation : string) :
  exists a1 a2 duration,
    start_timer lib operation a = (a1, Ok tt)
    /\ end_timer lib operation a1 = (a2, Ok duration)
    /\ (duration
        == inject_Z (elapsed (app_clock a (app_ticks a))
                             (app_clock a (S (app_ticks a))))
           + inject_Z (datetime.microsecond (app_clock a (S (app_ticks a)))
                       - datetime.microsecond (app_clock a (app_ticks a)))
             / 1000000)%Q
    /\ metrics (performance_monitor a2) !! operation = Some duration
    /\ start_times (performance_monitor a2) !! operation = None
    /\ end_timer lib operation a2 = (a2, Ok 0%Q).
Proof.
  eexists. eexists. eexists. split; [reflexivity|].
  unfold end_timer. unfold bind at 1. unfold get.
  cbn [performance_monitor start_times fst].
  rewrite lookup_insert_eq.
  split; [reflexivity|].
  cbn [performance_monitor start_times metrics app_clock app_ticks].
  split; [apply total_seconds_diff|].
  split; [apply lookup_insert_eq|].
  split; [apply lookup_delete_eq|].
  unfold bind at 1. unfold get.
  cbn [performance_monitor start_times].
  rewrite lookup_delete_eq. reflexivity.
Qed.
